(** * nuthatch: HTTP/1.1 + WebSocket server, shallow embedding

    The C sources (sz.c, ht.c, io.c, mem.c, ws.c, http.c, net.c, rnd.c) are
    embedded function by function.  Conventions:

    - a byte is a [Z] in [0, 256); a byte stream or buffer is a [list Z];
    - a C string ([char *]) is the list of the bytes before its NUL
      terminator; a possibly-NULL pointer is an [option];
    - machine integers are [Z] with the wrap-around written out;
    - a [FILE *] or descriptor opened for reading is the list of bytes not
      yet consumed; one opened for writing is the list of bytes written so
      far (an in-memory sink such as [open_memstream], which accepts every
      write);
    - the heap is unbounded: [malloc]/[realloc] do not fail.  Where the
      source uses their result unchecked, as [alloc_dataframe] does, the
      model stands for the runs in which the block was given; a frame
      header may announce more than any heap holds, and what is proved of
      a websocket session is proved of those runs;
    - logging ([dlogf], [ilogf], [wlogf], [elogf]) has no effect on the
      modelled state and is left out;
    - a loop that reads from a stream is a [Fixpoint] on a bound for the
      number of passes, taken from the length of the stream.  Where running
      out of the bound is a result of its own ([None]), the function is
      shown below to return for every input. *)

From Stdlib Require Import ZArith List Lia Bool String Ascii.
Import ListNotations.
Open Scope Z_scope.

(* ================================================================== *)
(** * C scalars and byte strings *)
(* ================================================================== *)

Definition uint8_t (x : Z) : Z := x mod 2 ^ 8.
Definition uint16_t (x : Z) : Z := x mod 2 ^ 16.
Definition uint32_t (x : Z) : Z := x mod 2 ^ 32.
Definition uint64_t (x : Z) : Z := x mod 2 ^ 64.
(** conversion to a signed 32-bit [int] (two's complement, as gcc does) *)
Definition int32_t (x : Z) : Z := (x + 2 ^ 31) mod 2 ^ 32 - 2 ^ 31.

Definition byte_of_ascii (c : ascii) : Z := Z.of_N (N_of_ascii c).
Definition ascii_of_byte (b : Z) : ascii := ascii_of_N (Z.to_N b).

(** the bytes of a string literal *)
Definition sz (s : string) : list Z := map byte_of_ascii (list_ascii_of_string s).
Definition string_of_bytes (l : list Z) : string :=
  string_of_list_ascii (map ascii_of_byte l).

Fixpoint bytes_eqb (a b : list Z) : bool :=
  match a, b with
  | [], [] => true
  | x :: a', y :: b' => (x =? y) && bytes_eqb a' b'
  | _, _ => false
  end.

(** the C-string view of a buffer: the bytes before the first NUL *)
Fixpoint c_str (buf : list Z) : list Z :=
  match buf with
  | [] => []
  | c :: buf' => if c =? 0 then [] else c :: c_str buf'
  end.

(** [strlen] *)
Definition strlen (s : list Z) : Z := Z.of_nat (List.length s).

(** [strcmp(a,b)==0] *)
Definition strcmp_eq (a b : list Z) : bool := bytes_eqb a b.

(** big-endian bytes of [x], [n] of them: the memory of [htobe16(x)] or
    [htobe64(x)] *)
Fixpoint htobe (n : nat) (x : Z) : list Z :=
  match n with
  | O => []
  | S n' => Z.land (Z.shiftr x (8 * Z.of_nat n')) 255 :: htobe n' x
  end.

(** the value of big-endian bytes: [be16toh], [be64toh] of the memory read *)
Definition betoh (bs : list Z) : Z :=
  fold_left (fun acc b => Z.lor (Z.shiftl acc 8) b) bs 0.

(** [printf("%d")] of an [int] *)
Fixpoint dec_digits (fuel : nat) (n : Z) (acc : list Z) : list Z :=
  match fuel with
  | O => acc
  | S fuel' =>
      let acc' := (48 + n mod 10) :: acc in
      if n / 10 =? 0 then acc' else dec_digits fuel' (n / 10) acc'
  end.

Definition printf_d (n : Z) : list Z :=
  if n <? 0 then 45 :: dec_digits 20 (- n) [] else dec_digits 20 n [].

(* ================================================================== *)
(** * libc: ctype, strtok, atoi, sscanf *)
(* ================================================================== *)

(** [tolower] in the C locale *)
Definition tolower (c : Z) : Z :=
  if (65 <=? c) && (c <=? 90) then c + 32 else c.

(** [isspace] in the C locale: SP, HT, LF, VT, FF, CR *)
Definition isspace (c : Z) : bool :=
  (c =? 32) || ((9 <=? c) && (c <=? 13)).

Definition isdigit (c : Z) : bool := (48 <=? c) && (c <=? 57).

(** [strchr(set, c) != NULL] for [c] not NUL *)
Definition strchr (set : list Z) (c : Z) : bool := existsb (Z.eqb c) set.

Fixpoint skip_delims (delims s : list Z) : list Z :=
  match s with
  | [] => []
  | c :: s' => if strchr delims c then skip_delims delims s' else s
  end.

Fixpoint take_token (delims s : list Z) : list Z * list Z :=
  match s with
  | [] => ([], [])
  | c :: s' =>
      if strchr delims c then ([], s')
      else let '(tok, rest) := take_token delims s' in (c :: tok, rest)
  end.

(** [strtok]: the first argument is the text still to scan (the given string
    on the first call, the saved position on a call with NULL).  The result
    is the token and the saved position, or [None] for a NULL return. *)
Definition strtok (s delims : list Z) : option (list Z * list Z) :=
  match skip_delims delims s with
  | [] => None
  | s' => Some (take_token delims s')
  end.

Fixpoint skip_space (s : list Z) : list Z :=
  match s with
  | [] => []
  | c :: s' => if isspace c then skip_space s' else s
  end.

(** the digits at the head of [s], accumulated in base ten, and what follows *)
Fixpoint scan_digits (s : list Z) (acc : Z) : Z * list Z :=
  match s with
  | [] => (acc, [])
  | c :: s' => if isdigit c then scan_digits s' (10 * acc + (c - 48)) else (acc, s)
  end.

(** a [%d] conversion / the subject of [strtol]: white space, an optional
    sign, at least one digit.  [None] when there is no digit. *)
Definition scan_int (s : list Z) : option (Z * list Z) :=
  let s1 := skip_space s in
  let '(neg, s2) :=
    match s1 with
    | 45 :: t => (true, t)
    | 43 :: t => (false, t)
    | _ => (false, s1)
    end in
  match s2 with
  | c :: _ =>
      if isdigit c then
        let '(v, rest) := scan_digits s2 0 in
        Some (if neg then - v else v, rest)
      else None
  | [] => None
  end.

(** [strtol(s, NULL, 10)]: saturates at the limits of [long] *)
Definition strtol (s : list Z) : Z :=
  match scan_int s with
  | Some (v, _) => Z.max (- 2 ^ 63) (Z.min (2 ^ 63 - 1) v)
  | None => 0
  end.

(** [atoi(s)] is [(int) strtol(s, NULL, 10)] *)
Definition atoi (s : list Z) : Z := int32_t (strtol s).

Fixpoint match_literal (lit s : list Z) : option (list Z) :=
  match lit, s with
  | [], _ => Some s
  | a :: lit', b :: s' => if a =? b then match_literal lit' s' else None
  | _ :: _, [] => None
  end.

(** [sscanf(version, "HTTP/%d.%d", &v_maj, &v_min)]: [Some (v_maj, v_min)]
    when the call returns 2 (the literal text matched and both conversions
    were done), [None] for every other return value *)
Definition sscanf_http_version (version : list Z) : option (Z * Z) :=
  match match_literal (sz "HTTP/") version with
  | None => None
  | Some s1 =>
      match scan_int s1 with
      | None => None
      | Some (v_maj, s2) =>
          match match_literal (sz ".") s2 with
          | None => None
          | Some s3 =>
              match scan_int s3 with
              | None => None
              | Some (v_min, _) => Some (int32_t v_maj, int32_t v_min)
              end
          end
      end
  end.

(* ================================================================== *)
(** * sz.c *)
(* ================================================================== *)

Fixpoint sz_starts_with_case_loop (i j : list Z) (ignore_case : bool) : bool :=
  match i, j with
  | a :: i', b :: j' =>
      let a' := if ignore_case then tolower a else a in
      let b' := if ignore_case then tolower b else b in
      if negb (a' =? b') then false
      else sz_starts_with_case_loop i' j' ignore_case
  | _, [] => true
  | [], _ :: _ => false
  end.

Definition sz_starts_with_case (s prefix : option (list Z)) (ignore_case : bool) : bool :=
  match s, prefix with
  | Some i, Some j => sz_starts_with_case_loop i j ignore_case
  | _, _ => false
  end.

Definition sz_starts_with (s prefix : option (list Z)) : bool :=
  sz_starts_with_case s prefix false.

Definition sz_to_lower (s : list Z) : list Z := map tolower s.

Fixpoint sz_equal_ignore_case_loop (sz1 sz2 : list Z) : bool :=
  match sz1, sz2 with
  | a :: sz1', b :: sz2' =>
      if negb (tolower a =? tolower b) then false
      else sz_equal_ignore_case_loop sz1' sz2'
  | [], [] => true
  | _, _ => false
  end.

Definition sz_equal_ignore_case (sz1 sz2 : option (list Z)) : bool :=
  match sz1, sz2 with
  | None, None => true
  | Some a, Some b => sz_equal_ignore_case_loop a b
  | _, _ => false
  end.

Definition SP_HT : list Z := sz " " ++ [9; 10; 13].

Definition sz_trim (s : list Z) : list Z :=
  let s1 := skip_delims SP_HT s in
  rev (skip_delims SP_HT (rev s1)).

Definition sz_cat (sz1 sz2 : list Z) : list Z := sz1 ++ sz2.

(* ================================================================== *)
(** * mem.c *)
(* ================================================================== *)

(** [mem_append]: the new block and the new length.  A block is the list of
    its bytes; [realloc] keeps the bytes that fit. *)
Definition mem_append (dest : option (list Z)) (dest_len : Z)
    (src : list Z) (src_len : Z) : option (list Z) * Z :=
  let len := dest_len + src_len in
  let old := match dest with None => [] | Some d => d end in
  (Some (firstn (Z.to_nat dest_len) old ++ firstn (Z.to_nat src_len) src), len).

(* ================================================================== *)
(** * ht.c *)
(* ================================================================== *)

Definition HASH_MUL : Z := 31.

Definition ht_hash_sz (str : list Z) : Z :=
  fold_left (fun h p => uint32_t (HASH_MUL * h + p)) str 0.

(** [a[n] = x] on an array *)
Fixpoint set_nth {A} (n : nat) (x : A) (l : list A) : list A :=
  match n, l with
  | _, [] => []
  | O, _ :: l' => x :: l'
  | S n', y :: l' => y :: set_nth n' x l'
  end.

Section Hashtable.
Variable V : Type.

Record NVP := { nvp_key : list Z; nvp_val : V }.

Record Hashtable_S := {
  ht_size_f : Z;
  ht_nhash : Z;
  ht_hash : list Z -> Z;
  ht_chains : list (list NVP)
}.

(** [ht_create]: the table, when [alloc_size] is its size in bytes (see
    [ht_alloc_size]); every caller in the sources passes 0 for [nhash] *)
Definition ht_create (nhash : Z) (hash : option (list Z -> Z)) : Hashtable_S :=
  let nhash := if nhash =? 0 then 1021 else nhash in
  let hash := match hash with None => ht_hash_sz | Some h => h end in
  {| ht_size_f := 0; ht_nhash := nhash; ht_hash := hash;
     ht_chains := repeat [] (Z.to_nat nhash) |}.

Definition ht_size (ht : Hashtable_S) : Z := ht_size_f ht.

Definition ht_chain (ht : Hashtable_S) (h : Z) : list NVP :=
  nth (Z.to_nat h) (ht_chains ht) [].

(** the search of [ht_get], [ht_contains] and [ht_put] along a chain *)
Fixpoint chain_find (key : list Z) (nvp : list NVP) : option NVP :=
  match nvp with
  | [] => None
  | e :: next => if strcmp_eq key (nvp_key e) then Some e else chain_find key next
  end.

(** the update branch of [ht_put]: replace the value of the first node
    whose key compares equal *)
Fixpoint chain_update (key : list Z) (val : V) (nvp : list NVP) : list NVP :=
  match nvp with
  | [] => []
  | e :: next =>
      if strcmp_eq key (nvp_key e)
      then {| nvp_key := nvp_key e; nvp_val := val |} :: next
      else e :: chain_update key val next
  end.

Definition ht_put (ht : Hashtable_S) (key : list Z) (val : V) : Hashtable_S :=
  let h := uint32_t (ht_hash ht key mod ht_nhash ht) in
  let nvp := ht_chain ht h in
  match chain_find key nvp with
  | Some _ =>
      {| ht_size_f := ht_size_f ht; ht_nhash := ht_nhash ht; ht_hash := ht_hash ht;
         ht_chains := set_nth (Z.to_nat h) (chain_update key val nvp) (ht_chains ht) |}
  | None =>
      {| ht_size_f := uint64_t (ht_size_f ht + 1);
         ht_nhash := ht_nhash ht; ht_hash := ht_hash ht;
         ht_chains := set_nth (Z.to_nat h)
                        ({| nvp_key := key; nvp_val := val |} :: nvp) (ht_chains ht) |}
  end.

Definition ht_contains (ht : Hashtable_S) (key : list Z) : bool :=
  let h := uint32_t (ht_hash ht key mod ht_nhash ht) in
  match chain_find key (ht_chain ht h) with
  | Some _ => true
  | None => false
  end.

(** [ht_get]: [None] is the NULL returned for a key that is not there *)
Definition ht_get (ht : Hashtable_S) (key : list Z) : option V :=
  let h := uint32_t (ht_hash ht key mod ht_nhash ht) in
  match chain_find key (ht_chain ht h) with
  | Some e => Some (nvp_val e)
  | None => None
  end.
End Hashtable.

Arguments nvp_key {V} _.
Arguments nvp_val {V} _.
Arguments ht_size_f {V} _.
Arguments ht_nhash {V} _.
Arguments ht_hash {V} _.
Arguments ht_chains {V} _.
Arguments ht_create {V} _ _.
Arguments ht_size {V} _.
Arguments ht_chain {V} _ _.
Arguments chain_find {V} _ _.
Arguments chain_update {V} _ _ _.
Arguments ht_put {V} _ _ _.
Arguments ht_contains {V} _ _.
Arguments ht_get {V} _ _.

(** header tables map a name to a C string *)
Definition Http_Headers : Type := Hashtable_S (list Z).

(* ================================================================== *)
(** * OpenSSL: SHA-1 and the base64 BIO *)
(* ================================================================== *)

(** [SHA1] and [BIO_f_base64] are library code that ws.c and io.c call.
    They are modelled after FIPS 180-4 and RFC 4648. *)

Definition add32 (a b : Z) : Z := (a + b) mod 2 ^ 32.
Definition rotl32 (n x : Z) : Z :=
  Z.lor (Z.shiftl x n mod 2 ^ 32) (Z.shiftr x (32 - n)).
Definition not32 (x : Z) : Z := Z.lxor x (2 ^ 32 - 1).

Definition sha1_pad (msg : list Z) : list Z :=
  let l := Z.of_nat (List.length msg) in
  let k := (55 - l) mod 64 in
  msg ++ [128] ++ repeat 0 (Z.to_nat k) ++ htobe 8 (8 * l).

Fixpoint be_words (n : nat) (bs : list Z) : list Z :=
  match n with
  | O => []
  | S n' => betoh (firstn 4 bs) :: be_words n' (skipn 4 bs)
  end.

(** the message schedule, most recent word first *)
Fixpoint sha1_schedule (n : nat) (rw : list Z) : list Z :=
  match n with
  | O => rw
  | S n' =>
      let w := rotl32 1 (Z.lxor (Z.lxor (Z.lxor (nth 2 rw 0) (nth 7 rw 0))
                                        (nth 13 rw 0)) (nth 15 rw 0)) in
      sha1_schedule n' (w :: rw)
  end.

Definition sha1_f (t b c d : Z) : Z :=
  if t <? 20 then Z.lor (Z.land b c) (Z.land (not32 b) d)
  else if t <? 40 then Z.lxor (Z.lxor b c) d
  else if t <? 60 then Z.lor (Z.lor (Z.land b c) (Z.land b d)) (Z.land c d)
  else Z.lxor (Z.lxor b c) d.

Definition sha1_k (t : Z) : Z :=
  if t <? 20 then 0x5A827999
  else if t <? 40 then 0x6ED9EBA1
  else if t <? 60 then 0x8F1BBCDC
  else 0xCA62C1D6.

Definition sha1_state : Type := (Z * Z * Z * Z * Z)%type.

Fixpoint sha1_rounds (t : Z) (ws : list Z) (s : sha1_state) : sha1_state :=
  match ws with
  | [] => s
  | w :: ws' =>
      let '(a, b, c, d, e) := s in
      let temp := add32 (add32 (add32 (add32 (rotl32 5 a) (sha1_f t b c d)) e)
                               (sha1_k t)) w in
      sha1_rounds (t + 1) ws' (temp, a, rotl32 30 b, c, d)
  end.

Definition sha1_block (s : sha1_state) (block : list Z) : sha1_state :=
  let ws := rev (sha1_schedule 64 (rev (be_words 16 block))) in
  let '(h0, h1, h2, h3, h4) := s in
  let '(a, b, c, d, e) := sha1_rounds 0 ws s in
  (add32 h0 a, add32 h1 b, add32 h2 c, add32 h3 d, add32 h4 e).

Fixpoint sha1_blocks (n : nat) (s : sha1_state) (bs : list Z) : sha1_state :=
  match n with
  | O => s
  | S n' => sha1_blocks n' (sha1_block s (firstn 64 bs)) (skipn 64 bs)
  end.

(** [SHA1(d, n, md)]: the 20 bytes of the digest *)
Definition SHA1 (d : list Z) : list Z :=
  let p := sha1_pad d in
  let '(h0, h1, h2, h3, h4) :=
    sha1_blocks (List.length p / 64)
      (0x67452301, 0xEFCDAB89, 0x98BADCFE, 0x10325476, 0xC3D2E1F0) p in
  htobe 4 h0 ++ htobe 4 h1 ++ htobe 4 h2 ++ htobe 4 h3 ++ htobe 4 h4.

Definition SHA_DIGEST_LENGTH : Z := 20.

Definition b64_alphabet : list Z :=
  sz "ABCDEFGHIJKLMNOPQRSTUVWXYZabcdefghijklmnopqrstuvwxyz0123456789+/".

Definition b64_char (i : Z) : Z := nth (Z.to_nat i) b64_alphabet 0.

(** base64 with [BIO_FLAGS_BASE64_NO_NL]: one line, padded with [=] *)
Fixpoint b64_encode (bs : list Z) : list Z :=
  match bs with
  | [] => []
  | [a] =>
      [b64_char (Z.shiftr a 2); b64_char (Z.shiftl (Z.land a 3) 4); 61; 61]
  | [a; b] =>
      [b64_char (Z.shiftr a 2);
       b64_char (Z.lor (Z.shiftl (Z.land a 3) 4) (Z.shiftr b 4));
       b64_char (Z.shiftl (Z.land b 15) 2); 61]
  | a :: b :: c :: rest =>
      b64_char (Z.shiftr a 2)
      :: b64_char (Z.lor (Z.shiftl (Z.land a 3) 4) (Z.shiftr b 4))
      :: b64_char (Z.lor (Z.shiftl (Z.land b 15) 2) (Z.shiftr c 6))
      :: b64_char (Z.land c 63)
      :: b64_encode rest
  end.

(* ================================================================== *)
(** * io.c *)
(* ================================================================== *)

(** [read(fd, buf, n)] on a descriptor with [fd] left to deliver: the bytes
    read and the bytes left *)
Definition read (fd : list Z) (n : Z) : list Z * list Z :=
  (firstn (Z.to_nat n) fd, skipn (Z.to_nat n) fd).

(** the loop of [io_copy_stream]; every pass with a non-empty read shortens
    [fd_in], so [fuel] above its length is never used up *)
Fixpoint io_copy_stream_loop (fuel : nat) (fd_out fd_in : list Z)
    (buff_size total : Z) : Z * list Z * list Z :=
  match fuel with
  | O => (uint64_t total, fd_out, fd_in)
  | S fuel' =>
      let '(buff, fd_in') := read fd_in buff_size in
      let n := Z.of_nat (List.length buff) in
      if 0 <? n
      then io_copy_stream_loop fuel' (fd_out ++ buff) fd_in' buff_size (total + n)
      else (uint64_t total, fd_out, fd_in')
  end.

(** [io_copy_stream]: the count returned, then the two descriptors *)
Definition io_copy_stream (fd_out fd_in : list Z) (buff_size : Z)
  : Z * list Z * list Z :=
  io_copy_stream_loop (S (List.length fd_in)) fd_out fd_in buff_size 0.

(** the loop of [io_read_line_crlf]: [line] is what has been stored in the
    buffer, [ch_prev] the byte before.  The result is the line stored
    (without the CR that [*(pch_line-1) = 0] overwrites), or [None] for -1,
    and the descriptor. *)
Fixpoint io_read_line_crlf_loop (fd : list Z) (buffer_len : Z)
    (line : list Z) (ch_prev : Z) : option (list Z) * list Z :=
  match fd with
  | [] => (None, [])
  | ch :: fd' =>
      if Z.of_nat (List.length line) >=? buffer_len - 1 then (None, fd')
      else if (ch_prev =? 13) && (ch =? 10) then (Some (removelast line), fd')
      else io_read_line_crlf_loop fd' buffer_len (line ++ [ch]) ch
  end.

(** [io_read_line_crlf(fd, buffer, buffer_len)]: [Some line] when the call
    returns the length of [line], which it has put in the buffer; [None]
    when it returns -1.  Second, the descriptor. *)
Definition io_read_line_crlf (fd : list Z) (buffer_len : Z)
  : option (list Z) * list Z :=
  if buffer_len <? 1 then (None, fd)
  else io_read_line_crlf_loop fd buffer_len [] 0.

(** [io_encode_b64(out, bytes, len)]: the count returned and the stream *)
Definition io_encode_b64 (out : list Z) (bytes : list Z) (len : Z)
  : Z * list Z :=
  (len, out ++ b64_encode (firstn (Z.to_nat len) bytes)).

(* ================================================================== *)
(** * http.h / http.c: constants shared with ws.c *)
(* ================================================================== *)

Definition CRLF : list Z := [13; 10].

Definition H_CONTENT_LENGTH : list Z := sz "content-length".
Definition H_EXPECT : list Z := sz "expect".
Definition H_CONNECTION : list Z := sz "connection".
Definition H_UPGRADE : list Z := sz "upgrade".
Definition HV_EXPECT_100_CONTINUE : list Z := sz "100-continue".

Definition MAX_HTTP_REQ : Z := 8192.
Definition MAX_HTTP_HEADER : Z := 8192.

Inductive HTTP_Method :=
  | M_UNKNOWN | M_GET | M_HEAD | M_POST | M_PUT | M_PATH | M_DELETE
  | M_OPTIONS | M_TRACE.

(* ================================================================== *)
(** * ws.c: data frames *)
(* ================================================================== *)

Definition H_SEC_WEBSOCKET_KEY : list Z := sz "sec-websocket-key".
Definition H_SEC_WEBSOCKET_EXT : list Z := sz "sec-websocket-extensions".
Definition H_SEC_WEBSOCKET_ACCEPT : list Z := sz "sec-websocket-accept".
Definition WS_UPGRADE : list Z := sz "websocket".
Definition WS_MAGIC : list Z := sz "258EAFA5-E914-47DA-95CA-C5AB0DC85B11".

Definition OC_CONT : Z := 0x0.
Definition OC_TEXT : Z := 0x1.
Definition OC_BIN : Z := 0x2.
Definition OC_CLOSE : Z := 0x8.
Definition OC_PING : Z := 0x9.
Definition OC_PONG : Z := 0xA.

(** [struct Data_Frame_S].  The flexible array [payload] with its length
    [len] is the list [df_payload]; [df_size] is the allocated size. *)
Record Data_Frame := {
  df_opcode : Z;
  df_fin : bool;
  df_size : Z;
  df_payload : list Z
}.

Definition df_len (df : Data_Frame) : Z := Z.of_nat (List.length (df_payload df)).

Definition sizeof_Data_Frame_S : Z := 24.

(** [struct Data_Frame_Header_S]: two bytes of bit-fields, allocated from
    the least significant bit as gcc and clang do on little-endian targets,
    which is what makes the struct match the RFC 6455 picture *)
Record Data_Frame_Header_S := {
  dfh_opcode : Z;
  dfh_rsv3 : bool;
  dfh_rsv2 : bool;
  dfh_rsv1 : bool;
  dfh_fin : bool;
  dfh_len : Z;
  dfh_mask : bool
}.

(** the header as [fread(&dfh, sizeof(dfh), 1, f)] fills it *)
Definition dfh_of_bytes (hdr : list Z) : Data_Frame_Header_S :=
  let b0 := nth 0 hdr 0 in
  let b1 := nth 1 hdr 0 in
  {| dfh_opcode := Z.land b0 15;
     dfh_rsv3 := Z.testbit b0 4;
     dfh_rsv2 := Z.testbit b0 5;
     dfh_rsv1 := Z.testbit b0 6;
     dfh_fin := Z.testbit b0 7;
     dfh_len := Z.land b1 127;
     dfh_mask := Z.testbit b1 7 |}.

(** the two bytes that [fwrite(&dfh, sizeof(dfh), 1, f)] emits; a field
    keeps the low bits that fit its width *)
Definition dfh_bytes (dfh : Data_Frame_Header_S) : list Z :=
  [ Z.lor (Z.land (dfh_opcode dfh) 15)
      (Z.lor (Z.shiftl (Z.b2z (dfh_rsv3 dfh)) 4)
         (Z.lor (Z.shiftl (Z.b2z (dfh_rsv2 dfh)) 5)
            (Z.lor (Z.shiftl (Z.b2z (dfh_rsv1 dfh)) 6)
               (Z.shiftl (Z.b2z (dfh_fin dfh)) 7))));
    Z.lor (Z.land (dfh_len dfh) 127) (Z.shiftl (Z.b2z (dfh_mask dfh)) 7) ].

(** a payload area of [len] bytes over what the block held before; fresh
    bytes read as 0 *)
Definition resize (len : Z) (old : list Z) : list Z :=
  firstn (Z.to_nat len) (old ++ repeat 0 (Z.to_nat len - List.length old)).

(** [alloc_dataframe], when [malloc] or [realloc] gives the block: the
    source writes through the result without a test *)
Definition alloc_dataframe (opcode : Z) (fin : bool) (len : Z)
    (df : option Data_Frame) : Data_Frame :=
  let size := uint64_t (sizeof_Data_Frame_S + len) in
  match df with
  | None =>
      {| df_opcode := opcode; df_fin := fin; df_size := size;
         df_payload := resize len [] |}
  | Some d =>
      {| df_opcode := opcode; df_fin := fin;
         df_size := if df_size d <? size then size else df_size d;
         df_payload := resize len (df_payload d) |}
  end.

(** [payload[i] ^ mask_key[i%4]], the payload given starting at index [i] *)
Fixpoint xor_mask (mask_key : list Z) (i : Z) (payload : list Z) : list Z :=
  match payload with
  | [] => []
  | p :: rest =>
      Z.lxor p (nth (Z.to_nat (i mod 4)) mask_key 0)
      :: xor_mask mask_key (uint64_t (i + 1)) rest
  end.

(** why [read_dataframe] went to [on_error], one constructor per [wlogf] *)
Inductive Read_Error :=
  | Failed_header
  | Unexpected_mask_bit
  | Failed_len64
  | Len64_msb_set
  | Failed_len16
  | Failed_mask_key
  | Failed_payload.

(** reading from a [FILE *]: a computation takes the bytes left and gives a
    value or an error, and the bytes left afterwards *)
Definition Rd (A : Type) : Type := list Z -> (Read_Error + A) * list Z.

Definition rd_ret {A} (a : A) : Rd A := fun f => (inr a, f).
Definition rd_fail {A} (e : Read_Error) : Rd A := fun f => (inl e, f).
Definition rd_bind {A B} (m : Rd A) (k : A -> Rd B) : Rd B :=
  fun f => match m f with
           | (inl e, f') => (inl e, f')
           | (inr a, f') => k a f'
           end.

(** [fread(ptr, n, 1, f) != 1] goes to [on_error] with [e]; a short read
    leaves the stream at its end *)
Definition rd_fread (n : Z) (e : Read_Error) : Rd (list Z) :=
  fun f => if Z.of_nat (List.length f) <? n then (inl e, [])
           else (inr (firstn (Z.to_nat n) f), skipn (Z.to_nat n) f).

Notation "x <- m ;; k" := (rd_bind m (fun x => k))
  (at level 61, m at next level, right associativity).

(** [read_dataframe(f, require_masked, df)]: [inl] is the NULL return *)
Definition read_dataframe (f : list Z) (require_masked : bool)
    (df : option Data_Frame) : (Read_Error + Data_Frame) * list Z :=
  (hdr <- rd_fread 2 Failed_header ;;
   let dfh := dfh_of_bytes hdr in
   if negb (dfh_mask dfh) && require_masked then rd_fail Unexpected_mask_bit
   else
     len64 <- (if dfh_len dfh =? 127 then
                 b <- rd_fread 8 Failed_len64 ;;
                 let len64 := betoh b in
                 if negb (Z.land len64 (Z.shiftl 1 63) =? 0)
                 then rd_fail Len64_msb_set
                 else rd_ret len64
               else if dfh_len dfh =? 126 then
                 b <- rd_fread 2 Failed_len16 ;;
                 rd_ret (betoh b)
               else rd_ret (dfh_len dfh)) ;;
     mask_key <- (if dfh_mask dfh then rd_fread 4 Failed_mask_key
                  else rd_ret [0; 0; 0; 0]) ;;
     let df := alloc_dataframe (dfh_opcode dfh) (dfh_fin dfh) len64 df in
     if 0 <? len64 then
       payload <- rd_fread len64 Failed_payload ;;
       let payload := if dfh_mask dfh then xor_mask mask_key 0 payload
                      else payload in
       rd_ret {| df_opcode := df_opcode df; df_fin := df_fin df;
                 df_size := df_size df; df_payload := payload |}
     else rd_ret df) f.

(** [write_dataframe(f, df, mask_key)]: the result, the stream, and the
    frame, whose payload the function masks in place *)
Definition write_dataframe (f : list Z) (df : Data_Frame)
    (mask_key : option (list Z)) : bool * list Z * Data_Frame :=
  let dfh len :=
    {| dfh_opcode := df_opcode df;
       dfh_rsv3 := false; dfh_rsv2 := false; dfh_rsv1 := false;
       dfh_fin := df_fin df;
       dfh_len := len;
       dfh_mask := match mask_key with None => false | Some _ => true end |} in
  let f :=
    if df_len df <=? 125 then
      f ++ dfh_bytes (dfh (uint8_t (df_len df)))
    else if df_len df <=? 0xffff then
      f ++ dfh_bytes (dfh 126) ++ htobe 2 (uint16_t (df_len df))
    else
      f ++ dfh_bytes (dfh 127) ++ htobe 8 (uint64_t (df_len df)) in
  let f :=
    match mask_key with
    | Some k => f ++ firstn 4 k
    | None => f
    end in
  if 0 <? df_len df then
    let df :=
      match mask_key with
      | Some k =>
          {| df_opcode := df_opcode df; df_fin := df_fin df;
             df_size := df_size df;
             df_payload := xor_mask k 0 (df_payload df) |}
      | None => df
      end in
    (true, f ++ df_payload df, df)
  else (true, f, df).

(* ================================================================== *)
(** * ws.c: handshake and session *)
(* ================================================================== *)

Definition _ws_handshake (f_out : list Z) (headers : Http_Headers)
  : bool * list Z :=
  if negb (sz_equal_ignore_case (Some WS_UPGRADE) (ht_get headers H_UPGRADE))
  then (false, f_out)
  else
    let ws_key := ht_get headers H_SEC_WEBSOCKET_KEY in
    match ws_key with
    | None => (false, f_out)
    | Some ws_key =>
        let f_out := f_out ++ sz "HTTP/1.1 101 Switching Protocols" ++ CRLF in
        let f_out := f_out ++ H_CONNECTION ++ sz ": " ++ H_UPGRADE ++ CRLF in
        let f_out := f_out ++ H_UPGRADE ++ sz ": " ++ WS_UPGRADE ++ CRLF in
        let f_out := f_out ++ H_SEC_WEBSOCKET_ACCEPT ++ sz ": " in
        let ws_accept := sz_cat ws_key WS_MAGIC in
        let hash := SHA1 ws_accept in
        let '(_, f_out) := io_encode_b64 f_out hash SHA_DIGEST_LENGTH in
        let f_out := f_out ++ CRLF ++ CRLF in
        (true, f_out)
    end.

Inductive WS_Msg_Type := WS_ERROR | WS_CLOSE | WS_MSG_TXT | WS_MSG_BIN.

(** [WS_ERROR] as the [char] that [_ws_read] returns *)
Definition WS_ERROR_char : Z := 0.

Definition WS_STATUS_NORMAL : Z := 1000.
Definition WS_STATUS_GOING_AWAY : Z := 1001.
Definition WS_STATUS_PROTOCOL_ERROR : Z := 1002.
Definition WS_STATUS_CANT_ACCEPT : Z := 1003.

(** [struct Websocket_S].  [f_in] and [f_out] are the two streams, and the
    two flags say whether the [FILE *] is still non-NULL.  [buff] is the
    allocated block, of which the first [buff_len] bytes are the message. *)
Record Websocket_S := {
  f_in : list Z;
  f_in_open : bool;
  f_out : list Z;
  f_out_open : bool;
  is_masked_client : bool;
  df : option Data_Frame;
  buff : option (list Z);
  buff_len : Z;
  status_code : Z;
  ping_recv_count : Z;
  ping_sent_count : Z;
  pong_recv_count : Z
}.

(** [_ws_create]; [ping_sent_count] is not set by the C code *)
Definition _ws_create (f_in f_out : list Z) (masked_client : bool)
  : option Websocket_S * list Z :=
  let df := alloc_dataframe OC_PING true 0 None in
  let '(ok, f_out, df) := write_dataframe f_out df None in
  if negb ok then (None, f_out)
  else
    (Some {| f_in := f_in; f_in_open := true;
             f_out := f_out; f_out_open := true;
             is_masked_client := masked_client;
             df := Some df;
             buff := None;
             buff_len := 0;
             status_code := 0;
             ping_recv_count := 0;
             ping_sent_count := 0;
             pong_recv_count := 0 |}, f_out).

(** field updates, [ws->field = v] *)
Definition set_f_in (v : list Z) (ws : Websocket_S) : Websocket_S :=
  {| f_in := v; f_in_open := f_in_open ws;
     f_out := f_out ws; f_out_open := f_out_open ws;
     is_masked_client := is_masked_client ws; df := df ws;
     buff := buff ws; buff_len := buff_len ws; status_code := status_code ws;
     ping_recv_count := ping_recv_count ws;
     ping_sent_count := ping_sent_count ws;
     pong_recv_count := pong_recv_count ws |}.

Definition set_f_out (v : list Z) (ws : Websocket_S) : Websocket_S :=
  {| f_in := f_in ws; f_in_open := f_in_open ws;
     f_out := v; f_out_open := f_out_open ws;
     is_masked_client := is_masked_client ws; df := df ws;
     buff := buff ws; buff_len := buff_len ws; status_code := status_code ws;
     ping_recv_count := ping_recv_count ws;
     ping_sent_count := ping_sent_count ws;
     pong_recv_count := pong_recv_count ws |}.

Definition set_open (i o : bool) (ws : Websocket_S) : Websocket_S :=
  {| f_in := f_in ws; f_in_open := i;
     f_out := f_out ws; f_out_open := o;
     is_masked_client := is_masked_client ws; df := df ws;
     buff := buff ws; buff_len := buff_len ws; status_code := status_code ws;
     ping_recv_count := ping_recv_count ws;
     ping_sent_count := ping_sent_count ws;
     pong_recv_count := pong_recv_count ws |}.

Definition set_df (v : option Data_Frame) (ws : Websocket_S) : Websocket_S :=
  {| f_in := f_in ws; f_in_open := f_in_open ws;
     f_out := f_out ws; f_out_open := f_out_open ws;
     is_masked_client := is_masked_client ws; df := v;
     buff := buff ws; buff_len := buff_len ws; status_code := status_code ws;
     ping_recv_count := ping_recv_count ws;
     ping_sent_count := ping_sent_count ws;
     pong_recv_count := pong_recv_count ws |}.

Definition set_buff (v : option (list Z)) (ws : Websocket_S) : Websocket_S :=
  {| f_in := f_in ws; f_in_open := f_in_open ws;
     f_out := f_out ws; f_out_open := f_out_open ws;
     is_masked_client := is_masked_client ws; df := df ws;
     buff := v; buff_len := buff_len ws; status_code := status_code ws;
     ping_recv_count := ping_recv_count ws;
     ping_sent_count := ping_sent_count ws;
     pong_recv_count := pong_recv_count ws |}.

Definition set_buff_len (v : Z) (ws : Websocket_S) : Websocket_S :=
  {| f_in := f_in ws; f_in_open := f_in_open ws;
     f_out := f_out ws; f_out_open := f_out_open ws;
     is_masked_client := is_masked_client ws; df := df ws;
     buff := buff ws; buff_len := v; status_code := status_code ws;
     ping_recv_count := ping_recv_count ws;
     ping_sent_count := ping_sent_count ws;
     pong_recv_count := pong_recv_count ws |}.

Definition set_status_code (v : Z) (ws : Websocket_S) : Websocket_S :=
  {| f_in := f_in ws; f_in_open := f_in_open ws;
     f_out := f_out ws; f_out_open := f_out_open ws;
     is_masked_client := is_masked_client ws; df := df ws;
     buff := buff ws; buff_len := buff_len ws; status_code := v;
     ping_recv_count := ping_recv_count ws;
     ping_sent_count := ping_sent_count ws;
     pong_recv_count := pong_recv_count ws |}.

Definition set_ping_recv_count (v : Z) (ws : Websocket_S) : Websocket_S :=
  {| f_in := f_in ws; f_in_open := f_in_open ws;
     f_out := f_out ws; f_out_open := f_out_open ws;
     is_masked_client := is_masked_client ws; df := df ws;
     buff := buff ws; buff_len := buff_len ws; status_code := status_code ws;
     ping_recv_count := v;
     ping_sent_count := ping_sent_count ws;
     pong_recv_count := pong_recv_count ws |}.

Definition set_pong_recv_count (v : Z) (ws : Websocket_S) : Websocket_S :=
  {| f_in := f_in ws; f_in_open := f_in_open ws;
     f_out := f_out ws; f_out_open := f_out_open ws;
     is_masked_client := is_masked_client ws; df := df ws;
     buff := buff ws; buff_len := buff_len ws; status_code := status_code ws;
     ping_recv_count := ping_recv_count ws;
     ping_sent_count := ping_sent_count ws;
     pong_recv_count := v |}.

Definition set_df_opcode (v : Z) (d : Data_Frame) : Data_Frame :=
  {| df_opcode := v; df_fin := df_fin d; df_size := df_size d;
     df_payload := df_payload d |}.

(** the loop of [_ws_read]; [opcode_prev] is the local of the C function.
    [None] only when [fuel] runs out. *)
Fixpoint _ws_read_loop (fuel : nat) (ws : Websocket_S) (opcode_prev : Z)
  : option (Z * Websocket_S) :=
  match fuel with
  | O => None
  | S fuel' =>
      let '(r, f_in') := read_dataframe (f_in ws) (is_masked_client ws) (df ws) in
      let ws := set_f_in f_in' ws in
      match r with
      | inl _ => Some (WS_ERROR_char, set_df None ws)
      | inr d =>
          let ws := set_df (Some d) ws in
          let opcode := df_opcode d in
          let '(opcode, ws) :=
            if opcode =? OC_CONT then (opcode_prev, ws)
            else (opcode, set_buff_len 0 ws) in
          let opcode_next := if df_fin d then -1 else opcode in
          if opcode =? OC_PING then
            let ws := set_ping_recv_count (uint16_t (ping_recv_count ws + 1)) ws in
            let d := set_df_opcode OC_PONG d in
            let '(_, f_out', d) := write_dataframe (f_out ws) d None in
            let ws := set_df (Some d) (set_f_out f_out' ws) in
            _ws_read_loop fuel' ws opcode_next
          else if opcode =? OC_PONG then
            let ws := set_pong_recv_count (uint16_t (pong_recv_count ws + 1)) ws in
            _ws_read_loop fuel' ws opcode_next
          else if opcode =? OC_CLOSE then
            let status_code :=
              if df_len d >=? 2 then betoh (firstn 2 (df_payload d))
              else betoh [0; 0] in
            Some (OC_CLOSE, set_status_code status_code ws)
          else if (opcode =? OC_TEXT) || (opcode =? OC_BIN) then
            let '(buff', buff_len') :=
              mem_append (buff ws) (buff_len ws) (df_payload d) (df_len d) in
            let ws := set_buff_len buff_len' (set_buff buff' ws) in
            if df_fin d then Some (opcode, ws)
            else _ws_read_loop fuel' ws opcode_next
          else Some (-1, ws)
      end
  end.

(** [_ws_read]: every pass of the loop reads a frame, so there cannot be
    more passes than bytes *)
Definition _ws_read (ws : Websocket_S) : option (Z * Websocket_S) :=
  _ws_read_loop (S (List.length (f_in ws))) ws (-1).

Definition _ws_send_close (ws : Websocket_S) (status_code : Z)
  : bool * Websocket_S :=
  let d := alloc_dataframe OC_CLOSE true 2 None in
  let d := {| df_opcode := df_opcode d; df_fin := df_fin d;
              df_size := df_size d;
              df_payload := htobe 2 (uint16_t status_code) |} in
  let '(ok, f_out', _) := write_dataframe (f_out ws) d None in
  (ok, set_f_out f_out' ws).

Definition _ws_send_msg (ws : Websocket_S) (type : WS_Msg_Type)
    (msg : list Z) (msg_len : Z) : bool * Websocket_S :=
  let opcode := match type with WS_MSG_TXT => OC_TEXT | _ => OC_BIN end in
  let d := alloc_dataframe opcode true msg_len None in
  let d := {| df_opcode := df_opcode d; df_fin := df_fin d;
              df_size := df_size d;
              df_payload := firstn (Z.to_nat msg_len) msg |} in
  let '(ok, f_out', _) := write_dataframe (f_out ws) d None in
  (ok, set_f_out f_out' ws).

Definition ws_is_upgradable (headers : Http_Headers) : bool :=
  match ht_get headers H_UPGRADE with
  | Some valT => sz_equal_ignore_case (Some valT) (Some WS_UPGRADE)
  | None => false
  end.

(** [ws_upgrade]: the session, or [None] for NULL, and the output stream *)
Definition ws_upgrade (f_in f_out : list Z) (headers : Http_Headers)
    (uri : list Z) (masked_client : bool) : option Websocket_S * list Z :=
  let '(ok, f_out) := _ws_handshake f_out headers in
  if negb ok then (None, f_out)
  else _ws_create f_in f_out masked_client.

Definition ws_is_open (ws : Websocket_S) : bool :=
  f_in_open ws && f_out_open ws.

Definition ws_close (ws : Websocket_S) (code : Z) : Websocket_S :=
  if negb (f_out_open ws) then ws
  else
    let '(_, ws) := _ws_send_close ws code in
    set_open false false ws.

Definition ws_send_msg (ws : Websocket_S) (type : WS_Msg_Type)
    (msg : list Z) (msg_len : Z) : bool * Websocket_S :=
  _ws_send_msg ws type msg msg_len.

(** [ws_free]: what is left of the session when its memory is released *)
Definition ws_free (ws : Websocket_S) : Websocket_S :=
  let ws := ws_close ws WS_STATUS_GOING_AWAY in
  let ws := set_df None ws in
  match buff ws with
  | Some _ => set_buff_len 0 ws
  | None => ws
  end.

Definition ws_wait (ws : Websocket_S) : option (WS_Msg_Type * Websocket_S) :=
  match _ws_read ws with
  | None => None
  | Some (oc, ws) =>
      Some (if oc =? OC_CLOSE then WS_CLOSE
            else if oc =? OC_BIN then WS_MSG_BIN
            else if oc =? OC_TEXT then WS_MSG_TXT
            else WS_ERROR, ws)
  end.

(** [ws_get_msg]: the block and [*msg_len] *)
Definition ws_get_msg (ws : Websocket_S) : option (list Z) * Z :=
  (buff ws, buff_len ws).

Definition ws_status (ws : Websocket_S) : Z := status_code ws.

(* ================================================================== *)
(** * http.c *)
(* ================================================================== *)

Definition EPERM : Z := 1.
Definition ENOENT : Z := 2.
Definition ENOTDIR : Z := 20.
Definition ENAMETOOLONG : Z := 36.

Definition HTTP_OK : Z := 200.
Definition HTTP_CREATED : Z := 201.
Definition HTTP_ACCEPTED : Z := 202.
Definition HTTP_BAD_REQUEST : Z := 400.
Definition HTTP_NOT_FOUND : Z := 404.
Definition HTTP_METHOD_NOT_ALLOWED : Z := 405.

Definition HTTP_OK_REASON : list Z := sz "OK".
Definition HTTP_CREATED_REASON : list Z := sz "Created".
Definition HTTP_ACCEPTED_REASON : list Z := sz "Accepted".
Definition HTTP_BAD_REQUEST_REASON : list Z := sz "Bad Request".
Definition HTTP_NOT_FOUND_REASON : list Z := sz "Not Found".
Definition HTTP_METHOD_NOT_ALLOWED_REASON : list Z := sz "Method Not Allowed".

(** what [stat] reports of a path, as far as http.c looks *)
Record Stat := {
  st_is_reg : bool;
  st_is_dir : bool;
  st_size : Z;
  st_blksize : Z
}.

(** the file system under the server: [realpath(path, ..)] gives the
    canonical path or an [errno]; [stat] and [open(path, O_RDONLY)] give
    [None] when they fail, and [open] the bytes that reading will deliver *)
Record Filesystem := {
  fs_realpath : list Z -> Z + list Z;
  fs_stat : list Z -> option Stat;
  fs_open : list Z -> option (list Z)
}.

(** the two file-scope variables of http.c *)
Record Http_S := {
  _static_files_dir : list Z;
  _static_files_dir_len : Z
}.

Definition http_method (sz_method : list Z) : HTTP_Method :=
  if sz_equal_ignore_case (Some (sz "GET")) (Some sz_method) then M_GET
  else if sz_equal_ignore_case (Some (sz "POST")) (Some sz_method) then M_POST
  else if sz_equal_ignore_case (Some (sz "PUT")) (Some sz_method) then M_PUT
  else if sz_equal_ignore_case (Some (sz "DELETE")) (Some sz_method) then M_DELETE
  else M_UNKNOWN.

(** the loop of [parse_headers]; every line read shortens [fd], so [None]
    (out of [fuel]) does not happen from [parse_headers].  The inner option
    is the table or NULL. *)
Fixpoint parse_headers_loop (fuel : nat) (fd : list Z) (headers : Http_Headers)
  : option (option Http_Headers * list Z) :=
  match fuel with
  | O => None
  | S fuel' =>
      match io_read_line_crlf fd MAX_HTTP_HEADER with
      | (None, fd') => Some (None, fd')
      | (Some h_buff, fd') =>
          if Z.of_nat (List.length h_buff) >? 0 then
            let header := c_str h_buff in
            let name := strtok header (sz ":") in
            let val :=
              match name with
              | Some (_, saved) => strtok saved [10; 13]
              | None => None
              end in
            match name, val with
            | Some (name, _), Some (val, _) =>
                let name := sz_to_lower name in
                let val := sz_trim val in
                parse_headers_loop fuel' fd' (ht_put headers name val)
            | _, _ => parse_headers_loop fuel' fd' headers
            end
          else Some (Some headers, fd')
      end
  end.

Definition parse_headers (fd : list Z)
  : option (option Http_Headers * list Z) :=
  parse_headers_loop (S (List.length fd)) fd (ht_create 0 None).

(** the session driver of [dispatch_websocket], after the upgrade *)
Fixpoint dispatch_websocket_loop (fuel : nat) (ws : Websocket_S)
  : option (Z * Websocket_S) :=
  match fuel with
  | O => None
  | S fuel' =>
      match ws_wait ws with
      | None => None
      | Some (WS_ERROR, ws) => Some (-1, ws)
      | Some (WS_CLOSE, ws) => Some (0, ws)
      | Some (type, ws) =>
          let '(msg, msg_len) := ws_get_msg ws in
          let msg := match msg with Some m => m | None => [] end in
          let '(_, ws) := ws_send_msg ws type msg msg_len in
          dispatch_websocket_loop fuel' ws
      end
  end.

(** [dispatch_websocket]: the return code and the two descriptors *)
Definition dispatch_websocket (fd_client_in fd_client_out : list Z)
    (headers : Http_Headers) (method : HTTP_Method) (uri : list Z)
  : option (Z * list Z * list Z) :=
  match ws_upgrade fd_client_in fd_client_out headers uri true with
  | (None, f_out) => Some (-1, fd_client_in, f_out)
  | (Some ws, _) =>
      match dispatch_websocket_loop (S (List.length fd_client_in)) ws with
      | None => None
      | Some (ret_code, ws) =>
          let ws := ws_free ws in
          Some (ret_code, f_in ws, f_out ws)
      end
  end.

(** the loop that reads the request body in [dispatch_http]: the response
    code so far, the bytes read, and the descriptor *)
Fixpoint read_body_loop (fuel : nat) (fd_in : list Z) (req_content_len : Z)
    (cb_total : Z) (rsp_code : Z) : Z * Z * list Z :=
  match fuel with
  | O => (rsp_code, cb_total, fd_in)
  | S fuel' =>
      if cb_total <? req_content_len then
        let '(got, fd_in') := read fd_in (req_content_len - cb_total) in
        let cb_read := Z.of_nat (List.length got) in
        if cb_read =? 0 then (HTTP_BAD_REQUEST, cb_total, fd_in')
        else read_body_loop fuel' fd_in' req_content_len
               (int32_t (cb_total + cb_read)) rsp_code
      else (rsp_code, cb_total, fd_in)
  end.

Section Http.
Variable fs : Filesystem.
Variable PATH_MAX : Z.

Definition io_is_dir (path : list Z) : bool :=
  match fs_stat fs path with
  | None => false
  | Some s => st_is_dir s
  end.

(** [realpath_uri]: the path, or the [errno] left with a NULL return *)
Definition realpath_uri (st : Http_S) (uri : list Z) : Z + list Z :=
  let uri_len := int32_t (strlen uri) in
  if uint64_t (_static_files_dir_len st + uri_len) >=? PATH_MAX
  then inl ENAMETOOLONG
  else
    let icky_path := _static_files_dir st ++ uri in
    match fs_realpath fs icky_path with
    | inl e => inl e
    | inr path =>
        if negb (sz_starts_with (Some path) (Some (_static_files_dir st)))
        then inl EPERM
        else inr path
    end.

(** [http_init]: the return value, [errno], and the file-scope variables *)
Definition http_init (st : Http_S) (icky_files_dir : list Z)
  : Z * Z * Http_S :=
  match fs_realpath fs icky_files_dir with
  | inl e => (-1, e, st)
  | inr dir =>
      if strcmp_eq (sz "/") dir then
        (-1, EPERM, {| _static_files_dir := dir;
                       _static_files_dir_len := _static_files_dir_len st |})
      else
        let dir := firstn (Z.to_nat PATH_MAX) dir in
        let l := int32_t (strlen dir) in
        let '(dir, l) :=
          if nth (Z.to_nat (l - 1)) dir 0 =? 47
          then (removelast dir, l - 1) else (dir, l) in
        let st := {| _static_files_dir := dir;
                     _static_files_dir_len := uint64_t l |} in
        if _static_files_dir_len st =? 0 then (-1, EPERM, st)
        else if negb (io_is_dir dir) then (-1, ENOTDIR, st)
        else (0, 0, st)
  end.

(** [dispatch_http]: the response code and the two descriptors *)
Definition dispatch_http (st : Http_S) (fd_in fd_out : list Z)
    (headers : Http_Headers) (method : HTTP_Method) (uri : list Z)
  : Z * list Z * list Z :=
  let fp_out := fd_out in
  let req_content_len :=
    match ht_get headers H_CONTENT_LENGTH with
    | Some valT => atoi valT
    | None => 0
    end in
  let fp_out :=
    match ht_get headers H_EXPECT with
    | Some valT =>
        if sz_equal_ignore_case (Some valT) (Some HV_EXPECT_100_CONTINUE)
        then fp_out ++ sz "HTTP/1.1 100 Continue" ++ CRLF ++ CRLF
        else fp_out
    | None => fp_out
    end in
  (* the switch: rsp_code, rsp_reason, rsp_content_len, rsp_fd with
     rsp_block_size, fd_in *)
  let '(rsp_code, rsp_reason, rsp_content_len, rsp_fd, fd_in) :=
    match method with
    | M_POST | M_PUT =>
        let '(rsp_code, _, fd_in) :=
          if req_content_len >? 0
          then read_body_loop (S (List.length fd_in)) fd_in req_content_len 0 HTTP_OK
          else (HTTP_OK, 0, fd_in) in
        let rsp_code := if rsp_code =? HTTP_OK then HTTP_CREATED else rsp_code in
        (rsp_code, None, 0, None, fd_in)
    | M_GET =>
        let uri := if strcmp_eq uri (sz "/") then sz "/index.html" else uri in
        let not_found := (HTTP_NOT_FOUND, Some HTTP_NOT_FOUND_REASON, 0, None, fd_in) in
        match realpath_uri st uri with
        | inl _ => not_found
        | inr uri_path =>
            match fs_stat fs uri_path with
            | None => not_found
            | Some uri_stat =>
                if negb (st_is_reg uri_stat) then not_found
                else
                  match fs_open fs uri_path with
                  | None => not_found
                  | Some rsp_fd =>
                      (HTTP_OK, Some HTTP_OK_REASON,
                       int32_t (st_size uri_stat),
                       Some (rsp_fd, uint64_t (st_blksize uri_stat)), fd_in)
                  end
            end
        end
    | _ => (HTTP_METHOD_NOT_ALLOWED, None, 0, None, fd_in)
    end in
  let fp_out :=
    fp_out ++ sz "HTTP/1.1 " ++ printf_d rsp_code ++ sz " "
           ++ match rsp_reason with Some r => r | None => [] end ++ CRLF in
  let fp_out :=
    if rsp_content_len >? 0
    then fp_out ++ sz "Content-Length: " ++ printf_d rsp_content_len ++ CRLF
    else fp_out in
  let fp_out := fp_out ++ CRLF in
  let fd_out :=
    match rsp_fd with
    | Some (rsp_fd, rsp_block_size) =>
        let '(_, fd_out, _) := io_copy_stream fp_out rsp_fd rsp_block_size in
        fd_out
    | None => fp_out
    end in
  (rsp_code, fd_in, fd_out).

(** [http_client_connect]: the return code and the two descriptors.
    [None] only if a loop below ran out of fuel. *)
Definition http_client_connect (st : Http_S) (fd_client_in fd_client_out : list Z)
  : option (Z * list Z * list Z) :=
  match io_read_line_crlf fd_client_in (MAX_HTTP_REQ + 1) with
  | (None, fd_in) => Some (HTTP_BAD_REQUEST, fd_in, fd_client_out)
  | (Some req_line, fd_in) =>
      let req_line := c_str req_line in
      let sz_method := strtok req_line (sz " ") in
      let uri :=
        match sz_method with
        | Some (_, saved) => strtok saved (sz " ")
        | None => None
        end in
      let version :=
        match uri with
        | Some (_, saved) => strtok saved (sz " ")
        | None => None
        end in
      match sz_method, uri, version with
      | Some (sz_method, _), Some (uri, _), Some (version, _) =>
          match sscanf_http_version version with
          | None => Some (HTTP_BAD_REQUEST, fd_in, fd_client_out)
          | Some (v_maj, v_min) =>
              let method := http_method sz_method in
              match method with
              | M_UNKNOWN => Some (HTTP_METHOD_NOT_ALLOWED, fd_in, fd_client_out)
              | _ =>
                  match parse_headers fd_in with
                  | None => None
                  | Some (None, fd_in) =>
                      Some (HTTP_BAD_REQUEST, fd_in, fd_client_out)
                  | Some (Some headers, fd_in) =>
                      if ws_is_upgradable headers
                      then dispatch_websocket fd_in fd_client_out headers method uri
                      else Some (dispatch_http st fd_in fd_client_out headers method uri)
                  end
              end
          end
      | _, _, _ => Some (HTTP_BAD_REQUEST, fd_in, fd_client_out)
      end
  end.
End Http.

(* ================================================================== *)
(** * sz.c, ht.c, io.c: the other functions *)
(* ================================================================== *)

Fixpoint sz_contains_case_loop (s substr : list Z) (ignore_case : bool) : bool :=
  match s with
  | [] => false
  | _ :: s' =>
      if sz_starts_with_case (Some s) (Some substr) ignore_case then true
      else sz_contains_case_loop s' substr ignore_case
  end.

Definition sz_contains_case (s substr : option (list Z)) (ignore_case : bool) : bool :=
  match s, substr with
  | Some s, Some substr => sz_contains_case_loop s substr ignore_case
  | _, _ => false
  end.

Definition sz_contains (s substr : option (list Z)) : bool :=
  sz_contains_case s substr false.

(** the loop of [sz_equal]; two pointers that are the same hold the same
    string, for which the loop answers true as the shortcut does *)
Fixpoint sz_equal_loop (sz1 sz2 : list Z) : bool :=
  match sz1, sz2 with
  | a :: sz1', b :: sz2' =>
      if negb (a =? b) then false else sz_equal_loop sz1' sz2'
  | [], [] => true
  | _, _ => false
  end.

Definition sz_equal (sz1 sz2 : option (list Z)) : bool :=
  match sz1, sz2 with
  | None, None => true
  | Some a, Some b => sz_equal_loop a b
  | _, _ => false
  end.

(** [sizeof(struct Hashtable_S)], two [size_t] and three function
    pointers, and the size of a pointer to [NVP], where pointers and
    [size_t] have 8 bytes *)
Definition sizeof_Hashtable_S : Z := 40.
Definition sizeof_NVP_ptr : Z := 8.

(** [alloc_size] in [ht_create]: the size in bytes, computed in [size_t]
    and kept in an [int].  Past the range of [int] it is not the size of
    the table any more: [malloc] is asked for another size, and the table
    that [ht_create] of the model gives is not what the function returns. *)
Definition ht_alloc_size (nhash : Z) : Z :=
  let nhash := if nhash =? 0 then 1021 else nhash in
  int32_t (uint64_t (sizeof_Hashtable_S + uint64_t (nhash * sizeof_NVP_ptr))).

(** the loop of [ht_clear] over the chains [i], [i+1], ... *)
Fixpoint ht_clear_loop {V} (n i : nat) (chains : list (list (NVP V)))
  : list (list (NVP V)) :=
  match n with
  | O => chains
  | S n' => ht_clear_loop n' (S i) (set_nth i [] chains)
  end.

Definition ht_clear {V} (ht : Hashtable_S V) : Hashtable_S V :=
  {| ht_size_f := 0; ht_nhash := ht_nhash ht; ht_hash := ht_hash ht;
     ht_chains := ht_clear_loop (Z.to_nat (ht_nhash ht)) 0 (ht_chains ht) |}.

(** a digit of [printf("%x")] *)
Definition hex_digit (d : Z) : Z := if d <? 10 then 48 + d else 87 + d.

Fixpoint hex_digits (fuel : nat) (n : Z) (acc : list Z) : list Z :=
  match fuel with
  | O => acc
  | S fuel' =>
      let acc' := hex_digit (n mod 16) :: acc in
      if n / 16 =? 0 then acc' else hex_digits fuel' (n / 16) acc'
  end.

(** [printf("%02x", n)] of an [unsigned int]: the digits, padded with
    zeros to two *)
Definition printf_02x (n : Z) : list Z :=
  let ds := hex_digits 8 (uint32_t n) [] in
  repeat 48 (2 - List.length ds) ++ ds.

Fixpoint io_encode_hex_loop (out bytes : list Z) (n : Z) : Z * list Z :=
  match bytes with
  | [] => (n, out)
  | b :: bytes' =>
      let s := printf_02x b in
      io_encode_hex_loop (out ++ s) bytes' (int32_t (n + Z.of_nat (List.length s)))
  end.

(** [io_encode_hex(out, bytes, len)]: the count returned and the stream *)
Definition io_encode_hex (out bytes : list Z) (len : Z) : Z * list Z :=
  io_encode_hex_loop out (firstn (Z.to_nat len) bytes) 0.

Definition nibbles : list (list Z) :=
  [ sz "0000"; sz "0001"; sz "0010"; sz "0011";
    sz "0100"; sz "0101"; sz "0110"; sz "0111";
    sz "1000"; sz "1001"; sz "1010"; sz "1011";
    sz "1100"; sz "1101"; sz "1110"; sz "1111" ].

Fixpoint io_encode_bin_loop (out bytes : list Z) (n : Z) : Z * list Z :=
  match bytes with
  | [] => (n, out)
  | b :: bytes' =>
      let s := nth (Z.to_nat (Z.shiftr b 4)) nibbles []
               ++ nth (Z.to_nat (Z.land b 0xf)) nibbles [] in
      io_encode_bin_loop (out ++ s) bytes' (int32_t (n + Z.of_nat (List.length s)))
  end.

(** [io_encode_bin(out, bytes, len)]: the count returned and the stream *)
Definition io_encode_bin (out bytes : list Z) (len : Z) : Z * list Z :=
  io_encode_bin_loop out (firstn (Z.to_nat len) bytes) 0.

(* ================================================================== *)
(** * net.c *)
(* ================================================================== *)

Definition INVALID_ADDR : Z := uint32_t (-1).

(** one octet of [net_atoipv4]: [((uint32_t)atoi(p) & 0xFF) << shift] *)
Definition ipv4_octet (p : list Z) (shift : Z) : Z :=
  uint32_t (Z.shiftl (Z.land (uint32_t (atoi p)) 0xFF) shift).

Definition net_atoipv4 (s : list Z) : Z :=
  if strlen s >? 15 then INVALID_ADDR
  else
    match strtok s (sz ".") with
    | None => INVALID_ADDR
    | Some (p, saved) =>
        let ipv4 := Z.land (uint32_t (atoi p)) 0xFF in
        match strtok saved (sz ".") with
        | None => INVALID_ADDR
        | Some (p, saved) =>
            let ipv4 := Z.lor ipv4 (ipv4_octet p 8) in
            match strtok saved (sz ".") with
            | None => INVALID_ADDR
            | Some (p, saved) =>
                let ipv4 := Z.lor ipv4 (ipv4_octet p 16) in
                match strtok saved (sz ".") with
                | None => INVALID_ADDR
                | Some (p, saved) => Z.lor ipv4 (ipv4_octet p 24)
                end
            end
        end
    end.

(* ================================================================== *)
(** * rnd.c *)
(* ================================================================== *)




(* ================================================================== *)
(** * Vocabulary of the specification, and sample data *)
(* ================================================================== *)

(** [toupper] in the C locale; the sources have no upper-casing, the
    specification speaks of [uppercase(H)] *)
Definition toupper (c : Z) : Z :=
  if (97 <=? c) && (c <=? 122) then c - 32 else c.

Definition uppercase (s : list Z) : list Z := map toupper s.
Definition lowercase (s : list Z) : list Z := sz_to_lower s.

(** [b] is a byte-prefix of [a] *)
Definition byte_prefix (b a : list Z) : Prop := exists t, a = b ++ t.

(** a reader never gives bytes back to the stream *)
Definition rd_shrinks {A} (m : Rd A) : Prop :=
  forall f a f', m f = (inr a, f') -> (List.length f' <= List.length f)%nat.

(** every name stored in a header table is in lower case *)
Definition lower_keys (headers : Http_Headers) : Prop :=
  Forall (Forall (fun e => sz_to_lower (nvp_key e) = nvp_key e))
         (ht_chains headers).

(** the lines of a request, each ended by CRLF *)
Definition crlf_lines (lines : list (list Z)) : list Z :=
  List.concat (map (fun l => l ++ CRLF) lines).

(** the mask key of the unit tests of ws.c *)
Definition sample_mask_key : list Z := [2; 1; 1; 2].

(** a frame as a client builds it: allocated, then its payload copied in *)
Definition client_frame (opcode : Z) (fin : bool) (payload : list Z) : Data_Frame :=
  let d := alloc_dataframe opcode fin (Z.of_nat (List.length payload)) None in
  {| df_opcode := df_opcode d; df_fin := df_fin d; df_size := df_size d;
     df_payload := payload |}.

(** the bytes on the wire when a client writes [frames], each masked with
    the sample key *)
Definition client_bytes (frames : list Data_Frame) : list Z :=
  fold_left (fun f d => let '(_, f, _) := write_dataframe f d (Some sample_mask_key) in f)
            frames [].

(** a session just created on the input [f_in], as [_ws_create] leaves it
    for a masking client: the PING of the server is the output so far *)
Definition fresh_session (f_in : list Z) : Websocket_S :=
  {| f_in := f_in; f_in_open := true;
     f_out := [0x89; 0x00]; f_out_open := true;
     is_masked_client := true;
     df := Some (alloc_dataframe OC_PING true 0 None);
     buff := None; buff_len := 0; status_code := 0;
     ping_recv_count := 0; ping_sent_count := 0; pong_recv_count := 0 |}.

(** the frames of the unit test [ws_dataframe_io_round_trip] of ws.c, with
    fixed payloads in place of the random ones: 125, 255 and 65536 bytes
    for the three fragments of the text message *)
Definition unit_test_frames : list Data_Frame :=
  [ client_frame OC_PONG true [];
    client_frame OC_BIN true [0; 1; 2; 3; 4; 5; 6; 7];
    client_frame OC_TEXT false (repeat 65 (Z.to_nat 0x7D));
    client_frame OC_CONT false (repeat 66 (Z.to_nat 0xFF));
    client_frame OC_CONT true (repeat 67 (Z.to_nat 0x10000));
    client_frame OC_PING true [];
    client_frame OC_CLOSE true (htobe 2 1000) ].

(** the session after one [ws_wait], and what that [ws_wait] returned *)
Definition after_wait (ws : Websocket_S) : Websocket_S :=
  match ws_wait ws with Some (_, ws') => ws' | None => ws end.

Definition wait_type (ws : Websocket_S) : option WS_Msg_Type :=
  option_map fst (ws_wait ws).

(** what [ws_get_msg] hands out, as bytes *)
Definition message (ws : Websocket_S) : list Z :=
  firstn (Z.to_nat (buff_len ws))
         (match buff ws with Some b => b | None => [] end).

(** the client key of the handshake example of RFC 6455, and the headers of
    an upgrade request that carries it *)
Definition sample_ws_key : list Z := sz "dGhlIHNhbXBsZSBub25jZQ==".

Definition sample_upgrade_headers : Http_Headers :=
  ht_put (ht_put (ht_create 0 None) H_UPGRADE WS_UPGRADE)
         H_SEC_WEBSOCKET_KEY sample_ws_key.

(** the table that [parse_headers] builds from the one header line
    [Content-Length: 5] *)
Definition sample_headers : Http_Headers :=
  ht_put (ht_create 0 None) (sz "content-length") (sz "5").

(** a small file system: the directory [/srv/web] with one regular file
    [index.html], reached as [./web] from the working directory; its parent
    [/srv]; and beside it the directory [/srv/web-private] with a file
    [key] *)
Definition sample_root : list Z := sz "/srv/web".
Definition sample_index : list Z := sz "/srv/web/index.html".
Definition sample_index_body : list Z := sz "hello".
Definition sample_parent : list Z := sz "/srv".
Definition sample_sibling_file : list Z := sz "/srv/web-private/key".

Definition sample_fs : Filesystem :=
  {| fs_realpath := fun p =>
       if bytes_eqb p sample_index then inr sample_index
       else if bytes_eqb p sample_root || bytes_eqb p (sz "./web")
            then inr sample_root
       else if bytes_eqb p sample_parent || bytes_eqb p (sz "/srv/web/..")
            then inr sample_parent
       else if bytes_eqb p sample_sibling_file
               || bytes_eqb p (sz "/srv/web/../web-private/key")
            then inr sample_sibling_file
       else inl ENOENT;
     fs_stat := fun p =>
       if bytes_eqb p sample_index || bytes_eqb p sample_sibling_file then
         Some {| st_is_reg := true; st_is_dir := false;
                 st_size := 5; st_blksize := 4096 |}
       else if bytes_eqb p sample_root || bytes_eqb p sample_parent then
         Some {| st_is_reg := false; st_is_dir := true;
                 st_size := 4096; st_blksize := 4096 |}
       else None;
     fs_open := fun p =>
       if bytes_eqb p sample_index then Some sample_index_body
       else if bytes_eqb p sample_sibling_file then Some (sz "12345")
       else None |}.

Definition sample_PATH_MAX : Z := 4096.

(** the file-scope variables before [http_init] *)
Definition http_start : Http_S :=
  {| _static_files_dir := []; _static_files_dir_len := 0 |}.

(** and after [http_init("./web")] on the sample file system *)
Definition sample_http : Http_S :=
  {| _static_files_dir := sample_root; _static_files_dir_len := 8 |}.

(** a table is in shape when it has as many chains as [nhash] says, and
    [nhash] is a positive [unsigned int]; [ht_create] makes such tables *)
Definition ht_wf {V} (ht : Hashtable_S V) : Prop :=
  0 < ht_nhash ht < 2 ^ 32 /\
  List.length (ht_chains ht) = Z.to_nat (ht_nhash ht).

(** the numbers of chains that [ht_create] can be asked for: an [unsigned
    int] for which [alloc_size] is the size of the table *)
Definition ht_create_fits (nhash : Z) : Prop :=
  0 <= nhash < 2 ^ 32 /\
  ht_alloc_size nhash
  = sizeof_Hashtable_S + (if nhash =? 0 then 1021 else nhash) * sizeof_NVP_ptr.

(** a sequence of [ht_put], first to last *)
Definition ht_put_all {V} (ht : Hashtable_S V) (kvs : list (list Z * V))
  : Hashtable_S V :=
  fold_left (fun h kv => ht_put h (fst kv) (snd kv)) kvs ht.

(** the first pair with key [k] in a list of pairs *)
Fixpoint alist_find {V} (k : list Z) (kvs : list (list Z * V)) : option V :=
  match kvs with
  | [] => None
  | (k', v) :: kvs' => if bytes_eqb k k' then Some v else alist_find k kvs'
  end.

(** the keys of a list of pairs, each once *)
Fixpoint distinct_keys {V} (kvs : list (list Z * V)) : list (list Z) :=
  match kvs with
  | [] => []
  | (k, _) :: kvs' =>
      if existsb (bytes_eqb k) (distinct_keys kvs') then distinct_keys kvs'
      else k :: distinct_keys kvs'
  end.

(** the white space of [sz_trim] *)
Definition is_SP_HT (c : Z) : bool := strchr SP_HT c.

(** reading [s] after the byte [prev] meets a CR followed by a LF *)
Fixpoint crlf_after (prev : Z) (s : list Z) : bool :=
  match s with
  | [] => false
  | c :: s' => ((prev =? 13) && (c =? 10)) || crlf_after c s'
  end.

(** a byte, as opposed to any integer *)
Definition is_byte (b : Z) : Prop := 0 <= b < 256.

(** the value of a hexadecimal digit and of a text of such digits, two to
    a byte *)
Definition hex_value (c : Z) : Z := if c <? 58 then c - 48 else c - 87.

Fixpoint decode_hex (cs : list Z) : list Z :=
  match cs with
  | a :: b :: cs' => (16 * hex_value a + hex_value b) :: decode_hex cs'
  | _ => []
  end.

(** the value of a text of binary digits, eight to a byte *)
Fixpoint decode_bin (cs : list Z) : list Z :=
  match cs with
  | b7 :: b6 :: b5 :: b4 :: b3 :: b2 :: b1 :: b0 :: cs' =>
      fold_left (fun a c => 2 * a + (c - 48)) [b7; b6; b5; b4; b3; b2; b1; b0] 0
      :: decode_bin cs'
  | _ => []
  end.

(** the bytes of one frame on the wire, as [write_dataframe] emits them *)
Definition frame_bytes (d : Data_Frame) (mask_key : option (list Z)) : list Z :=
  snd (fst (write_dataframe [] d mask_key)).

(** a stream reader keeps its result when more bytes follow *)
Definition rd_extends {A} (m : Rd A) : Prop :=
  forall f a f' more, m f = (inr a, f') -> m (f ++ more) = (inr a, f' ++ more).

(** the comparison of [sz_starts_with_case]: as is, or in lower case *)
Definition fold_case (ignore_case : bool) (s : list Z) : list Z :=
  if ignore_case then sz_to_lower s else s.

(** the continuation frames of a message sent in fragments, the last one
    final *)
Fixpoint cont_frames (payloads : list (list Z)) : list Data_Frame :=
  match payloads with
  | [] => []
  | p :: ps =>
      client_frame OC_CONT (match ps with [] => true | _ => false end) p
      :: cont_frames ps
  end.

(** the frames of one message sent in fragments: the first carries the
    opcode, the others are continuations *)
Definition fragments (opcode : Z) (first : list Z) (more : list (list Z))
  : list Data_Frame :=
  client_frame opcode (match more with [] => true | _ => false end) first
  :: cont_frames more.

(** the bytes of a sequence of frames, each written with [mask_key] *)
Definition wire (mask_key : option (list Z)) (frames : list Data_Frame) : list Z :=
  flat_map (fun d => frame_bytes d mask_key) frames.

(** the block of a session, empty when it is NULL *)
Definition buff_bytes (ws : Websocket_S) : list Z :=
  match buff ws with Some b => b | None => [] end.

(** what [dispatch_http] sends ahead of the response to a request that
    expects it *)
Definition continue_100 (headers : Http_Headers) : list Z :=
  match ht_get headers H_EXPECT with
  | Some valT =>
      if sz_equal_ignore_case (Some valT) (Some HV_EXPECT_100_CONTINUE)
      then sz "HTTP/1.1 100 Continue" ++ CRLF ++ CRLF
      else []
  | None => []
  end.

(** the path that a GET asks for *)
Definition get_uri (uri : list Z) : list Z :=
  if strcmp_eq uri (sz "/") then sz "/index.html" else uri.

(** a header line [name:value] that [parse_headers] takes as it is: a name
    without colon, NUL, CR or LF, a value without NUL, CR or LF, neither
    empty, and short enough for the line buffer *)
Definition header_ok (nv : list Z * list Z) : bool :=
  negb (bytes_eqb (fst nv) [])
  && forallb (fun c => negb (strchr [0; 58; 10; 13] c)) (fst nv)
  && negb (bytes_eqb (snd nv) [])
  && forallb (fun c => negb (strchr [0; 10; 13] c)) (snd nv)
  && (Z.of_nat (List.length (fst nv) + 1 + List.length (snd nv)) + 3
      <=? MAX_HTTP_HEADER).

(** the lines of a header block, and the pairs that a table holds for it *)
Definition header_lines (nvs : list (list Z * list Z)) : list Z :=
  List.concat (map (fun nv => fst nv ++ sz ":" ++ snd nv ++ CRLF) nvs).

Definition header_pairs (nvs : list (list Z * list Z)) : list (list Z * list Z) :=
  map (fun nv => (sz_to_lower (fst nv), sz_trim (snd nv))) nvs.

(** a token of a dotted address: not empty, no dot *)
Definition dotless (p : list Z) : bool :=
  negb (bytes_eqb p []) && forallb (fun c => negb (strchr (sz ".") c)) p.

(** a token of the request line: not empty, without NUL, space or LF *)
Definition token_ok (t : list Z) : bool :=
  negb (bytes_eqb t []) && forallb (fun c => negb (strchr [0; 32; 10] c)) t.

Definition request_line (sz_method uri version : list Z) : list Z :=
  sz_method ++ sz " " ++ uri ++ sz " " ++ version.


(* ================================================================== *)
(** * Bytes, bits and big-endian words *)
(* ================================================================== *)

Lemma bytes_eqb_eq : forall a b, bytes_eqb a b = true <-> a = b.
Proof.
  induction a as [|x a IH]; destruct b as [|y b]; simpl; split; intro H;
    try discriminate; try reflexivity.
  - apply andb_true_iff in H. destruct H as [Hx Hab].
    apply Z.eqb_eq in Hx. apply IH in Hab. congruence.
  - injection H as -> ->. rewrite Z.eqb_refl. simpl. apply IH. reflexivity.
Qed.

Lemma bytes_eqb_refl : forall a, bytes_eqb a a = true.
Proof. intro a. apply bytes_eqb_eq. reflexivity. Qed.

(** bits that do not overlap add up *)
Lemma lor_shiftl_add : forall x y n,
  0 <= n -> 0 <= x < 2 ^ n -> Z.lor x (Z.shiftl y n) = x + y * 2 ^ n.
Proof.
  intros x y n Hn Hx.
  assert (Hland : Z.land x (Z.shiftl y n) = 0).
  { apply Z.bits_inj'. intros i Hi.
    rewrite Z.land_spec, Z.bits_0.
    destruct (Z.lt_ge_cases i n) as [Hlt|Hge].
    - rewrite Z.shiftl_spec_low by assumption. apply andb_false_r.
    - assert (Z.testbit x i = false) as ->; [|reflexivity].
      destruct (Z.eq_dec x 0) as [->|Hx0]; [apply Z.bits_0|].
      apply Z.bits_above_log2; [lia|].
      apply Z.log2_lt_pow2; [lia|].
      apply Z.lt_le_trans with (2 ^ n); [lia|].
      apply Z.pow_le_mono_r; lia. }
  pose proof (Z.add_lor_land x (Z.shiftl y n)) as H.
  rewrite Hland in H. rewrite Z.shiftl_mul_pow2 in H |- * by assumption. lia.
Qed.

Lemma land_255 : forall x, Z.land x 255 = x mod 2 ^ 8.
Proof. intro x. change 255 with (Z.ones 8). apply Z.land_ones. lia. Qed.

Lemma land_127 : forall x, Z.land x 127 = x mod 2 ^ 7.
Proof. intro x. change 127 with (Z.ones 7). apply Z.land_ones. lia. Qed.

Lemma land_15 : forall x, Z.land x 15 = x mod 2 ^ 4.
Proof. intro x. change 15 with (Z.ones 4). apply Z.land_ones. lia. Qed.

Lemma htobe_length : forall n x, List.length (htobe n x) = n.
Proof. induction n; intro x; simpl; [reflexivity | now rewrite IHn]. Qed.

Lemma betoh_htobe_acc : forall n x acc,
  fold_left (fun a b => Z.lor (Z.shiftl a 8) b) (htobe n x) acc
  = acc * 2 ^ (8 * Z.of_nat n) + x mod 2 ^ (8 * Z.of_nat n).
Proof.
  induction n as [|n IH]; intros x acc.
  - simpl. rewrite Z.mod_1_r. lia.
  - cbn [htobe fold_left]. rewrite IH.
    rewrite land_255, Z.shiftr_div_pow2 by lia.
    rewrite Z.lor_comm, lor_shiftl_add
      by (try lia; apply Z.mod_pos_bound; lia).
    replace (8 * Z.of_nat (S n)) with (8 * Z.of_nat n + 8) by lia.
    rewrite Z.pow_add_r by lia.
    rewrite (Z.rem_mul_r x (2 ^ (8 * Z.of_nat n)) (2 ^ 8)) by lia.
    ring.
Qed.

(** decoding the big-endian bytes of [x] gives [x] back, modulo the width *)
Lemma betoh_htobe : forall n x,
  betoh (htobe n x) = x mod 2 ^ (8 * Z.of_nat n).
Proof. intros n x. unfold betoh. rewrite betoh_htobe_acc. lia. Qed.

Lemma xor_mask_length : forall k p i,
  List.length (xor_mask k i p) = List.length p.
Proof. intros k p. induction p; intro i; simpl; [reflexivity | now rewrite IHp]. Qed.

(** masking twice with the same key is the identity *)
Lemma xor_mask_involutive : forall k p i,
  xor_mask k i (xor_mask k i p) = p.
Proof.
  intros k p. induction p as [|b p IH]; intro i; simpl; [reflexivity|].
  rewrite IH, Z.lxor_assoc, Z.lxor_nilpotent, Z.lxor_0_r. reflexivity.
Qed.

Lemma firstn_exact : forall (A : Type) (l : list A) n,
  n = List.length l -> firstn n l = l.
Proof. intros A l n ->. apply firstn_all. Qed.

(** a read of exactly the bytes in front succeeds and leaves the rest *)
Lemma rd_fread_app : forall n e pre rest,
  Z.of_nat (List.length pre) = n ->
  rd_fread n e (pre ++ rest) = (inr pre, rest).
Proof.
  intros n e pre rest Hn. unfold rd_fread.
  rewrite length_app.
  destruct (Z.ltb_spec (Z.of_nat (List.length pre + List.length rest)) n); [lia|].
  assert (Z.to_nat n = List.length pre) as -> by lia.
  rewrite firstn_app, firstn_all, Nat.sub_diag, firstn_O, app_nil_r.
  rewrite skipn_app, skipn_all, Nat.sub_diag. reflexivity.
Qed.

(** the header bytes decode to the fields they were made from *)
Lemma dfh_roundtrip : forall opcode fin len mask,
  0 <= opcode < 16 -> 0 <= len < 128 ->
  let dfh := dfh_of_bytes (dfh_bytes
               {| dfh_opcode := opcode; dfh_rsv3 := false; dfh_rsv2 := false;
                  dfh_rsv1 := false; dfh_fin := fin; dfh_len := len;
                  dfh_mask := mask |}) in
  dfh_opcode dfh = opcode /\ dfh_fin dfh = fin /\ dfh_len dfh = len /\
  dfh_mask dfh = mask /\
  dfh_rsv1 dfh = false /\ dfh_rsv2 dfh = false /\ dfh_rsv3 dfh = false.
Proof.
  intros opcode fin len mask Hop Hlen.
  unfold dfh_of_bytes, dfh_bytes. cbn [nth dfh_opcode dfh_rsv3 dfh_rsv2 dfh_rsv1 dfh_fin dfh_len dfh_mask].
  change (Z.shiftl (Z.b2z false) 4) with 0.
  change (Z.shiftl (Z.b2z false) 5) with 0.
  change (Z.shiftl (Z.b2z false) 6) with 0.
  rewrite !Z.lor_0_l.
  rewrite (land_15 opcode), (land_127 len).
  rewrite (Z.mod_small opcode), (Z.mod_small len) by lia.
  rewrite !lor_shiftl_add by lia.
  rewrite land_15, land_127.
  assert (Hb : forall x b n, 0 <= x < 2 ^ 7 -> 0 <= n < 7 ->
             Z.testbit (x + Z.b2z b * 2 ^ 7) n = Z.testbit x n).
  { intros x b n Hx Hn.
    rewrite <- (Z.mod_pow2_bits_low (x + Z.b2z b * 2 ^ 7) 7 n) by lia.
    rewrite Z.mod_add by lia. rewrite Z.mod_small by lia. reflexivity. }
  assert (Ht : forall x b, 0 <= x < 2 ^ 7 ->
             Z.testbit (x + Z.b2z b * 2 ^ 7) 7 = b).
  { intros x b Hx. rewrite Z.testbit_eqb by lia.
    rewrite Z.div_add by lia. rewrite Z.div_small by lia.
    destruct b; reflexivity. }
  assert (Hhi : forall n, 4 <= n < 7 -> Z.testbit opcode n = false).
  { intros n Hn. rewrite <- (Z.mod_small opcode (2 ^ 4)) by lia.
    apply Z.mod_pow2_bits_high. lia. }
  repeat split.
  - replace (2 ^ 7) with (8 * 2 ^ 4) by reflexivity.
    rewrite Z.mul_assoc, Z.mod_add by lia. apply Z.mod_small. lia.
  - apply Ht. lia.
  - rewrite Z.mod_add by lia. apply Z.mod_small. lia.
  - apply Ht. lia.
  - rewrite Hb by lia. apply Hhi. lia.
  - rewrite Hb by lia. apply Hhi. lia.
  - rewrite Hb by lia. apply Hhi. lia.
Qed.

(* ================================================================== *)
(** * The frame codec: [read_dataframe] and [write_dataframe] *)
(* ================================================================== *)

Lemma rd_bind_ret : forall A B (a : A) (k : A -> Rd B) f,
  rd_bind (rd_ret a) k f = k a f.
Proof. reflexivity. Qed.

Lemma rd_bind_assoc : forall A B C (m : Rd A) (k1 : A -> Rd B) (k2 : B -> Rd C) f,
  rd_bind (rd_bind m k1) k2 f = rd_bind m (fun a => rd_bind (k1 a) k2) f.
Proof.
  intros. unfold rd_bind. destruct (m f) as [[e|a] f']; reflexivity.
Qed.

Lemma rd_bind_fread : forall B n e pre rest (k : list Z -> Rd B),
  Z.of_nat (List.length pre) = n ->
  rd_bind (rd_fread n e) k (pre ++ rest) = k pre rest.
Proof.
  intros B n e pre rest k Hn. unfold rd_bind.
  rewrite rd_fread_app by assumption. reflexivity.
Qed.

Lemma land_msb_0 : forall x, 0 <= x < 2 ^ 63 -> Z.land x (Z.shiftl 1 63) = 0.
Proof.
  intros x Hx. change (Z.shiftl 1 63) with (2 ^ 63).
  apply Z.bits_inj'. intros i Hi. rewrite Z.land_spec, Z.bits_0.
  destruct (Z.eq_dec i 63) as [->|Hne].
  - destruct (Z.eq_dec x 0) as [->|]; [reflexivity|].
    rewrite Z.bits_above_log2; [reflexivity|lia|].
    apply Z.log2_lt_pow2; lia.
  - rewrite Z.pow2_bits_false by lia. apply andb_false_r.
Qed.

(** The bytes of a well-formed frame are read back as that frame: [hdr] is
    the two header bytes, [ext] the extended length, [key] the masking key
    when the mask bit is set, [payload] the payload as it is on the wire. *)
Lemma read_dataframe_wire :
  forall hdr ext key payload rest require_masked scratch len64,
    List.length hdr = 2%nat ->
    negb (dfh_mask (dfh_of_bytes hdr)) && require_masked = false ->
    (dfh_len (dfh_of_bytes hdr) = 127 /\ List.length ext = 8%nat /\
       betoh ext = len64 /\ len64 < 2 ^ 63
     \/ dfh_len (dfh_of_bytes hdr) = 126 /\ List.length ext = 2%nat /\
       betoh ext = len64
     \/ dfh_len (dfh_of_bytes hdr) < 126 /\ ext = [] /\
       len64 = dfh_len (dfh_of_bytes hdr)) ->
    (if dfh_mask (dfh_of_bytes hdr) then List.length key = 4%nat else key = []) ->
    Z.of_nat (List.length payload) = len64 ->
    read_dataframe (hdr ++ ext ++ key ++ payload ++ rest) require_masked scratch
    = (inr {| df_opcode := dfh_opcode (dfh_of_bytes hdr);
              df_fin := dfh_fin (dfh_of_bytes hdr);
              df_size := df_size (alloc_dataframe (dfh_opcode (dfh_of_bytes hdr))
                                    (dfh_fin (dfh_of_bytes hdr)) len64 scratch);
              df_payload := if dfh_mask (dfh_of_bytes hdr)
                            then xor_mask key 0 payload else payload |},
       rest).
Proof.
  intros hdr ext key payload rest rm scratch len64 Hhdr Hmask Hext Hkey Hpay.
  unfold read_dataframe.
  rewrite rd_bind_fread by (rewrite Hhdr; reflexivity).
  cbv zeta.
  set (dfh := dfh_of_bytes hdr) in *.
  rewrite Hmask.
  (* the length *)
  assert (Hlen : forall B (k : Z -> Rd B),
    rd_bind
      (if dfh_len dfh =? 127
       then rd_bind (rd_fread 8 Failed_len64)
              (fun b => if negb (Z.land (betoh b) (Z.shiftl 1 63) =? 0)
                        then rd_fail Len64_msb_set else rd_ret (betoh b))
       else if dfh_len dfh =? 126
            then rd_bind (rd_fread 2 Failed_len16) (fun b => rd_ret (betoh b))
            else rd_ret (dfh_len dfh)) k (ext ++ key ++ payload ++ rest)
    = k len64 (key ++ payload ++ rest)).
  { intros B k.
    destruct Hext as [(Hl & Hn & Hv & Hlt) | [(Hl & Hn & Hv) | (Hl & -> & ->)]].
    - rewrite Hl. cbn [Z.eqb Pos.eqb].
      rewrite rd_bind_assoc, rd_bind_fread by (rewrite Hn; reflexivity).
      rewrite Hv, land_msb_0 by lia. reflexivity.
    - rewrite Hl. cbn [Z.eqb Pos.eqb].
      rewrite rd_bind_assoc, rd_bind_fread by (rewrite Hn; reflexivity).
      rewrite Hv. reflexivity.
    - destruct (Z.eqb_spec (dfh_len dfh) 127); [lia|].
      destruct (Z.eqb_spec (dfh_len dfh) 126); [lia|].
      reflexivity. }
  rewrite Hlen. clear Hlen.
  (* the key *)
  assert (Hk : forall B (k : list Z -> Rd B),
    rd_bind (if dfh_mask dfh then rd_fread 4 Failed_mask_key
             else rd_ret [0; 0; 0; 0]) k (key ++ payload ++ rest)
    = k (if dfh_mask dfh then key else [0; 0; 0; 0]) (payload ++ rest)).
  { intros B k. destruct (dfh_mask dfh).
    - apply rd_bind_fread. rewrite Hkey. reflexivity.
    - subst key. reflexivity. }
  rewrite Hk. clear Hk.
  (* the payload *)
  destruct (Z.ltb_spec 0 len64) as [Hpos|Hzero].
  - rewrite rd_bind_fread by assumption.
    unfold rd_ret. destruct scratch; destruct (dfh_mask dfh); reflexivity.
  - assert (payload = []) as ->.
    { destruct payload; [reflexivity|]. simpl in Hpay. lia. }
    unfold rd_ret. simpl app.
    assert (len64 = 0) as -> by (simpl in Hpay; lia).
    destruct (dfh_mask dfh); destruct scratch; reflexivity.
Qed.

Lemma df_len_0_payload : forall F, df_len F <= 0 -> df_payload F = [].
Proof.
  intros F H. unfold df_len in H.
  destruct (df_payload F); [reflexivity | simpl in H; lia].
Qed.

(** what [write_dataframe] appends: header, extended length, key, payload *)
Lemma write_dataframe_bytes : forall f F mask_key,
  write_dataframe f F mask_key =
  (true,
   f ++ dfh_bytes
          {| dfh_opcode := df_opcode F;
             dfh_rsv3 := false; dfh_rsv2 := false; dfh_rsv1 := false;
             dfh_fin := df_fin F;
             dfh_len := if df_len F <=? 125 then uint8_t (df_len F)
                        else if df_len F <=? 0xffff then 126 else 127;
             dfh_mask := match mask_key with None => false | Some _ => true end |}
     ++ (if df_len F <=? 125 then []
         else if df_len F <=? 0xffff then htobe 2 (uint16_t (df_len F))
         else htobe 8 (uint64_t (df_len F)))
     ++ match mask_key with Some k => firstn 4 k | None => [] end
     ++ match mask_key with
        | Some k => xor_mask k 0 (df_payload F)
        | None => df_payload F
        end,
   {| df_opcode := df_opcode F; df_fin := df_fin F; df_size := df_size F;
      df_payload := match mask_key with
                    | Some k => xor_mask k 0 (df_payload F)
                    | None => df_payload F
                    end |}).
Proof.
  intros f F mask_key. unfold write_dataframe. cbv zeta.
  destruct (Z.ltb_spec 0 (df_len F)) as [Hpos|Hzero].
  - destruct (df_len F <=? 125); [|destruct (df_len F <=? 0xffff)];
      destruct mask_key; cbn [df_payload];
      rewrite <- ?app_assoc; try reflexivity;
      destruct F; reflexivity.
  - rewrite (df_len_0_payload F Hzero).
    destruct (Z.leb_spec (df_len F) 125); [|lia].
    destruct mask_key; cbn [xor_mask]; rewrite ?app_nil_r, <- ?app_assoc;
      try reflexivity; destruct F; cbn in *; try reflexivity.
    all: pose proof (df_len_0_payload _ Hzero) as E; cbn in E; subst; reflexivity.
Qed.

(** C8.  A frame written by [write_dataframe] carries the shortest length
    encoding: after the first header byte [b0] comes [b1], whose low seven
    bits are the length itself when it is at most 125 (a 2-byte prefix), 126
    followed by the length as a big-endian 16-bit word when it is at most
    65535 (a 4-byte prefix), and 127 followed by the length as a big-endian
    64-bit word otherwise (a 10-byte prefix).  The top bit of [b1] is set,
    and the 4 key bytes stand between the prefix and the payload, exactly
    when a mask key is supplied. *)
Theorem write_dataframe_shortest_length_encoding :
  forall (f : list Z) (F : Data_Frame) (mask_key : option (list Z)),
    df_len F < 2 ^ 64 ->
    (forall k, mask_key = Some k -> List.length k = 4%nat) ->
    exists b0 b1 ext key_bytes F',
      write_dataframe f F mask_key
        = (true, f ++ [b0; b1] ++ ext ++ key_bytes ++ df_payload F', F') /\
      List.length (df_payload F') = List.length (df_payload F) /\
      (df_len F <= 125 ->
         Z.land b1 127 = df_len F /\ ext = [] /\
         List.length ([b0; b1] ++ ext) = 2%nat) /\
      (126 <= df_len F <= 65535 ->
         Z.land b1 127 = 126 /\ ext = htobe 2 (df_len F) /\
         betoh ext = df_len F /\ List.length ([b0; b1] ++ ext) = 4%nat) /\
      (65536 <= df_len F ->
         Z.land b1 127 = 127 /\ ext = htobe 8 (df_len F) /\
         betoh ext = df_len F /\ List.length ([b0; b1] ++ ext) = 10%nat) /\
      match mask_key with
      | Some k => Z.testbit b1 7 = true /\ key_bytes = k /\
                  List.length key_bytes = 4%nat
      | None => Z.testbit b1 7 = false /\ key_bytes = []
      end.
Proof.
  intros f F mask_key Hlen Hkey.
  assert (Hnonneg : 0 <= df_len F) by (unfold df_len; lia).
  rewrite write_dataframe_bytes.
  set (len7 := if df_len F <=? 125 then uint8_t (df_len F)
               else if df_len F <=? 0xffff then 126 else 127).
  set (m := match mask_key with None => false | Some _ => true end).
  assert (Hlen7 : 0 <= len7 < 128).
  { subst len7. unfold uint8_t.
    destruct (Z.leb_spec (df_len F) 125);
      [rewrite Z.mod_small by lia; lia |].
    destruct (df_len F <=? 0xffff); lia. }
  assert (Hb1 : forall x b, 0 <= x < 128 ->
            Z.land (Z.lor (Z.land x 127) (Z.shiftl (Z.b2z b) 7)) 127 = x /\
            Z.testbit (Z.lor (Z.land x 127) (Z.shiftl (Z.b2z b) 7)) 7 = b).
  { intros x b Hx.
    rewrite (land_127 x), (Z.mod_small x) by (change (2 ^ 7) with 128; lia).
    rewrite lor_shiftl_add by (change (2 ^ 7) with 128; lia).
    split.
    - rewrite land_127, Z.mod_add by lia. apply Z.mod_small.
      change (2 ^ 7) with 128; lia.
    - rewrite Z.testbit_eqb, Z.div_add by lia.
      rewrite Z.div_small by (change (2 ^ 7) with 128; lia).
      destruct b; reflexivity. }
  destruct (Hb1 len7 m Hlen7) as [Hl7 Hm7].
  do 4 eexists.
  exists {| df_opcode := df_opcode F; df_fin := df_fin F; df_size := df_size F;
            df_payload := match mask_key with
                          | Some k => xor_mask k 0 (df_payload F)
                          | None => df_payload F
                          end |}.
  split; [unfold dfh_bytes; cbn [app df_payload]; reflexivity|].
  cbn [df_payload dfh_len dfh_mask].
  split; [destruct mask_key; [apply xor_mask_length | reflexivity]|].
  split; [|split; [|split]].
  - intro H. rewrite Hl7. subst len7. unfold uint8_t.
    destruct (Z.leb_spec (df_len F) 125); [|lia].
    rewrite Z.mod_small by lia. repeat split.
  - intro H. rewrite Hl7. subst len7. unfold uint16_t.
    destruct (Z.leb_spec (df_len F) 125); [lia|].
    destruct (Z.leb_spec (df_len F) 0xffff); [|lia].
    rewrite (Z.mod_small (df_len F)) by lia.
    repeat split.
    + rewrite betoh_htobe. apply Z.mod_small.
      change (2 ^ (8 * Z.of_nat 2)) with 65536. lia.
  - intro H. rewrite Hl7. subst len7. unfold uint64_t.
    destruct (Z.leb_spec (df_len F) 125); [lia|].
    destruct (Z.leb_spec (df_len F) 0xffff); [lia|].
    rewrite (Z.mod_small (df_len F)) by lia.
    repeat split.
    + rewrite betoh_htobe. apply Z.mod_small.
      change (2 ^ (8 * Z.of_nat 8)) with (2 ^ 64). lia.
  - subst m. destruct mask_key as [k|].
    + specialize (Hkey k eq_refl).
      rewrite firstn_exact by (symmetry; exact Hkey).
      repeat split; assumption.
    + split; [assumption | reflexivity].
Qed.

Lemma write_dataframe_shortest_length_encoding_witness :
  let F := client_frame OC_BIN true [0; 1; 2; 3; 4; 5; 6; 7] in
  df_len F < 2 ^ 64 /\
  (forall k, Some sample_mask_key = Some k -> List.length k = 4%nat) /\
  exists b0 b1 ext key_bytes F',
    write_dataframe [] F (Some sample_mask_key)
      = (true, [] ++ [b0; b1] ++ ext ++ key_bytes ++ df_payload F', F') /\
    List.length (df_payload F') = List.length (df_payload F) /\
    (df_len F <= 125 ->
       Z.land b1 127 = df_len F /\ ext = [] /\
       List.length ([b0; b1] ++ ext) = 2%nat) /\
    (126 <= df_len F <= 65535 ->
       Z.land b1 127 = 126 /\ ext = htobe 2 (df_len F) /\
       betoh ext = df_len F /\ List.length ([b0; b1] ++ ext) = 4%nat) /\
    (65536 <= df_len F ->
       Z.land b1 127 = 127 /\ ext = htobe 8 (df_len F) /\
       betoh ext = df_len F /\ List.length ([b0; b1] ++ ext) = 10%nat) /\
    (Z.testbit b1 7 = true /\ key_bytes = sample_mask_key /\
     List.length key_bytes = 4%nat).
Proof.
  cbv zeta.
  assert (Hk : forall k, Some sample_mask_key = Some k -> List.length k = 4%nat).
  { intros k H. injection H as <-. reflexivity. }
  split; [change (8 < 2 ^ 64); lia|]. split; [exact Hk|].
  apply (write_dataframe_shortest_length_encoding []
           (client_frame OC_BIN true [0; 1; 2; 3; 4; 5; 6; 7])
           (Some sample_mask_key)).
  - change (8 < 2 ^ 64). lia.
  - exact Hk.
Defined.

(** C4.  Writing a frame with a 4-byte mask key and reading the bytes back,
    masking required, gives a frame with the same opcode, the same fin bit
    and the same payload, for every 4-bit opcode and every payload of up to
    2^63 - 1 bytes; the bytes after the frame are left in the stream. *)
Theorem write_read_dataframe_roundtrip :
  forall (F : Data_Frame) (k rest : list Z) (scratch : option Data_Frame),
    0 <= df_opcode F < 16 ->
    df_len F <= 2 ^ 63 - 1 ->
    List.length k = 4%nat ->
    exists out F_w F',
      write_dataframe [] F (Some k) = (true, out, F_w) /\
      read_dataframe (out ++ rest) true scratch = (inr F', rest) /\
      df_opcode F' = df_opcode F /\
      df_fin F' = df_fin F /\
      df_payload F' = df_payload F.
Proof.
  intros F k rest scratch Hop Hlen Hk.
  assert (Hnonneg : 0 <= df_len F) by (unfold df_len; lia).
  rewrite write_dataframe_bytes. cbn [app].
  set (len7 := if df_len F <=? 125 then uint8_t (df_len F)
               else if df_len F <=? 0xffff then 126 else 127).
  set (ext := if df_len F <=? 125 then []
              else if df_len F <=? 0xffff then htobe 2 (uint16_t (df_len F))
              else htobe 8 (uint64_t (df_len F))).
  assert (Hlen7 : 0 <= len7 < 128).
  { subst len7. unfold uint8_t.
    destruct (Z.leb_spec (df_len F) 125);
      [rewrite Z.mod_small by lia; lia |].
    destruct (df_len F <=? 0xffff); lia. }
  set (hdr := dfh_bytes _).
  destruct (dfh_roundtrip (df_opcode F) (df_fin F) len7 true Hop Hlen7)
    as (Ho & Hf & Hl & Hm & _).
  fold hdr in Ho, Hf, Hl, Hm.
  rewrite firstn_exact by (symmetry; exact Hk).
  eexists _, _, _. split; [reflexivity|].
  rewrite <- !app_assoc.
  rewrite (read_dataframe_wire hdr ext k (xor_mask k 0 (df_payload F)) rest
             true scratch (df_len F)).
  - split; [reflexivity|]. cbn [df_opcode df_fin df_payload].
    rewrite Ho, Hf, Hm, xor_mask_involutive. repeat split.
  - reflexivity.
  - rewrite Hm. reflexivity.
  - rewrite Hl. subst len7 ext. unfold uint8_t, uint16_t, uint64_t.
    destruct (Z.leb_spec (df_len F) 125);
      [right; right; rewrite Z.mod_small by lia; repeat split; lia|].
    destruct (Z.leb_spec (df_len F) 0xffff).
    + right; left. rewrite (Z.mod_small (df_len F)) by lia.
      split; [reflexivity|]. split; [apply htobe_length|].
      rewrite betoh_htobe. apply Z.mod_small.
      change (2 ^ (8 * Z.of_nat 2)) with 65536. lia.
    + left. rewrite (Z.mod_small (df_len F)) by lia.
      split; [reflexivity|]. split; [apply htobe_length|]. split; [|lia].
      rewrite betoh_htobe. apply Z.mod_small.
      change (2 ^ (8 * Z.of_nat 8)) with (2 ^ 64). lia.
  - rewrite Hm. exact Hk.
  - rewrite xor_mask_length. reflexivity.
Qed.

Lemma write_read_dataframe_roundtrip_witness :
  let F := client_frame OC_BIN true [0; 1; 2; 3; 4; 5; 6; 7] in
  0 <= df_opcode F < 16 /\
  df_len F <= 2 ^ 63 - 1 /\
  List.length sample_mask_key = 4%nat /\
  exists out F_w F',
    write_dataframe [] F (Some sample_mask_key) = (true, out, F_w) /\
    read_dataframe (out ++ []) true None = (inr F', []) /\
    df_opcode F' = df_opcode F /\
    df_fin F' = df_fin F /\
    df_payload F' = df_payload F.
Proof.
  cbv zeta.
  split; [change (0 <= 2 < 16); lia|].
  split; [change (8 <= 2 ^ 63 - 1); lia|].
  split; [reflexivity|].
  apply (write_read_dataframe_roundtrip
           (client_frame OC_BIN true [0; 1; 2; 3; 4; 5; 6; 7])
           sample_mask_key [] None).
  - change (0 <= 2 < 16). lia.
  - change (8 <= 2 ^ 63 - 1). lia.
  - reflexivity.
Defined.

(* ================================================================== *)
(** * Reserved bits *)
(* ================================================================== *)

(** [read_dataframe] accepts a frame whose three reserved bits are set: the
    header byte 0xF1 is fin, rsv1, rsv2, rsv3 and opcode TEXT. *)
Lemma read_dataframe_accepts_reserved_bits :
  dfh_rsv1 (dfh_of_bytes [0xF1; 0x80]) = true /\
  dfh_rsv2 (dfh_of_bytes [0xF1; 0x80]) = true /\
  dfh_rsv3 (dfh_of_bytes [0xF1; 0x80]) = true /\
  read_dataframe [0xF1; 0x80; 2; 1; 1; 2] true None
  = (inr {| df_opcode := OC_TEXT; df_fin := true; df_size := 24;
            df_payload := [] |}, []).
Proof. vm_compute. repeat split. Qed.

(** C3, as the code has it.  [read_dataframe] never looks at the reserved
    bits: whatever the stream, the result is the one for the same bytes with
    rsv1, rsv2 and rsv3 cleared in the first header byte.  No error is
    raised for them. *)
Theorem read_dataframe_ignores_reserved_bits :
  forall (b0 b1 : Z) (rest : list Z) (require_masked : bool)
         (scratch : option Data_Frame),
    read_dataframe (b0 :: b1 :: rest) require_masked scratch
    = read_dataframe (Z.land b0 0x8F :: b1 :: rest) require_masked scratch.
Proof.
  intros b0 b1 rest rm scratch. unfold read_dataframe.
  change (b0 :: b1 :: rest) with ([b0; b1] ++ rest).
  change (Z.land b0 0x8F :: b1 :: rest) with ([Z.land b0 0x8F; b1] ++ rest).
  rewrite !rd_bind_fread by reflexivity.
  cbv zeta. unfold dfh_of_bytes.
  cbn [nth dfh_opcode dfh_fin dfh_len dfh_mask].
  rewrite <- Z.land_assoc. change (Z.land 0x8F 15) with 15.
  rewrite Z.land_spec. change (Z.testbit 0x8F 7) with true.
  rewrite andb_true_r. reflexivity.
Qed.

(* ================================================================== *)
(** * The message loop *)
(* ================================================================== *)

Lemma rd_fread_shrinks : forall n e f a f',
  rd_fread n e f = (inr a, f') ->
  0 <= n -> (List.length f' + Z.to_nat n = List.length f)%nat.
Proof.
  intros n e f a f' H Hn. unfold rd_fread in H.
  destruct (Z.ltb_spec (Z.of_nat (List.length f)) n); [discriminate|].
  injection H as _ <-. rewrite length_skipn. lia.
Qed.

Lemma rd_shrinks_ret : forall A (a : A), rd_shrinks (rd_ret a).
Proof. intros A a f a' f' H. injection H as _ <-. lia. Qed.

Lemma rd_shrinks_fail : forall A e, rd_shrinks (@rd_fail A e).
Proof. intros A e f a f' H. discriminate. Qed.

Lemma rd_shrinks_fread : forall n e, rd_shrinks (rd_fread n e).
Proof.
  intros n e f a f' H. unfold rd_fread in H.
  destruct (Z.of_nat (List.length f) <? n); [discriminate|].
  injection H as _ <-. rewrite length_skipn. lia.
Qed.

Lemma rd_shrinks_bind : forall A B (m : Rd A) (k : A -> Rd B),
  rd_shrinks m -> (forall a, rd_shrinks (k a)) -> rd_shrinks (rd_bind m k).
Proof.
  intros A B m k Hm Hk f b f' H. unfold rd_bind in H.
  destruct (m f) as [[e|a] f1] eqn:E; [discriminate|].
  apply Hm in E. apply Hk in H. lia.
Qed.

Lemma rd_shrinks_if : forall A (c : bool) (m1 m2 : Rd A),
  rd_shrinks m1 -> rd_shrinks m2 -> rd_shrinks (if c then m1 else m2).
Proof. intros A c m1 m2 H1 H2. destruct c; assumption. Qed.

Create HintDb rd.
#[local] Hint Resolve rd_shrinks_ret rd_shrinks_fail rd_shrinks_fread
  rd_shrinks_bind rd_shrinks_if : rd.

(** a frame that was read took at least its two header bytes *)
Lemma read_dataframe_consumes : forall f require_masked scratch d f',
  read_dataframe f require_masked scratch = (inr d, f') ->
  (List.length f' + 2 <= List.length f)%nat.
Proof.
  intros f rm scratch d f' H. unfold read_dataframe in H.
  unfold rd_bind at 1 in H.
  destruct (rd_fread 2 Failed_header f) as [[e|hdr] f1] eqn:H1; [discriminate|].
  apply rd_fread_shrinks in H1; [|lia].
  cbv zeta in H.
  assert (Hk : (List.length f' <= List.length f1)%nat); [|lia].
  revert H. generalize f1 d f'. clear.
  match goal with
  | |- forall f a f', ?m f = _ -> _ => change (rd_shrinks m)
  end.
  auto 10 with rd.
Qed.

(** the loop of [_ws_read] returns as soon as the fuel exceeds the bytes
    left to read *)
Lemma _ws_read_loop_returns : forall fuel ws opcode_prev,
  (List.length (f_in ws) < fuel)%nat ->
  exists r, _ws_read_loop fuel ws opcode_prev = Some r.
Proof.
  induction fuel as [|fuel IH]; intros ws prev Hfuel; [lia|].
  cbn [_ws_read_loop].
  destruct (read_dataframe (f_in ws) (is_masked_client ws) (df ws))
    as [[e|d] f'] eqn:Hr.
  - eexists. reflexivity.
  - apply read_dataframe_consumes in Hr.
    destruct (df_opcode d =? OC_CONT).
    + destruct (prev =? OC_PING).
      { destruct (write_dataframe _ _ None) as [[ok fo] d'].
        apply IH. cbn. lia. }
      destruct (prev =? OC_PONG); [apply IH; cbn; lia|].
      destruct (prev =? OC_CLOSE); [eexists; reflexivity|].
      destruct ((prev =? OC_TEXT) || (prev =? OC_BIN)); [|eexists; reflexivity].
      unfold mem_append.
      destruct (df_fin d); [eexists; reflexivity|].
      apply IH. cbn. lia.
    + destruct (df_opcode d =? OC_PING).
      { destruct (write_dataframe _ _ None) as [[ok fo] d'].
        apply IH. cbn. lia. }
      destruct (df_opcode d =? OC_PONG); [apply IH; cbn; lia|].
      destruct (df_opcode d =? OC_CLOSE); [eexists; reflexivity|].
      destruct ((df_opcode d =? OC_TEXT) || (df_opcode d =? OC_BIN));
        [|eexists; reflexivity].
      unfold mem_append.
      destruct (df_fin d); [eexists; reflexivity|].
      apply IH. cbn. lia.
Qed.

(** [_ws_read] returns, the blocks of its frames being given *)
Lemma _ws_read_total : forall ws, exists r, _ws_read ws = Some r.
Proof. intro ws. apply _ws_read_loop_returns. lia. Qed.


(** a PING frame read in the loop, whatever came before: the PONG goes out
    and the PING is counted, and the loop goes on with the message length
    back at 0 and, the frame being final, no previous opcode *)
Lemma _ws_read_loop_ping : forall fuel ws opcode_prev d f',
  read_dataframe (f_in ws) (is_masked_client ws) (df ws) = (inr d, f') ->
  df_opcode d = OC_PING ->
  df_fin d = true ->
  exists ws',
    _ws_read_loop (S fuel) ws opcode_prev = _ws_read_loop fuel ws' (-1) /\
    f_in ws' = f' /\
    buff_len ws' = 0 /\
    buff ws' = buff ws /\
    is_masked_client ws' = is_masked_client ws /\
    ping_recv_count ws' = uint16_t (ping_recv_count ws + 1) /\
    f_out ws' = snd (fst (write_dataframe (f_out ws) (set_df_opcode OC_PONG d) None)).
Proof.
  intros fuel ws prev d f' Hr Hop Hfin.
  cbn [_ws_read_loop]. rewrite Hr, Hop, Hfin.
  change (OC_PING =? OC_CONT) with false. cbv iota.
  change (OC_PING =? OC_PING) with true. cbv iota.
  destruct (write_dataframe _ _ None) as [[ok fo] d'] eqn:Hw.
  eexists. split; [reflexivity|]. cbn. repeat split.
Qed.

(** a PONG frame read in the loop: counted, and the same resets *)
Lemma _ws_read_loop_pong : forall fuel ws opcode_prev d f',
  read_dataframe (f_in ws) (is_masked_client ws) (df ws) = (inr d, f') ->
  df_opcode d = OC_PONG ->
  df_fin d = true ->
  exists ws',
    _ws_read_loop (S fuel) ws opcode_prev = _ws_read_loop fuel ws' (-1) /\
    f_in ws' = f' /\
    buff_len ws' = 0 /\
    buff ws' = buff ws /\
    is_masked_client ws' = is_masked_client ws /\
    pong_recv_count ws' = uint16_t (pong_recv_count ws + 1) /\
    f_out ws' = f_out ws.
Proof.
  intros fuel ws prev d f' Hr Hop Hfin.
  cbn [_ws_read_loop]. rewrite Hr, Hop, Hfin.
  change (OC_PONG =? OC_CONT) with false. cbv iota.
  change (OC_PONG =? OC_PING) with false. cbv iota.
  change (OC_PONG =? OC_PONG) with true. cbv iota.
  eexists. split; [reflexivity|]. cbn. repeat split.
Qed.

(** a CONT frame read when there is no previous opcode ends the loop with
    the error value -1 *)
Lemma _ws_read_loop_cont_without_prev : forall fuel ws d f',
  read_dataframe (f_in ws) (is_masked_client ws) (df ws) = (inr d, f') ->
  df_opcode d = OC_CONT ->
  exists ws', _ws_read_loop (S fuel) ws (-1) = Some (-1, ws') /\
              buff_len ws' = buff_len ws.
Proof.
  intros fuel ws d f' Hr Hop.
  cbn [_ws_read_loop]. rewrite Hr, Hop.
  change (OC_CONT =? OC_CONT) with true. cbv iota.
  eexists. split; [reflexivity|]. reflexivity.
Qed.

(** the unit test of ws.c on the model: the PONG is counted, the binary
    message comes first, then the text message as the three fragments in
    order, then the PING is answered and the close arrives with status
    1000 *)
Example ws_dataframe_io_round_trip :
  let s0 := fresh_session (client_bytes unit_test_frames) in
  let s1 := after_wait s0 in
  let s2 := after_wait s1 in
  let s3 := after_wait s2 in
  wait_type s0 = Some WS_MSG_BIN /\
  message s1 = [0; 1; 2; 3; 4; 5; 6; 7] /\
  wait_type s1 = Some WS_MSG_TXT /\
  bytes_eqb (message s2)
            (repeat 65 (Z.to_nat 0x7D) ++ repeat 66 (Z.to_nat 0xFF)
             ++ repeat 67 (Z.to_nat 0x10000)) = true /\
  wait_type s2 = Some WS_CLOSE /\
  ws_status s3 = WS_STATUS_NORMAL /\
  pong_recv_count s3 = 1 /\ ping_recv_count s3 = 1.
Proof. vm_compute. repeat split. Qed.

(** A final PING or PONG frame followed by a CONT frame ends the loop with
    the error value and an empty message, whatever opcode was remembered
    before the control frame: a fragmented message does not survive a
    control frame between its fragments. *)
Lemma control_frame_then_cont_is_error :
  forall fuel ws opcode_prev d f1 f2,
    read_dataframe (f_in ws) (is_masked_client ws) (df ws) = (inr d, f1) ->
    df_opcode d = OC_PING \/ df_opcode d = OC_PONG ->
    df_fin d = true ->
    (forall scratch, exists d2,
        read_dataframe f1 (is_masked_client ws) scratch = (inr d2, f2) /\
        df_opcode d2 = OC_CONT) ->
    exists ws',
      _ws_read_loop (S (S fuel)) ws opcode_prev = Some (-1, ws') /\
      buff_len ws' = 0.
Proof.
  intros fuel ws prev d f1 f2 Hr Hop Hfin Hnext.
  destruct Hop as [Hop|Hop].
  - destruct (_ws_read_loop_ping (S fuel) ws prev d f1 Hr Hop Hfin)
      as (ws1 & -> & Hin & Hlen & _ & Hm & _).
    destruct (Hnext (df ws1)) as (d2 & Hr2 & Hop2).
    rewrite <- Hin, <- Hm in Hr2.
    destruct (_ws_read_loop_cont_without_prev fuel ws1 d2 f2 Hr2 Hop2)
      as (ws' & -> & Hlen').
    exists ws'. split; [reflexivity | congruence].
  - destruct (_ws_read_loop_pong (S fuel) ws prev d f1 Hr Hop Hfin)
      as (ws1 & -> & Hin & Hlen & _ & Hm & _).
    destruct (Hnext (df ws1)) as (d2 & Hr2 & Hop2).
    rewrite <- Hin, <- Hm in Hr2.
    destruct (_ws_read_loop_cont_without_prev fuel ws1 d2 f2 Hr2 Hop2)
      as (ws' & -> & Hlen').
    exists ws'. split; [reflexivity | congruence].
Qed.

Example fresh_session_created : forall f_in,
  _ws_create f_in [] true = (Some (fresh_session f_in), [0x89; 0x00]).
Proof. reflexivity. Qed.

(** C2, evaluated.  A text message in two fragments, "A" then "B", is
    reassembled to "AB".  With a PING (or a PONG) between the two fragments
    the control frame is processed (the PONG reply goes out, the counter
    goes up), but the message length is reset to 0 and the previous opcode
    forgotten, and the final CONT frame ends the loop with the error value:
    [ws_wait] reports [WS_ERROR] and the message is lost. *)
Theorem control_frame_between_fragments_loses_message :
  let text_A := client_frame OC_TEXT false (sz "A") in
  let cont_B := client_frame OC_CONT true (sz "B") in
  let ping := client_frame OC_PING true [] in
  let pong := client_frame OC_PONG true [] in
  (exists ws',
     ws_wait (fresh_session (client_bytes [text_A; cont_B]))
       = Some (WS_MSG_TXT, ws') /\
     message ws' = sz "AB") /\
  (exists ws',
     _ws_read (fresh_session (client_bytes [text_A; ping; cont_B]))
       = Some (-1, ws') /\
     ws_wait (fresh_session (client_bytes [text_A; ping; cont_B]))
       = Some (WS_ERROR, ws') /\
     ping_recv_count ws' = 1 /\
     f_out ws' = [0x89; 0x00] ++ [0x8A; 0x00] /\
     buff_len ws' = 0 /\ message ws' = []) /\
  (exists ws',
     _ws_read (fresh_session (client_bytes [text_A; pong; cont_B]))
       = Some (-1, ws') /\
     ws_wait (fresh_session (client_bytes [text_A; pong; cont_B]))
       = Some (WS_ERROR, ws') /\
     pong_recv_count ws' = 1 /\
     buff_len ws' = 0 /\ message ws' = []).
Proof.
  cbv zeta. split; [|split]; eexists; vm_compute; repeat split.
Qed.

(** A CLOSE frame with a payload of one byte ends the loop as a close, not
    as an error. *)
Lemma close_with_one_byte_is_not_an_error :
  let f := client_bytes [client_frame OC_CLOSE true [0x03]] in
  (exists ws', _ws_read (fresh_session f) = Some (OC_CLOSE, ws') /\
               ws_wait (fresh_session f) = Some (WS_CLOSE, ws') /\
               ws_status ws' = 0) /\
  (forall ws', ws_wait (fresh_session f) <> Some (WS_ERROR, ws')).
Proof.
  cbv zeta. split.
  - eexists. vm_compute. repeat split.
  - intros ws' H. vm_compute in H. discriminate.
Qed.

(** C9, as the code has it.  Whenever the frame read in the loop of
    [_ws_read] is a CLOSE frame whose payload is exactly one byte long, at
    whichever pass of the loop and whatever opcode is remembered from the
    frames before, the loop ends with [OC_CLOSE] and the status code 0, and
    the [ws_wait] whose call has come to that pass returns [WS_CLOSE]: a
    normal close.  In particular so when the CLOSE frame is the first frame
    of the call. *)
Theorem close_with_one_byte_is_a_close_with_status_0 :
  forall (ws : Websocket_S) (d : Data_Frame) (f' : list Z),
    read_dataframe (f_in ws) (is_masked_client ws) (df ws) = (inr d, f') ->
    df_opcode d = OC_CLOSE ->
    df_len d = 1 ->
    (forall (fuel : nat) (opcode_prev : Z),
       exists ws',
         _ws_read_loop (S fuel) ws opcode_prev = Some (OC_CLOSE, ws') /\
         ws_status ws' = 0 /\
         f_in ws' = f' /\
         (forall ws0, _ws_read ws0 = _ws_read_loop (S fuel) ws opcode_prev ->
                      ws_wait ws0 = Some (WS_CLOSE, ws'))) /\
    exists ws',
      _ws_read ws = Some (OC_CLOSE, ws') /\
      ws_wait ws = Some (WS_CLOSE, ws') /\
      ws_status ws' = 0 /\
      f_in ws' = f'.
Proof.
  intros ws d f' Hr Hop Hlen.
  assert (Hloop : forall fuel opcode_prev,
    _ws_read_loop (S fuel) ws opcode_prev
    = Some (OC_CLOSE,
            set_status_code (betoh [0; 0])
              (set_buff_len 0 (set_df (Some d) (set_f_in f' ws))))).
  { intros fuel opcode_prev. cbn [_ws_read_loop].
    rewrite Hr, Hop, Hlen.
    change (OC_CLOSE =? OC_CONT) with false. cbv iota. reflexivity. }
  split.
  - intros fuel opcode_prev. eexists. split; [apply Hloop|].
    split; [reflexivity|]. split; [reflexivity|].
    intros ws0 H0. unfold ws_wait. rewrite H0, Hloop. reflexivity.
  - eexists. unfold ws_wait, _ws_read. rewrite Hloop. repeat split.
Qed.

Lemma close_with_one_byte_is_a_close_with_status_0_witness :
  let ws := fresh_session (client_bytes [client_frame OC_CLOSE true [0x03]]) in
  let d := {| df_opcode := OC_CLOSE; df_fin := true; df_size := 25;
              df_payload := [0x03] |} in
  read_dataframe (f_in ws) (is_masked_client ws) (df ws) = (inr d, []) /\
  df_opcode d = OC_CLOSE /\ df_len d = 1 /\
  (forall (fuel : nat) (opcode_prev : Z),
     exists ws',
       _ws_read_loop (S fuel) ws opcode_prev = Some (OC_CLOSE, ws') /\
       ws_status ws' = 0 /\
       f_in ws' = [] /\
       (forall ws0, _ws_read ws0 = _ws_read_loop (S fuel) ws opcode_prev ->
                    ws_wait ws0 = Some (WS_CLOSE, ws'))) /\
  exists ws',
    _ws_read ws = Some (OC_CLOSE, ws') /\
    ws_wait ws = Some (WS_CLOSE, ws') /\
    ws_status ws' = 0 /\
    f_in ws' = [].
Proof.
  cbv zeta.
  split; [vm_compute; reflexivity|].
  split; [reflexivity|]. split; [reflexivity|].
  apply (close_with_one_byte_is_a_close_with_status_0
           (fresh_session (client_bytes [client_frame OC_CLOSE true [0x03]]))
           {| df_opcode := OC_CLOSE; df_fin := true; df_size := 25;
              df_payload := [0x03] |} []).
  - vm_compute. reflexivity.
  - reflexivity.
  - reflexivity.
Defined.

(** the same after a fragment: a CLOSE frame with one byte of payload that
    follows a TEXT frame which is not final, in the same call, is a close
    with status 0 as well *)
Example close_after_fragment_is_a_close :
  let f := client_bytes [client_frame OC_TEXT false (sz "A");
                         client_frame OC_CLOSE true [0x03]] in
  wait_type (fresh_session f) = Some WS_CLOSE /\
  ws_status (after_wait (fresh_session f)) = 0 /\
  f_in (after_wait (fresh_session f)) = [].
Proof. cbv zeta. vm_compute. repeat split. Qed.

(* ================================================================== *)
(** * The handshake *)
(* ================================================================== *)

Lemma sz_equal_ignore_case_loop_sym : forall a b,
  sz_equal_ignore_case_loop a b = sz_equal_ignore_case_loop b a.
Proof.
  induction a as [|x a IH]; destruct b as [|y b]; simpl; try reflexivity.
  rewrite (Z.eqb_sym (tolower x)), IH. reflexivity.
Qed.

Lemma SHA1_length : forall d, List.length (SHA1 d) = 20%nat.
Proof.
  intro d. unfold SHA1.
  destruct (sha1_blocks _ _ _) as [[[[h0 h1] h2] h3] h4].
  rewrite !length_app, !htobe_length. reflexivity.
Qed.

(** the digests of FIPS 180 for the empty message and for "abc" *)
Example SHA1_empty :
  SHA1 [] = [0xda; 0x39; 0xa3; 0xee; 0x5e; 0x6b; 0x4b; 0x0d; 0x32; 0x55;
             0xbf; 0xef; 0x95; 0x60; 0x18; 0x90; 0xaf; 0xd8; 0x07; 0x09].
Proof. vm_compute. reflexivity. Qed.

Example SHA1_abc :
  SHA1 (sz "abc") = [0xa9; 0x99; 0x3e; 0x36; 0x47; 0x06; 0x81; 0x6a; 0xba; 0x3e;
                     0x25; 0x71; 0x78; 0x50; 0xc2; 0x6c; 0x9c; 0xd0; 0xd8; 0x9d].
Proof. vm_compute. reflexivity. Qed.

(** the examples of RFC 4648 *)
Example b64_encode_foobar :
  b64_encode (sz "f") = sz "Zg==" /\
  b64_encode (sz "fo") = sz "Zm8=" /\
  b64_encode (sz "foobar") = sz "Zm9vYmFy".
Proof. vm_compute. repeat split. Qed.

(** C7.  For an upgrade request with [sec-websocket-key] K, the handshake
    writes the 101 response with the header [sec-websocket-accept] whose
    value is the base64 text, on one line, of the SHA-1 digest of the bytes
    of K followed by the GUID.  For the key of the RFC the value is
    [s3pPLMBiTxaQ9kYGzzhZRbK+xOo=]. *)
Theorem handshake_accept_value :
  forall (f_out : list Z) (headers : Http_Headers) (K : list Z),
    ws_is_upgradable headers = true ->
    ht_get headers H_SEC_WEBSOCKET_KEY = Some K ->
    _ws_handshake f_out headers
      = (true,
         f_out ++ sz "HTTP/1.1 101 Switching Protocols" ++ CRLF
               ++ sz "connection: upgrade" ++ CRLF
               ++ sz "upgrade: websocket" ++ CRLF
               ++ sz "sec-websocket-accept: "
               ++ b64_encode (SHA1 (K ++ sz "258EAFA5-E914-47DA-95CA-C5AB0DC85B11"))
               ++ CRLF ++ CRLF) /\
    (K = sz "dGhlIHNhbXBsZSBub25jZQ==" ->
     b64_encode (SHA1 (K ++ sz "258EAFA5-E914-47DA-95CA-C5AB0DC85B11"))
       = sz "s3pPLMBiTxaQ9kYGzzhZRbK+xOo=").
Proof.
  intros f_out headers K Hup Hkey. split.
  - unfold _ws_handshake. unfold ws_is_upgradable in Hup.
    destruct (ht_get headers H_UPGRADE) as [valT|]; [|discriminate].
    cbn [sz_equal_ignore_case] in Hup |- *.
    rewrite sz_equal_ignore_case_loop_sym, Hup. cbn [negb].
    rewrite Hkey. unfold io_encode_b64, sz_cat, SHA_DIGEST_LENGTH.
    rewrite firstn_exact by (rewrite SHA1_length; reflexivity).
    change WS_MAGIC with (sz "258EAFA5-E914-47DA-95CA-C5AB0DC85B11").
    generalize (b64_encode (SHA1 (K ++ sz "258EAFA5-E914-47DA-95CA-C5AB0DC85B11"))).
    intro accept. rewrite <- !app_assoc. reflexivity.
  - intros ->. vm_compute. reflexivity.
Qed.

Lemma handshake_accept_value_witness :
  ws_is_upgradable sample_upgrade_headers = true /\
  ht_get sample_upgrade_headers H_SEC_WEBSOCKET_KEY = Some sample_ws_key /\
  _ws_handshake [] sample_upgrade_headers
    = (true,
       [] ++ sz "HTTP/1.1 101 Switching Protocols" ++ CRLF
          ++ sz "connection: upgrade" ++ CRLF
          ++ sz "upgrade: websocket" ++ CRLF
          ++ sz "sec-websocket-accept: "
          ++ b64_encode (SHA1 (sample_ws_key ++ sz "258EAFA5-E914-47DA-95CA-C5AB0DC85B11"))
          ++ CRLF ++ CRLF) /\
  (sample_ws_key = sz "dGhlIHNhbXBsZSBub25jZQ==" ->
   b64_encode (SHA1 (sample_ws_key ++ sz "258EAFA5-E914-47DA-95CA-C5AB0DC85B11"))
     = sz "s3pPLMBiTxaQ9kYGzzhZRbK+xOo=").
Proof.
  split; [vm_compute; reflexivity|].
  split; [vm_compute; reflexivity|].
  apply (handshake_accept_value [] sample_upgrade_headers sample_ws_key).
  - vm_compute. reflexivity.
  - vm_compute. reflexivity.
Defined.

(** the whole upgrade over [http_client_connect]: the bytes sent back for
    the request of the RFC start with the 101 response carrying the accept
    value, followed by the PING of [_ws_create] *)
Example upgrade_response_on_the_wire :
  exists code rest_in tail,
    http_client_connect sample_fs sample_PATH_MAX sample_http
      (crlf_lines [sz "GET /chat HTTP/1.1"; sz "Host: server.example.com";
                   sz "Upgrade: websocket"; sz "Connection: Upgrade";
                   sz "Sec-WebSocket-Key: dGhlIHNhbXBsZSBub25jZQ==";
                   sz "Sec-WebSocket-Version: 13"; []]) []
    = Some (code, rest_in,
            sz "HTTP/1.1 101 Switching Protocols" ++ CRLF
            ++ sz "connection: upgrade" ++ CRLF
            ++ sz "upgrade: websocket" ++ CRLF
            ++ sz "sec-websocket-accept: s3pPLMBiTxaQ9kYGzzhZRbK+xOo=" ++ CRLF
            ++ CRLF ++ [0x89; 0x00] ++ tail).
Proof. do 3 eexists. vm_compute. reflexivity. Qed.

(* ================================================================== *)
(** * POST and PUT *)
(* ================================================================== *)

Lemma atoi_non_numeric : forall v, scan_int v = None -> atoi v = 0.
Proof. intros v H. unfold atoi, strtol. rewrite H. reflexivity. Qed.

(** A [content-length] that is not a number but starts with one is read by
    [atoi] as that number: for [5x] the body loop runs.  With a body of two
    bytes it consumes them and answers 400; with a longer body it consumes
    five bytes.  And the 201 line carries no reason phrase: [Created] is not
    on the wire. *)
Lemma content_length_5x_reads_a_body :
  let headers := ht_put (ht_create 0 None) H_CONTENT_LENGTH (sz "5x") in
  forallb isdigit (sz "5x") = false /\
  atoi (sz "5x") = 5 /\
  dispatch_http sample_fs sample_PATH_MAX sample_http (sz "hi") []
    headers M_POST (sz "/x")
  = (HTTP_BAD_REQUEST, [], sz "HTTP/1.1 400 " ++ CRLF ++ CRLF) /\
  dispatch_http sample_fs sample_PATH_MAX sample_http (sz "hello, world") []
    headers M_POST (sz "/x")
  = (HTTP_CREATED, sz ", world", sz "HTTP/1.1 201 " ++ CRLF ++ CRLF) /\
  ~ byte_prefix (sz "HTTP/1.1 201 Created") (sz "HTTP/1.1 201 " ++ CRLF ++ CRLF).
Proof.
  cbv zeta.
  split; [reflexivity|]. split; [reflexivity|].
  split; [vm_compute; reflexivity|]. split; [vm_compute; reflexivity|].
  intros [t H]. vm_compute in H. discriminate.
Qed.

(** C10, as the code has it.  For a POST or PUT whose [content-length]
    header is absent, or has a value that [atoi] reads as a number that is
    not strictly positive (as it does, with 0, every value that does not
    start with a number), [dispatch_http] reads nothing from the input and
    answers 201: it returns
    [HTTP_CREATED], leaves the input as it was, and writes (after the 100
    Continue line, if the request asked for one) the status line with code
    201, without a reason phrase, and the empty line. *)
Theorem post_put_without_body_is_created :
  forall (fs : Filesystem) (PATH_MAX : Z) (st : Http_S)
         (fd_in fd_out : list Z) (headers : Http_Headers)
         (method : HTTP_Method) (uri : list Z),
    method = M_POST \/ method = M_PUT ->
    (ht_get headers H_CONTENT_LENGTH = None \/
     exists v, ht_get headers H_CONTENT_LENGTH = Some v /\
               (scan_int v = None \/ atoi v <= 0)) ->
    dispatch_http fs PATH_MAX st fd_in fd_out headers method uri
    = (HTTP_CREATED, fd_in,
       fd_out
       ++ (if sz_equal_ignore_case (ht_get headers H_EXPECT)
                (Some HV_EXPECT_100_CONTINUE)
           then sz "HTTP/1.1 100 Continue" ++ CRLF ++ CRLF else [])
       ++ sz "HTTP/1.1 201 " ++ CRLF ++ CRLF).
Proof.
  intros fs PATH_MAX st fd_in fd_out headers method uri Hm Hcl.
  assert (Hlen : (match ht_get headers H_CONTENT_LENGTH with
                  | Some valT => atoi valT
                  | None => 0
                  end >? 0) = false).
  { destruct Hcl as [-> | (v & -> & [Hn | Hle])].
    - reflexivity.
    - rewrite (atoi_non_numeric v Hn). reflexivity.
    - rewrite Z.gtb_ltb. apply Z.ltb_ge. exact Hle. }
  assert (Hout : match ht_get headers H_EXPECT with
                 | Some valT =>
                     if sz_equal_ignore_case (Some valT) (Some HV_EXPECT_100_CONTINUE)
                     then fd_out ++ sz "HTTP/1.1 100 Continue" ++ CRLF ++ CRLF
                     else fd_out
                 | None => fd_out
                 end
                 = fd_out ++
                   (if sz_equal_ignore_case (ht_get headers H_EXPECT)
                         (Some HV_EXPECT_100_CONTINUE)
                    then sz "HTTP/1.1 100 Continue" ++ CRLF ++ CRLF else [])).
  { destruct (ht_get headers H_EXPECT) as [valT|].
    - destruct (sz_equal_ignore_case (Some valT) (Some HV_EXPECT_100_CONTINUE));
        [reflexivity | now rewrite app_nil_r].
    - cbn [sz_equal_ignore_case]. now rewrite app_nil_r. }
  unfold dispatch_http. cbv zeta. rewrite Hout.
  destruct Hm as [-> | ->]; rewrite Hlen; cbv iota beta;
    change (HTTP_OK =? HTTP_OK) with true; cbv iota;
    change (0 >? 0) with false; cbv iota;
    change (printf_d HTTP_CREATED) with (sz "201");
    rewrite <- !app_assoc; reflexivity.
Qed.

Lemma post_put_without_body_is_created_witness :
  let headers := ht_put (ht_create 0 None) H_CONTENT_LENGTH (sz "abc") in
  (M_POST = M_POST \/ M_POST = M_PUT) /\
  (ht_get headers H_CONTENT_LENGTH = None \/
   exists v, ht_get headers H_CONTENT_LENGTH = Some v /\
             (scan_int v = None \/ atoi v <= 0)) /\
  dispatch_http sample_fs sample_PATH_MAX sample_http (sz "hello") []
    headers M_POST (sz "/x")
  = (HTTP_CREATED, sz "hello",
     [] ++ (if sz_equal_ignore_case (ht_get headers H_EXPECT)
                 (Some HV_EXPECT_100_CONTINUE)
            then sz "HTTP/1.1 100 Continue" ++ CRLF ++ CRLF else [])
        ++ sz "HTTP/1.1 201 " ++ CRLF ++ CRLF).
Proof.
  cbv zeta.
  assert (H : ht_get (ht_put (ht_create 0 None) H_CONTENT_LENGTH (sz "abc"))
                H_CONTENT_LENGTH = None \/
              exists v, ht_get (ht_put (ht_create 0 None) H_CONTENT_LENGTH (sz "abc"))
                          H_CONTENT_LENGTH = Some v /\
                        (scan_int v = None \/ atoi v <= 0)).
  { right. exists (sz "abc"). split; [vm_compute; reflexivity|].
    left. vm_compute. reflexivity. }
  split; [left; reflexivity|]. split; [exact H|].
  apply (post_put_without_body_is_created sample_fs sample_PATH_MAX sample_http
           (sz "hello") [] (ht_put (ht_create 0 None) H_CONTENT_LENGTH (sz "abc"))
           M_POST (sz "/x")).
  - left. reflexivity.
  - exact H.
Defined.

(** the same over [http_client_connect]: the five bytes after the headers
    are still in the input, and the answer is the 201 status line *)
Example post_non_numeric_length_on_the_wire :
  http_client_connect sample_fs sample_PATH_MAX sample_http
    (crlf_lines [sz "POST /x HTTP/1.1"; sz "Content-Length: abc"; []]
     ++ sz "hello") []
  = Some (HTTP_CREATED, sz "hello", sz "HTTP/1.1 201 " ++ CRLF ++ CRLF).
Proof. vm_compute. reflexivity. Qed.

(** and with a positive length the body is read *)
Example post_with_body_on_the_wire :
  http_client_connect sample_fs sample_PATH_MAX sample_http
    (crlf_lines [sz "POST /x HTTP/1.1"; sz "Content-Length: 5";
                 sz "Expect: 100-continue"; []]
     ++ sz "hello") []
  = Some (HTTP_CREATED, [],
          sz "HTTP/1.1 100 Continue" ++ CRLF ++ CRLF
          ++ sz "HTTP/1.1 201 " ++ CRLF ++ CRLF).
Proof. vm_compute. reflexivity. Qed.

(* ================================================================== *)
(** * The path sandbox *)
(* ================================================================== *)

Lemma sz_starts_with_prefix : forall s prefix,
  sz_starts_with (Some s) (Some prefix) = true -> byte_prefix prefix s.
Proof.
  unfold sz_starts_with, sz_starts_with_case, byte_prefix.
  induction s as [|a s IH]; destruct prefix as [|b prefix];
    cbn [sz_starts_with_case_loop]; intro H.
  - exists []. reflexivity.
  - discriminate.
  - exists (a :: s). reflexivity.
  - destruct (Z.eqb_spec a b) as [->|]; [|discriminate].
    cbn [negb] in H. destruct (IH prefix H) as [t ->].
    exists t. reflexivity.
Qed.

Lemma prefix_sz_starts_with : forall prefix t,
  sz_starts_with (Some (prefix ++ t)) (Some prefix) = true.
Proof.
  unfold sz_starts_with, sz_starts_with_case.
  induction prefix as [|b prefix IH]; intro t; cbn.
  - destruct t; reflexivity.
  - rewrite Z.eqb_refl. cbn. apply IH.
Qed.

Lemma http_init_root_is_dir : forall fs PATH_MAX st0 icky_files_dir st,
  http_init fs PATH_MAX st0 icky_files_dir = (0, 0, st) ->
  io_is_dir fs (_static_files_dir st) = true.
Proof.
  intros fs PATH_MAX st0 icky st H. unfold http_init in H.
  destruct (fs_realpath fs icky) as [e|dir]; [discriminate|].
  destruct (strcmp_eq (sz "/") dir); [discriminate|].
  cbv zeta in H.
  destruct (nth _ _ 0 =? 47);
    cbn [_static_files_dir_len _static_files_dir] in H;
    (destruct (uint64_t _ =? 0); [discriminate|]);
    match type of H with
    | (if negb (io_is_dir fs ?d) then _ else _) = _ =>
        destruct (io_is_dir fs d) eqn:Hd; [|discriminate]
    end;
    injection H as <-; exact Hd.
Qed.

(** C1.  After a successful [http_init], [realpath_uri] either fails, or it
    returns a path that has the root stored by [http_init] as a byte-prefix,
    is canonical, and names something that exists.  The two hypotheses are
    what [realpath] promises: its results are canonical and exist.  The root
    itself names a directory. *)
Theorem realpath_uri_stays_under_root :
  forall (fs : Filesystem) (PATH_MAX : Z) (st0 st : Http_S)
         (icky_files_dir uri : list Z),
    (forall p q, fs_realpath fs p = inr q -> fs_realpath fs q = inr q) ->
    (forall p q, fs_realpath fs p = inr q -> fs_stat fs q <> None) ->
    http_init fs PATH_MAX st0 icky_files_dir = (0, 0, st) ->
    io_is_dir fs (_static_files_dir st) = true /\
    ((exists e, realpath_uri fs PATH_MAX st uri = inl e) \/
     (exists P, realpath_uri fs PATH_MAX st uri = inr P /\
                byte_prefix (_static_files_dir st) P /\
                fs_realpath fs P = inr P /\
                fs_stat fs P <> None)).
Proof.
  intros fs PATH_MAX st0 st icky uri Hcanon Hexists Hinit.
  split; [exact (http_init_root_is_dir _ _ _ _ _ Hinit)|].
  unfold realpath_uri.
  destruct (uint64_t _ >=? PATH_MAX); [left; eexists; reflexivity|].
  destruct (fs_realpath fs (_static_files_dir st ++ uri)) as [e|path] eqn:Hrp;
    [left; eexists; reflexivity|].
  destruct (sz_starts_with (Some path) (Some (_static_files_dir st))) eqn:Hsw;
    cbn [negb]; [|left; eexists; reflexivity].
  right. exists path. split; [reflexivity|]. split; [|split].
  - apply sz_starts_with_prefix. exact Hsw.
  - exact (Hcanon _ _ Hrp).
  - exact (Hexists _ _ Hrp).
Qed.

Lemma sample_fs_realpath_cases : forall p q,
  fs_realpath sample_fs p = inr q ->
  q = sample_index \/ q = sample_root \/ q = sample_parent \/
  q = sample_sibling_file.
Proof.
  intros p q H. cbn [fs_realpath sample_fs] in H.
  destruct (bytes_eqb p sample_index); [injection H as <-; auto|].
  destruct (bytes_eqb p sample_root || bytes_eqb p (sz "./web"));
    [injection H as <-; auto|].
  destruct (bytes_eqb p sample_parent || bytes_eqb p (sz "/srv/web/.."));
    [injection H as <-; auto|].
  destruct (bytes_eqb p sample_sibling_file
            || bytes_eqb p (sz "/srv/web/../web-private/key"));
    [injection H as <-; auto | discriminate].
Qed.

Lemma realpath_uri_stays_under_root_witness :
  (forall p q, fs_realpath sample_fs p = inr q -> fs_realpath sample_fs q = inr q) /\
  (forall p q, fs_realpath sample_fs p = inr q -> fs_stat sample_fs q <> None) /\
  http_init sample_fs sample_PATH_MAX http_start (sz "./web") = (0, 0, sample_http) /\
  io_is_dir sample_fs (_static_files_dir sample_http) = true /\
  ((exists e, realpath_uri sample_fs sample_PATH_MAX sample_http (sz "/index.html")
              = inl e) \/
   (exists P, realpath_uri sample_fs sample_PATH_MAX sample_http (sz "/index.html")
              = inr P /\
              byte_prefix (_static_files_dir sample_http) P /\
              fs_realpath sample_fs P = inr P /\
              fs_stat sample_fs P <> None)).
Proof.
  assert (H1 : forall p q, fs_realpath sample_fs p = inr q ->
                           fs_realpath sample_fs q = inr q).
  { intros p q H. destruct (sample_fs_realpath_cases p q H) as [-> | [-> | [-> | ->]]];
      vm_compute; reflexivity. }
  assert (H2 : forall p q, fs_realpath sample_fs p = inr q ->
                           fs_stat sample_fs q <> None).
  { intros p q H. destruct (sample_fs_realpath_cases p q H) as [-> | [-> | [-> | ->]]];
      vm_compute; discriminate. }
  assert (H3 : http_init sample_fs sample_PATH_MAX http_start (sz "./web")
               = (0, 0, sample_http)) by (vm_compute; reflexivity).
  split; [exact H1|]. split; [exact H2|]. split; [exact H3|].
  exact (realpath_uri_stays_under_root sample_fs sample_PATH_MAX http_start
           sample_http (sz "./web") (sz "/index.html") H1 H2 H3).
Defined.

(** on the sample file system: a file under the root is found, a path that
    does not resolve is not, and a path that resolves to the parent of the
    root is refused *)
Example realpath_uri_index :
  realpath_uri sample_fs sample_PATH_MAX sample_http (sz "/index.html")
  = inr sample_index.
Proof. vm_compute. reflexivity. Qed.

Example realpath_uri_missing :
  realpath_uri sample_fs sample_PATH_MAX sample_http (sz "/../../etc/passwd")
  = inl ENOENT.
Proof. vm_compute. reflexivity. Qed.

Example realpath_uri_parent :
  realpath_uri sample_fs sample_PATH_MAX sample_http (sz "/..") = inl EPERM.
Proof. vm_compute. reflexivity. Qed.

(** the containment test compares bytes, not path components: a file in a
    directory beside the root whose name continues the name of the root has
    the root as a byte-prefix, and is returned *)
Example realpath_uri_sibling :
  realpath_uri sample_fs sample_PATH_MAX sample_http (sz "/../web-private/key")
  = inr sample_sibling_file /\
  byte_prefix sample_root sample_sibling_file.
Proof.
  split; [vm_compute; reflexivity|].
  exists (sz "-private/key"). reflexivity.
Qed.

(* ================================================================== *)
(** * Request line and method *)
(* ================================================================== *)

Lemma sz_equal_ignore_case_loop_lower : forall a b,
  sz_equal_ignore_case_loop a b = true <-> sz_to_lower a = sz_to_lower b.
Proof.
  unfold sz_to_lower.
  induction a as [|x a IH]; destruct b as [|y b]; cbn; split; intro H;
    try discriminate; try reflexivity.
  - destruct (Z.eqb_spec (tolower x) (tolower y)) as [E|]; [|discriminate].
    cbn in H. apply IH in H. congruence.
  - injection H as Hx Hab. rewrite Hx, Z.eqb_refl. cbn. apply IH. exact Hab.
Qed.

(** [http_method] knows GET, POST, PUT and DELETE, in any case, and nothing
    else *)
Lemma http_method_unknown : forall sz_method,
  http_method sz_method = M_UNKNOWN <->
  ~ In (lowercase sz_method) [sz "get"; sz "post"; sz "put"; sz "delete"].
Proof.
  intro m. unfold http_method, lowercase. cbn [sz_equal_ignore_case In].
  assert (E : forall lit, sz_equal_ignore_case_loop lit m = true <->
                          sz_to_lower lit = sz_to_lower m)
    by (intro; apply sz_equal_ignore_case_loop_lower).
  change (sz "get") with (sz_to_lower (sz "GET")).
  change (sz "post") with (sz_to_lower (sz "POST")).
  change (sz "put") with (sz_to_lower (sz "PUT")).
  change (sz "delete") with (sz_to_lower (sz "DELETE")).
  destruct (sz_equal_ignore_case_loop (sz "GET") m) eqn:H1.
  { split; [discriminate|]. intro H. exfalso. apply H. left. now apply E. }
  destruct (sz_equal_ignore_case_loop (sz "POST") m) eqn:H2.
  { split; [discriminate|]. intro H. exfalso. apply H. right; left. now apply E. }
  destruct (sz_equal_ignore_case_loop (sz "PUT") m) eqn:H3.
  { split; [discriminate|]. intro H. exfalso. apply H. right; right; left.
    now apply E. }
  destruct (sz_equal_ignore_case_loop (sz "DELETE") m) eqn:H4.
  { split; [discriminate|]. intro H. exfalso. apply H. right; right; right; left.
    now apply E. }
  split; [|reflexivity]. intros _ [H|[H|[H|[H|[]]]]];
    apply E in H; congruence.
Qed.

(** For [BOGUS / HTTP/1.1] the handler returns 405 and sends nothing: the
    bytes written do not begin with a status line. *)
Lemma bogus_method_sends_no_status_line :
  http_client_connect sample_fs sample_PATH_MAX sample_http
    (crlf_lines [sz "BOGUS / HTTP/1.1"; []]) []
  = Some (HTTP_METHOD_NOT_ALLOWED, CRLF, []) /\
  ~ byte_prefix (sz "HTTP/1.1 405 Method Not Allowed" ++ CRLF ++ CRLF) [].
Proof.
  split; [vm_compute; reflexivity|].
  intros [t H]. discriminate H.
Qed.

(** C6, as the code has it.  For a request line of three tokens whose
    version scans as [HTTP/<int>.<int>] and whose method is none of GET,
    POST, PUT, DELETE (in any case), [http_client_connect] returns
    [HTTP_METHOD_NOT_ALLOWED], 405, to its caller.  It returns before the
    headers are read and before any output stream exists: nothing is
    written to the client. *)
Theorem unknown_method_returns_405 :
  forall (fs : Filesystem) (PATH_MAX : Z) (st : Http_S)
         (fd_client_in fd_client_out req_line fd_in : list Z)
         (sz_method s1 uri s2 version s3 : list Z),
    io_read_line_crlf fd_client_in (MAX_HTTP_REQ + 1) = (Some req_line, fd_in) ->
    strtok (c_str req_line) (sz " ") = Some (sz_method, s1) ->
    strtok s1 (sz " ") = Some (uri, s2) ->
    strtok s2 (sz " ") = Some (version, s3) ->
    sscanf_http_version version <> None ->
    ~ In (lowercase sz_method) [sz "get"; sz "post"; sz "put"; sz "delete"] ->
    http_client_connect fs PATH_MAX st fd_client_in fd_client_out
    = Some (HTTP_METHOD_NOT_ALLOWED, fd_in, fd_client_out).
Proof.
  intros fs PATH_MAX st fd_client_in fd_client_out req_line fd_in
         m s1 uri s2 version s3 Hline Hm Hu Hv Hscan Hunknown.
  unfold http_client_connect. rewrite Hline. cbv zeta.
  rewrite Hm, Hu, Hv.
  destruct (sscanf_http_version version) as [[v_maj v_min]|]; [|congruence].
  apply http_method_unknown in Hunknown. rewrite Hunknown. reflexivity.
Qed.

Lemma unknown_method_returns_405_witness :
  io_read_line_crlf (crlf_lines [sz "BOGUS / HTTP/1.1"; []]) (MAX_HTTP_REQ + 1)
    = (Some (sz "BOGUS / HTTP/1.1"), CRLF) /\
  strtok (c_str (sz "BOGUS / HTTP/1.1")) (sz " ") = Some (sz "BOGUS", sz "/ HTTP/1.1") /\
  strtok (sz "/ HTTP/1.1") (sz " ") = Some (sz "/", sz "HTTP/1.1") /\
  strtok (sz "HTTP/1.1") (sz " ") = Some (sz "HTTP/1.1", []) /\
  sscanf_http_version (sz "HTTP/1.1") <> None /\
  ~ In (lowercase (sz "BOGUS")) [sz "get"; sz "post"; sz "put"; sz "delete"] /\
  http_client_connect sample_fs sample_PATH_MAX sample_http
    (crlf_lines [sz "BOGUS / HTTP/1.1"; []]) []
  = Some (HTTP_METHOD_NOT_ALLOWED, CRLF, []).
Proof.
  assert (Hn : ~ In (lowercase (sz "BOGUS"))
                    [sz "get"; sz "post"; sz "put"; sz "delete"]).
  { intros [H|[H|[H|[H|[]]]]]; vm_compute in H; discriminate H. }
  split; [vm_compute; reflexivity|].
  split; [vm_compute; reflexivity|].
  split; [vm_compute; reflexivity|].
  split; [vm_compute; reflexivity|].
  split; [vm_compute; discriminate|].
  split; [exact Hn|].
  apply (unknown_method_returns_405 sample_fs sample_PATH_MAX sample_http
           (crlf_lines [sz "BOGUS / HTTP/1.1"; []]) []
           (sz "BOGUS / HTTP/1.1") CRLF
           (sz "BOGUS") (sz "/ HTTP/1.1") (sz "/") (sz "HTTP/1.1")
           (sz "HTTP/1.1") []).
  - vm_compute. reflexivity.
  - vm_compute. reflexivity.
  - vm_compute. reflexivity.
  - vm_compute. reflexivity.
  - vm_compute. discriminate.
  - exact Hn.
Defined.

(** a method that [http_method] knows but [dispatch_http] does not serve
    gets a status line, without a reason phrase *)
Example delete_on_the_wire :
  http_client_connect sample_fs sample_PATH_MAX sample_http
    (crlf_lines [sz "DELETE / HTTP/1.1"; []]) []
  = Some (HTTP_METHOD_NOT_ALLOWED, [], sz "HTTP/1.1 405 " ++ CRLF ++ CRLF).
Proof. vm_compute. reflexivity. Qed.

Example get_index_on_the_wire :
  http_client_connect sample_fs sample_PATH_MAX sample_http
    (crlf_lines [sz "GET / HTTP/1.1"; sz "Host: x"; []]) []
  = Some (HTTP_OK, [],
          sz "HTTP/1.1 200 OK" ++ CRLF ++ sz "Content-Length: 5" ++ CRLF
          ++ CRLF ++ sz "hello").
Proof. vm_compute. reflexivity. Qed.

(* ================================================================== *)
(** * Header tables *)
(* ================================================================== *)

Lemma tolower_idempotent : forall c, tolower (tolower c) = tolower c.
Proof.
  intro c. unfold tolower.
  destruct ((65 <=? c) && (c <=? 90)) eqn:E; [|rewrite E; reflexivity].
  apply andb_true_iff in E. destruct E as [E1 E2].
  apply Z.leb_le in E1, E2.
  destruct (Z.leb_spec (c + 32) 90); [lia|]. now rewrite andb_false_r.
Qed.

Lemma sz_to_lower_idempotent : forall s,
  sz_to_lower (sz_to_lower s) = sz_to_lower s.
Proof.
  intro s. unfold sz_to_lower. rewrite map_map.
  apply map_ext. apply tolower_idempotent.
Qed.

(** a name that both case mappings leave in lower case has no letter *)
Lemma uppercase_of_caseless : forall s,
  lowercase s = s -> lowercase (uppercase s) = uppercase s -> uppercase s = s.
Proof.
  unfold lowercase, uppercase, sz_to_lower.
  induction s as [|c s IH]; cbn; intros Hl Hu; [reflexivity|].
  injection Hl as Hc Hl. injection Hu as Hc' Hu.
  rewrite (IH Hl Hu). f_equal.
  unfold toupper, tolower in *.
  destruct (Z.leb_spec 97 c); destruct (Z.leb_spec c 122); cbn in *;
    try reflexivity.
  destruct (Z.leb_spec 65 (c - 32)); destruct (Z.leb_spec (c - 32) 90);
    cbn in *; lia.
Qed.

Lemma Forall_set_nth : forall (A : Type) (P : A -> Prop) n x l,
  Forall P l -> P x -> Forall P (set_nth n x l).
Proof.
  intros A P n x l Hl Hx. revert n.
  induction Hl as [|y l Hy Hl IH]; intro n; destruct n; cbn; auto.
Qed.

Lemma Forall_nth_default : forall (A : Type) (P : A -> Prop) n l d,
  Forall P l -> P d -> P (nth n l d).
Proof.
  intros A P n l d Hl Hd. revert n.
  induction Hl as [|y l Hy Hl IH]; intro n; destruct n; cbn; auto.
Qed.

Lemma chain_find_key : forall (V : Type) key (c : list (NVP V)) e,
  chain_find key c = Some e -> In e c /\ nvp_key e = key.
Proof.
  intros V key c e. induction c as [|x c IH]; cbn; [discriminate|].
  unfold strcmp_eq. destruct (bytes_eqb key (nvp_key x)) eqn:E.
  - intro H. injection H as <-. apply bytes_eqb_eq in E. auto.
  - intro H. destruct (IH H). auto.
Qed.

Lemma chain_update_keys : forall (V : Type) (P : NVP V -> Prop) key val c,
  (forall e v, P e -> P {| nvp_key := nvp_key e; nvp_val := v |}) ->
  Forall P c -> Forall P (chain_update key val c).
Proof.
  intros V P key val c HP Hc.
  induction Hc as [|x c Hx Hc IH]; cbn; [constructor|].
  destruct (strcmp_eq key (nvp_key x)); constructor; auto.
Qed.

Lemma ht_chain_lower : forall headers h,
  lower_keys headers ->
  Forall (fun e => sz_to_lower (nvp_key e) = nvp_key e) (ht_chain headers h).
Proof.
  intros headers h H. unfold ht_chain.
  apply Forall_nth_default; [exact H | constructor].
Qed.

Lemma ht_create_lower : forall nhash hash,
  lower_keys (ht_create nhash hash).
Proof.
  intros nhash hash. unfold lower_keys, ht_create. cbn [ht_chains].
  apply Forall_forall. intros c Hc. apply repeat_spec in Hc. subst c.
  constructor.
Qed.

(** [ht_put] of a lower-case name keeps the table in lower case *)
Lemma ht_put_lower : forall headers name val,
  lower_keys headers ->
  lower_keys (ht_put headers (sz_to_lower name) val).
Proof.
  intros headers name val H. unfold ht_put. cbv zeta.
  set (h := uint32_t _).
  pose proof (ht_chain_lower headers h H) as Hc.
  destruct (chain_find (sz_to_lower name) (ht_chain headers h));
    unfold lower_keys; cbn [ht_chains]; apply Forall_set_nth; try exact H.
  - apply chain_update_keys; [intros e v He; exact He | exact Hc].
  - constructor; [apply sz_to_lower_idempotent | exact Hc].
Qed.

(** what [ht_get] finds was stored under exactly the name asked for *)
Lemma ht_get_lower : forall headers name v,
  lower_keys headers -> ht_get headers name = Some v ->
  sz_to_lower name = name.
Proof.
  intros headers name v H Hget. unfold ht_get in Hget. cbv zeta in Hget.
  set (h := uint32_t _) in Hget.
  destruct (chain_find name (ht_chain headers h)) as [e|] eqn:E; [|discriminate].
  apply chain_find_key in E. destruct E as [Hin Hk].
  pose proof (ht_chain_lower headers h H) as Hc.
  rewrite Forall_forall in Hc. specialize (Hc e Hin).
  rewrite Hk in Hc. exact Hc.
Qed.

Lemma parse_headers_loop_lower : forall fuel fd headers headers' fd',
  lower_keys headers ->
  parse_headers_loop fuel fd headers = Some (Some headers', fd') ->
  lower_keys headers'.
Proof.
  induction fuel as [|fuel IH]; intros fd headers headers' fd' Hl H;
    [discriminate|].
  cbn [parse_headers_loop] in H.
  destruct (io_read_line_crlf fd MAX_HTTP_HEADER) as [[h_buff|] fd1];
    [|discriminate].
  destruct (Z.of_nat (List.length h_buff) >? 0).
  - cbv zeta in H.
    destruct (strtok (c_str h_buff) (sz ":")) as [[name saved]|];
      [|exact (IH _ _ _ _ Hl H)].
    destruct (strtok saved [10; 13]) as [[val saved']|];
      [|exact (IH _ _ _ _ Hl H)].
    apply (IH _ _ _ _ (ht_put_lower headers name (sz_trim val) Hl) H).
  - injection H as <- _. exact Hl.
Qed.

(** the names in a table built by [parse_headers] are in lower case *)
Lemma parse_headers_lower : forall fd headers fd',
  parse_headers fd = Some (Some headers, fd') -> lower_keys headers.
Proof.
  intros fd headers fd' H.
  exact (parse_headers_loop_lower _ _ _ _ _ (ht_create_lower 0 None) H).
Qed.

(** After [Content-Length: 5] is parsed, the value is found under
    [content-length] and not under [CONTENT-LENGTH]. *)
Lemma header_lookup_is_case_sensitive :
  exists headers rest,
    parse_headers (crlf_lines [sz "Content-Length: 5"; []])
      = Some (Some headers, rest) /\
    ht_get headers (sz "content-length") = Some (sz "5") /\
    ht_get headers (lowercase (sz "content-length")) = Some (sz "5") /\
    uppercase (sz "content-length") = sz "CONTENT-LENGTH" /\
    ht_get headers (uppercase (sz "content-length")) = None.
Proof.
  exists sample_headers, []. split; [reflexivity|].
  repeat split; vm_compute; reflexivity.
Qed.

(** C5, as the code has it.  A header table built by [parse_headers] holds
    its names in lower case and [ht_get] compares bytes exactly.  So a name
    H that is found is its own lower-case form, the lookup of
    [lowercase(H)] returns the same value, and the lookup of
    [uppercase(H)] returns nothing unless upper-casing leaves H as it is. *)
Theorem header_lookup_is_exact_on_lower_case_names :
  forall (fd fd' : list Z) (headers : Http_Headers) (H v : list Z),
    parse_headers fd = Some (Some headers, fd') ->
    ht_get headers H = Some v ->
    lowercase H = H /\
    ht_get headers (lowercase H) = Some v /\
    (uppercase H <> H -> ht_get headers (uppercase H) = None).
Proof.
  intros fd fd' headers H v Hparse Hget.
  pose proof (parse_headers_lower _ _ _ Hparse) as Hl.
  pose proof (ht_get_lower _ _ _ Hl Hget) as Hlow.
  unfold lowercase. rewrite Hlow.
  split; [reflexivity|]. split; [exact Hget|].
  intro Hneq.
  destruct (ht_get headers (uppercase H)) as [v'|] eqn:Hup; [|reflexivity].
  exfalso. apply Hneq.
  apply uppercase_of_caseless; [exact Hlow|].
  exact (ht_get_lower _ _ _ Hl Hup).
Qed.

Lemma header_lookup_is_exact_on_lower_case_names_witness :
  parse_headers (crlf_lines [sz "Content-Length: 5"; []])
    = Some (Some sample_headers, []) /\
  ht_get sample_headers (sz "content-length") = Some (sz "5") /\
  lowercase (sz "content-length") = sz "content-length" /\
  ht_get sample_headers (lowercase (sz "content-length")) = Some (sz "5") /\
  (uppercase (sz "content-length") <> sz "content-length" ->
   ht_get sample_headers (uppercase (sz "content-length")) = None).
Proof.
  split; [reflexivity|].
  split; [vm_compute; reflexivity|].
  apply (header_lookup_is_exact_on_lower_case_names
           (crlf_lines [sz "Content-Length: 5"; []]) [] sample_headers
           (sz "content-length") (sz "5")).
  - reflexivity.
  - vm_compute. reflexivity.
Defined.

(* ================================================================== *)
(** * The loops return *)
(* ================================================================== *)











(** with a block size above 0, [io_copy_stream] copies all of [fd_in] *)
Lemma io_copy_stream_loop_all : forall fuel fd_out fd_in buff_size total,
  0 < buff_size ->
  (List.length fd_in < fuel)%nat ->
  io_copy_stream_loop fuel fd_out fd_in buff_size total
  = (uint64_t (total + Z.of_nat (List.length fd_in)), fd_out ++ fd_in, []).
Proof.
  induction fuel as [|fuel IH]; intros fd_out fd_in bs total Hbs Hfuel; [lia|].
  cbn [io_copy_stream_loop]. unfold read.
  destruct fd_in as [|c fd_in].
  - rewrite firstn_nil, skipn_nil. cbn. rewrite app_nil_r, Z.add_0_r. reflexivity.
  - assert (Hn : (0 < Z.to_nat bs)%nat) by lia.
    destruct (Z.to_nat bs) as [|n]; [lia|].
    cbn [firstn skipn List.length].
    destruct (Z.ltb_spec 0 (Z.of_nat (S (List.length (firstn n fd_in))))); [|lia].
    rewrite IH; [|lia|cbn in Hfuel; rewrite length_skipn; lia].
    rewrite <- app_assoc. cbn [app]. rewrite firstn_skipn.
    f_equal. f_equal. f_equal.
    rewrite length_firstn, length_skipn. cbn [List.length]. lia.
Qed.


(** the body loop of [dispatch_http]: a body that is all there is read in
    one pass, a body cut short ends in 400 *)
Lemma read_body_loop_result : forall fd_in req_content_len,
  0 < req_content_len < 2 ^ 31 ->
  read_body_loop (S (List.length fd_in)) fd_in req_content_len 0 HTTP_OK
  = if req_content_len <=? Z.of_nat (List.length fd_in)
    then (HTTP_OK, req_content_len, skipn (Z.to_nat req_content_len) fd_in)
    else (HTTP_BAD_REQUEST, Z.of_nat (List.length fd_in), []).
Proof.
  intros fd_in len Hlen.
  assert (Hint : forall x, 0 <= x < 2 ^ 31 -> int32_t x = x).
  { intros x Hx. unfold int32_t. rewrite Z.mod_small; lia. }
  destruct fd_in as [|c fd_in].
  - cbn [List.length read_body_loop]. unfold read.
    destruct (Z.ltb_spec 0 len); [|lia].
    rewrite firstn_nil, skipn_nil. cbn [List.length Z.of_nat Z.eqb].
    destruct (Z.leb_spec len 0); [lia | reflexivity].
  - remember (c :: fd_in) as l eqn:El.
    assert (Hl : (0 < List.length l)%nat) by (subst l; cbn; lia).
    cbn [read_body_loop]. unfold read.
    destruct (Z.ltb_spec 0 len); [|lia].
    rewrite Z.sub_0_r, Z.add_0_l, length_firstn.
    destruct (Z.eqb_spec (Z.of_nat (Nat.min (Z.to_nat len) (List.length l))) 0);
      [lia|].
    destruct (Z.leb_spec len (Z.of_nat (List.length l))) as [Hle|Hgt].
    + rewrite Nat.min_l by lia. rewrite Z2Nat.id by lia.
      rewrite Hint by lia.
      destruct (List.length l) as [|m] eqn:En; [lia|].
      cbn [read_body_loop].
      rewrite Z.ltb_irrefl. reflexivity.
    + rewrite Nat.min_r by lia. rewrite Hint by lia.
      rewrite skipn_all2 by lia.
      destruct (List.length l) as [|m] eqn:En; [lia|].
      cbn [read_body_loop]. rewrite <- En.
      destruct (Z.ltb_spec (Z.of_nat (List.length l)) len); [|lia].
      unfold read. rewrite firstn_nil, skipn_nil. reflexivity.
Qed.

(* ================================================================== *)
(** * The hash table as a map *)
(* ================================================================== *)

Lemma set_nth_length {A} (n : nat) (x : A) (l : list A) :
  List.length (set_nth n x l) = List.length l.
Proof.
  revert n; induction l as [|y l IH]; intros [|n]; simpl; auto.
Qed.

Lemma nth_set_nth_same {A} (n : nat) (x d : A) (l : list A) :
  (n < List.length l)%nat -> nth n (set_nth n x l) d = x.
Proof.
  revert n; induction l as [|y l IH]; intros [|n] H; simpl in *; try lia; auto.
  apply IH; lia.
Qed.

Lemma nth_set_nth_other {A} (n m : nat) (x d : A) (l : list A) :
  n <> m -> nth m (set_nth n x l) d = nth m l d.
Proof.
  revert n m; induction l as [|y l IH]; intros [|n] [|m] H; simpl; auto.
  congruence.
Qed.

Lemma ht_index_range {V} (ht : Hashtable_S V) (key : list Z) :
  ht_wf ht ->
  (Z.to_nat (uint32_t (ht_hash ht key mod ht_nhash ht))
   < List.length (ht_chains ht))%nat.
Proof.
  intros [Hn Hl]. rewrite Hl.
  assert (H := Z.mod_pos_bound (ht_hash ht key) (ht_nhash ht) ltac:(lia)).
  unfold uint32_t. rewrite Z.mod_small by lia. lia.
Qed.

Lemma ht_create_wf {V} (nhash : Z) (hash : option (list Z -> Z)) :
  0 <= nhash < 2 ^ 32 -> ht_wf (@ht_create V nhash hash).
Proof.
  intros H. unfold ht_wf, ht_create; simpl.
  rewrite repeat_length.
  destruct (Z.eqb_spec nhash 0); split; auto; lia.
Qed.

Lemma ht_put_wf {V} (ht : Hashtable_S V) (key : list Z) (val : V) :
  ht_wf ht -> ht_wf (ht_put ht key val).
Proof.
  intros [Hn Hl]. unfold ht_wf, ht_put.
  destruct (chain_find key _); simpl; rewrite set_nth_length; auto.
Qed.

Lemma ht_put_all_wf {V} (kvs : list (list Z * V)) (ht : Hashtable_S V) :
  ht_wf ht -> ht_wf (ht_put_all ht kvs).
Proof.
  revert ht; induction kvs as [|[k v] kvs IH]; intros ht H; simpl; auto.
  apply IH, ht_put_wf, H.
Qed.

Lemma ht_put_nhash {V} (ht : Hashtable_S V) key val :
  ht_nhash (ht_put ht key val) = ht_nhash ht.
Proof. unfold ht_put. destruct (chain_find key _); reflexivity. Qed.

Lemma ht_put_hash {V} (ht : Hashtable_S V) key val :
  ht_hash (ht_put ht key val) = ht_hash ht.
Proof. unfold ht_put. destruct (chain_find key _); reflexivity. Qed.

Lemma chain_find_update_same {V} (key : list Z) (val : V) (c : list (NVP V)) :
  chain_find key c <> None ->
  exists e, chain_find key (chain_update key val c) = Some e /\ nvp_val e = val.
Proof.
  induction c as [|e c IH]; simpl; intros H; [congruence|].
  destruct (strcmp_eq key (nvp_key e)) eqn:E; simpl.
  - rewrite E. eexists; split; reflexivity.
  - rewrite E. auto.
Qed.

Lemma chain_find_update_other {V} (key k' : list Z) (val : V) (c : list (NVP V)) :
  bytes_eqb key k' = false ->
  chain_find k' (chain_update key val c) = chain_find k' c.
Proof.
  intros Hne. induction c as [|e c IH]; simpl; auto.
  destruct (strcmp_eq key (nvp_key e)) eqn:E; simpl.
  - unfold strcmp_eq in *. apply bytes_eqb_eq in E. subst key.
    destruct (bytes_eqb k' (nvp_key e)) eqn:E'; auto.
    apply bytes_eqb_eq in E'. subst k'. rewrite bytes_eqb_refl in Hne. discriminate.
  - rewrite IH. reflexivity.
Qed.

(** [ht_get] after one [ht_put]: the value put under the same key, the
    former answer under every other key *)
Lemma ht_get_ht_put {V} (ht : Hashtable_S V) (key k' : list Z) (val : V) :
  ht_wf ht ->
  ht_get (ht_put ht key val) k' =
  if bytes_eqb key k' then Some val else ht_get ht k'.
Proof.
  intros Hwf.
  assert (Hk := ht_index_range ht key Hwf).
  assert (Hk' := ht_index_range ht k' Hwf).
  unfold ht_get. rewrite ht_put_nhash, ht_put_hash.
  set (h := uint32_t (ht_hash ht key mod ht_nhash ht)) in *.
  set (h' := uint32_t (ht_hash ht k' mod ht_nhash ht)) in *.
  destruct (bytes_eqb key k') eqn:E.
  - apply bytes_eqb_eq in E. subst k'. fold h in h'. subst h'.
    unfold ht_put. fold h. unfold ht_chain.
    destruct (chain_find key (nth (Z.to_nat h) (ht_chains ht) [])) eqn:F; simpl;
      rewrite nth_set_nth_same by assumption.
    + destruct (chain_find_update_same key val (nth (Z.to_nat h) (ht_chains ht) []))
        as (e & He & Hv); [congruence|].
      rewrite He, Hv. reflexivity.
    + simpl. unfold strcmp_eq. rewrite bytes_eqb_refl. reflexivity.
  - unfold ht_put. fold h. unfold ht_chain.
    destruct (Nat.eq_dec (Z.to_nat h) (Z.to_nat h')) as [Heq|Hne].
    + destruct (chain_find key (nth (Z.to_nat h) (ht_chains ht) [])) eqn:F; simpl;
        rewrite <- Heq, nth_set_nth_same by assumption.
      * rewrite chain_find_update_other by assumption. reflexivity.
      * simpl. unfold strcmp_eq.
        replace (bytes_eqb k' key) with false; [reflexivity|].
        destruct (bytes_eqb k' key) eqn:E'; auto.
        apply bytes_eqb_eq in E'. subst. rewrite bytes_eqb_refl in E. discriminate.
    + destruct (chain_find key (nth (Z.to_nat h) (ht_chains ht) [])) eqn:F; simpl;
        rewrite nth_set_nth_other by assumption; reflexivity.
Qed.

Lemma ht_contains_ht_get {V} (ht : Hashtable_S V) (key : list Z) :
  ht_contains ht key = match ht_get ht key with Some _ => true | None => false end.
Proof. unfold ht_contains, ht_get. destruct (chain_find key _); reflexivity. Qed.

Lemma ht_get_ht_create {V} (nhash : Z) hash (key : list Z) :
  @ht_get V (ht_create nhash hash) key = None.
Proof.
  unfold ht_get, ht_chain, ht_create; simpl.
  set (n := Z.to_nat _). set (m := Z.to_nat _).
  assert (H : forall (a b : nat), nth a (repeat (@nil (NVP V)) b) [] = []).
  { intros a b; revert a; induction b; intros [|a]; simpl; auto. }
  rewrite H. reflexivity.
Qed.

Lemma ht_put_all_snoc {V} (ht : Hashtable_S V) kvs k v :
  ht_put_all ht (kvs ++ [(k, v)]) = ht_put (ht_put_all ht kvs) k v.
Proof. unfold ht_put_all. rewrite fold_left_app. reflexivity. Qed.

Lemma alist_find_app {V} (k : list Z) (a b : list (list Z * V)) :
  alist_find k (a ++ b) =
  match alist_find k a with Some v => Some v | None => alist_find k b end.
Proof.
  induction a as [|[k' v] a IH]; simpl; auto.
  destruct (bytes_eqb k k'); auto.
Qed.

Lemma bytes_eqb_sym (a b : list Z) : bytes_eqb a b = bytes_eqb b a.
Proof.
  revert b; induction a as [|x a IH]; intros [|y b]; simpl; auto.
  rewrite Z.eqb_sym, IH. reflexivity.
Qed.

Lemma ht_get_ht_put_all {V} (ht : Hashtable_S V) (kvs : list (list Z * V))
    (key : list Z) :
  ht_wf ht ->
  ht_get (ht_put_all ht kvs) key =
  match alist_find key (rev kvs) with
  | Some v => Some v
  | None => ht_get ht key
  end.
Proof.
  intros Hwf. induction kvs as [|[k v] kvs IH] using rev_ind.
  - reflexivity.
  - rewrite ht_put_all_snoc, rev_app_distr. simpl.
    rewrite ht_get_ht_put by (apply ht_put_all_wf, Hwf).
    rewrite bytes_eqb_sym. destruct (bytes_eqb key k); auto.
Qed.

Lemma ht_size_ht_put {V} (ht : Hashtable_S V) key val :
  ht_size (ht_put ht key val) =
  if ht_contains ht key then ht_size ht else uint64_t (ht_size ht + 1).
Proof.
  unfold ht_size, ht_put, ht_contains. destruct (chain_find key _); reflexivity.
Qed.

Lemma existsb_distinct_keys {V} (k : list Z) (kvs : list (list Z * V)) :
  existsb (bytes_eqb k) (distinct_keys kvs) =
  match alist_find k kvs with Some _ => true | None => false end.
Proof.
  induction kvs as [|[k' v] kvs IH]; simpl; auto.
  destruct (existsb (bytes_eqb k') (distinct_keys kvs)) eqn:E.
  - rewrite IH. destruct (bytes_eqb k k') eqn:E'; auto.
    apply bytes_eqb_eq in E'. subst k'. rewrite IH in E. exact E.
  - simpl. rewrite IH. destruct (bytes_eqb k k'); auto.
Qed.

(** [alloc_size] is the size of the table up to 268435450 chains: from
    268435451 on, 40 + 8 * nhash is past the range of [int] *)
Lemma ht_create_fits_bound (nhash : Z) :
  ht_create_fits nhash <-> 0 <= nhash <= 268435450.
Proof.
  unfold ht_create_fits, ht_alloc_size, int32_t, uint64_t,
    sizeof_Hashtable_S, sizeof_NVP_ptr.
  destruct (Z.eqb_spec nhash 0) as [->|Hne].
  - split; [lia|]. intros _. split; [lia|]. reflexivity.
  - split.
    + intros [Hr H].
      rewrite (Z.mod_small (nhash * 8)) in H by lia.
      rewrite (Z.mod_small (40 + nhash * 8)) in H by lia.
      assert (Hm := Z.mod_pos_bound (40 + nhash * 8 + 2 ^ 31) (2 ^ 32) ltac:(lia)).
      lia.
    + intros Hr. split; [lia|].
      rewrite (Z.mod_small (nhash * 8)) by lia.
      rewrite (Z.mod_small (40 + nhash * 8)) by lia.
      rewrite Z.mod_small by lia. lia.
Qed.

Lemma ht_create_fits_wf {V} (nhash : Z) (hash : option (list Z -> Z)) :
  ht_create_fits nhash -> ht_wf (@ht_create V nhash hash).
Proof. intros [Hr _]. apply ht_create_wf, Hr. Qed.

(** X1 (ht.c, [ht_create], [ht_put], [ht_get]): a new table filled by any
    sequence of puts answers as the list of the pairs does, read from the
    last put back: the value of the last put of the key, NULL for a key
    never put.  This holds for every hash function and for every number of
    chains for which [alloc_size] in [ht_create] is the size of the table,
    which are the numbers up to 268435450. *)
Theorem ht_get_after_puts {V} (nhash : Z) (hash : option (list Z -> Z))
    (kvs : list (list Z * V)) (key : list Z) :
  ht_create_fits nhash ->
  ht_get (ht_put_all (ht_create nhash hash) kvs) key = alist_find key (rev kvs).
Proof.
  intros Hn. rewrite ht_get_ht_put_all by (apply ht_create_fits_wf, Hn).
  rewrite ht_get_ht_create. destruct (alist_find key (rev kvs)); reflexivity.
Qed.

Lemma ht_get_after_puts_witness :
  ht_create_fits 7 /\
  ht_get (ht_put_all (ht_create 7 None)
            [(sz "a", 1); (sz "h", 2); (sz "a", 3)]) (sz "a")
  = alist_find (sz "a") (rev [(sz "a", 1); (sz "h", 2); (sz "a", 3)]).
Proof.
  assert (H : ht_create_fits 7) by (split; [lia | reflexivity]).
  split; [exact H|].
  apply (ht_get_after_puts 7 None [(sz "a", 1); (sz "h", 2); (sz "a", 3)] (sz "a") H).
Defined.

(** X2 (ht.c, [ht_put], [ht_size]): the size of a new table filled by any
    sequence of puts is the number of distinct keys put, as a [size_t]:
    a put of a key that is there replaces and does not count.  As for X1,
    the table is one that [ht_create] can be asked for. *)
Theorem ht_size_after_puts {V} (nhash : Z) (hash : option (list Z -> Z))
    (kvs : list (list Z * V)) :
  ht_create_fits nhash ->
  ht_size (ht_put_all (ht_create nhash hash) kvs) =
  uint64_t (Z.of_nat (List.length (distinct_keys (rev kvs)))).
Proof.
  intros Hn. induction kvs as [|[k v] kvs IH] using rev_ind.
  - reflexivity.
  - rewrite ht_put_all_snoc, rev_app_distr. simpl.
    rewrite ht_size_ht_put, ht_contains_ht_get.
    rewrite ht_get_ht_put_all by (apply ht_create_fits_wf, Hn).
    rewrite ht_get_ht_create, existsb_distinct_keys, IH.
    destruct (alist_find k (rev kvs)); auto.
    simpl List.length. rewrite Nat2Z.inj_succ. unfold uint64_t.
    rewrite Zplus_mod_idemp_l. f_equal; lia.
Qed.

Lemma ht_size_after_puts_witness :
  ht_create_fits 7 /\
  ht_size (ht_put_all (ht_create 7 None)
             [(sz "a", 1); (sz "h", 2); (sz "a", 3)])
  = uint64_t (Z.of_nat (List.length
       (distinct_keys (rev [(sz "a", 1); (sz "h", 2); (sz "a", 3)])))).
Proof.
  assert (H : ht_create_fits 7) by (split; [lia | reflexivity]).
  split; [exact H|].
  apply (ht_size_after_puts 7 None [(sz "a", 1); (sz "h", 2); (sz "a", 3)] H).
Defined.

Lemma ht_clear_loop_length {V} (n i : nat) (chains : list (list (NVP V))) :
  List.length (ht_clear_loop n i chains) = List.length chains.
Proof.
  revert i chains; induction n; intros; simpl; auto.
  rewrite IHn, set_nth_length. reflexivity.
Qed.

Lemma ht_clear_loop_nth {V} (n i j : nat) (chains : list (list (NVP V))) :
  nth j (ht_clear_loop n i chains) [] =
  if ((i <=? j) && (j <? i + n))%nat then [] else nth j chains [].
Proof.
  revert i chains; induction n; intros i chains; simpl.
  - replace ((i <=? j) && (j <? i + 0))%nat with false; auto.
    symmetry. apply andb_false_iff.
    destruct (Nat.leb_spec i j); auto. right. apply Nat.ltb_ge. lia.
  - rewrite IHn.
    destruct (Nat.eq_dec i j) as [->|Hne].
    + replace ((S j <=? j) && (j <? S j + n))%nat with false
        by (symmetry; apply andb_false_iff; left; apply Nat.leb_gt; lia).
      replace ((j <=? j) && (j <? j + S n))%nat with true
        by (symmetry; apply andb_true_iff; split;
            [apply Nat.leb_le|apply Nat.ltb_lt]; lia).
      destruct (Nat.lt_ge_cases j (List.length chains)).
      * rewrite nth_set_nth_same; auto.
      * rewrite nth_overflow; auto. rewrite set_nth_length. lia.
    + rewrite nth_set_nth_other by assumption.
      replace ((S i <=? j) && (j <? S i + n))%nat
        with ((i <=? j) && (j <? i + S n))%nat; [reflexivity|].
      destruct (Nat.leb_spec (S i) j), (Nat.ltb_spec j (S i + n)),
        (Nat.leb_spec i j), (Nat.ltb_spec j (i + S n)); simpl; try lia; auto.
Qed.

(** X3 (ht.c, [ht_clear]): a cleared table is empty, whatever it held: its
    size is 0, no key is contained, every lookup returns NULL, and it is
    in shape for further puts. *)
Theorem ht_clear_empties {V} (ht : Hashtable_S V) (key : list Z) :
  ht_wf ht ->
  ht_size (ht_clear ht) = 0 /\
  ht_contains (ht_clear ht) key = false /\
  ht_get (ht_clear ht) key = None /\
  ht_wf (ht_clear ht).
Proof.
  intros Hwf.
  assert (G : ht_get (ht_clear ht) key = None).
  { unfold ht_get, ht_chain, ht_clear; simpl.
    rewrite ht_clear_loop_nth.
    assert (H := ht_index_range ht key Hwf). destruct Hwf as [Hn Hl].
    rewrite Hl in H. simpl.
    destruct (Nat.ltb_spec (Z.to_nat (uint32_t (ht_hash ht key mod ht_nhash ht)))
                (Z.to_nat (ht_nhash ht))); [reflexivity|lia]. }
  split; [reflexivity|]. split; [|split]; auto.
  - rewrite ht_contains_ht_get, G. reflexivity.
  - destruct Hwf as [Hn Hl]. split; simpl; auto.
    rewrite ht_clear_loop_length. exact Hl.
Qed.

Lemma ht_clear_empties_witness :
  ht_wf (ht_put (ht_create 7 None) (sz "key1") (sz "value1")) /\
  ht_get (ht_clear (ht_put (ht_create 7 None) (sz "key1") (sz "value1")))
    (sz "key1") = None.
Proof.
  assert (W : ht_wf (ht_put (ht_create 7 None) (sz "key1") (sz "value1"))).
  { split; [vm_compute; split; reflexivity | reflexivity]. }
  split; [exact W|].
  apply (ht_clear_empties
           (ht_put (ht_create 7 None) (sz "key1") (sz "value1")) (sz "key1") W).
Defined.

(* ================================================================== *)
(** * Strings: comparison, search and trimming *)
(* ================================================================== *)

Lemma sz_equal_loop_eq (a b : list Z) : sz_equal_loop a b = true <-> a = b.
Proof.
  revert b; induction a as [|x a IH]; intros [|y b]; simpl; split; intro H;
    try discriminate; try reflexivity.
  - destruct (Z.eqb_spec x y) as [->|]; [|discriminate].
    simpl in H. apply IH in H. congruence.
  - injection H as -> ->. rewrite Z.eqb_refl. simpl. apply IH. reflexivity.
Qed.

(** X4 (sz.c, [sz_equal], [sz_equal_ignore_case]): [sz_equal] holds of equal
    strings and of two NULLs, and of nothing else; [sz_equal_ignore_case]
    holds when the strings agree after [sz_to_lower], NULL agreeing only
    with NULL. *)
Theorem sz_equal_is_equality (sz1 sz2 : option (list Z)) :
  (sz_equal sz1 sz2 = true <-> sz1 = sz2) /\
  (sz_equal_ignore_case sz1 sz2 = true <->
   option_map sz_to_lower sz1 = option_map sz_to_lower sz2).
Proof.
  destruct sz1 as [a|], sz2 as [b|]; simpl; split; split; intro H;
    try discriminate; try reflexivity.
  - apply sz_equal_loop_eq in H. congruence.
  - apply sz_equal_loop_eq. congruence.
  - apply sz_equal_ignore_case_loop_lower in H. congruence.
  - apply sz_equal_ignore_case_loop_lower. congruence.
Qed.

Lemma fold_case_cons ic a s :
  fold_case ic (a :: s) = (if ic then tolower a else a) :: fold_case ic s.
Proof. destruct ic; reflexivity. Qed.

Lemma fold_case_nil ic s : fold_case ic s = [] -> s = [].
Proof. destruct ic, s; simpl; congruence. Qed.

Lemma sz_starts_with_case_loop_spec (ic : bool) (s prefix : list Z) :
  sz_starts_with_case_loop s prefix ic = true <->
  byte_prefix (fold_case ic prefix) (fold_case ic s).
Proof.
  unfold byte_prefix.
  revert prefix; induction s as [|a s IH]; intros [|b prefix];
    cbn [sz_starts_with_case_loop]; rewrite ?fold_case_cons.
  - split; auto. intros _. exists []. destruct ic; reflexivity.
  - split; [discriminate|]. intros [t H]. destruct ic; discriminate.
  - split; auto. intros _. exists (fold_case ic (a :: s)).
    destruct ic; reflexivity.
  - destruct (Z.eqb_spec (if ic then tolower a else a) (if ic then tolower b else b))
      as [E|E]; cbn [negb].
    + rewrite IH. split; intros [t H]; exists t.
      * simpl. rewrite E, H. reflexivity.
      * simpl in H. congruence.
    + split; [discriminate|]. intros [t H]. simpl in H. congruence.
Qed.

(** X5 (sz.c, [sz_starts_with_case], [sz_starts_with]): the answer is true
    exactly when the prefix, in lower case if the case is to be ignored, is
    a byte-prefix of the string; a NULL on either side gives false. *)
Theorem sz_starts_with_case_spec (s prefix : option (list Z)) (ignore_case : bool) :
  sz_starts_with_case s prefix ignore_case = true <->
  exists s' prefix', s = Some s' /\ prefix = Some prefix' /\
    byte_prefix (fold_case ignore_case prefix') (fold_case ignore_case s').
Proof.
  destruct s as [s'|], prefix as [p'|]; simpl.
  - rewrite sz_starts_with_case_loop_spec. split.
    + intros H. exists s', p'. auto.
    + intros (a & b & Ha & Hb & H). congruence.
  - split; [discriminate|]. intros (a & b & Ha & Hb & H). discriminate.
  - split; [discriminate|]. intros (a & b & Ha & Hb & H). discriminate.
  - split; [discriminate|]. intros (a & b & Ha & Hb & H). discriminate.
Qed.

Lemma sz_contains_case_loop_spec (ic : bool) (substr s : list Z) :
  sz_contains_case_loop s substr ic = true <->
  s <> [] /\
  exists l r, fold_case ic s = l ++ fold_case ic substr ++ r.
Proof.
  split.
  - induction s as [|a s IH]; cbn [sz_contains_case_loop]; [discriminate|].
    intros H. split; [discriminate|].
    destruct (sz_starts_with_case (Some (a :: s)) (Some substr) ic) eqn:E.
    + apply sz_starts_with_case_loop_spec in E. destruct E as [t E].
      exists [], t. exact E.
    + destruct (IH H) as (_ & l & r & Hs).
      exists ((if ic then tolower a else a) :: l), r.
      rewrite fold_case_cons, Hs. reflexivity.
  - intros (Hs & l & r & H). revert s Hs H.
    induction l as [|x l IH]; intros [|a s] Hs H; try congruence;
      cbn [sz_contains_case_loop].
    + replace (sz_starts_with_case (Some (a :: s)) (Some substr) ic) with true;
        [reflexivity|].
      symmetry. apply sz_starts_with_case_loop_spec. exists r. exact H.
    + destruct (sz_starts_with_case (Some (a :: s)) (Some substr) ic) eqn:E;
        [reflexivity|].
      rewrite fold_case_cons in H. simpl in H. injection H as _ H.
      destruct s as [|b s].
      * exfalso. destruct l; [|destruct ic; discriminate].
        simpl in H.
        assert (Hsub : substr = []).
        { apply (fold_case_nil ic). destruct (fold_case ic substr); auto.
          destruct ic; discriminate. }
        subst substr. simpl in E. discriminate.
      * apply IH; [discriminate|exact H].
Qed.

(** X6 (sz.c, [sz_contains_case], [sz_contains]): the answer is true exactly
    when the string is not empty and the substring, in lower case if the
    case is to be ignored, occurs in it; so the empty string contains
    nothing, not even the empty string. *)
Theorem sz_contains_case_spec (s substr : option (list Z)) (ignore_case : bool) :
  sz_contains_case s substr ignore_case = true <->
  exists s' substr', s = Some s' /\ substr = Some substr' /\ s' <> [] /\
    exists l r, fold_case ignore_case s' = l ++ fold_case ignore_case substr' ++ r.
Proof.
  destruct s as [s'|], substr as [p'|]; simpl.
  - rewrite sz_contains_case_loop_spec. split.
    + intros [H1 H2]. exists s', p'. auto.
    + intros (a & b & Ha & Hb & H). injection Ha as <-. injection Hb as <-. exact H.
  - split; [discriminate|]. intros (a & b & Ha & Hb & H). discriminate.
  - split; [discriminate|]. intros (a & b & Ha & Hb & H). discriminate.
  - split; [discriminate|]. intros (a & b & Ha & Hb & H). discriminate.
Qed.

Lemma skip_delims_split (delims s : list Z) :
  exists l, s = l ++ skip_delims delims s /\
    forallb (strchr delims) l = true /\
    match skip_delims delims s with
    | [] => True
    | c :: _ => strchr delims c = false
    end.
Proof.
  induction s as [|c s (l & Hs & Hl & Hc)]; simpl.
  - exists []. auto.
  - destruct (strchr delims c) eqn:E.
    + exists (c :: l). simpl. rewrite E, Hl. split; [congruence|auto].
    + exists []. simpl. auto.
Qed.

Lemma forallb_rev {A} (p : A -> bool) (l : list A) :
  forallb p (rev l) = forallb p l.
Proof.
  induction l; simpl; auto.
  rewrite forallb_app, IHl. simpl. rewrite andb_true_r, andb_comm. reflexivity.
Qed.

(** X7 (sz.c, [sz_trim]): trimming removes white space (SP, HT, LF, CR) from
    the two ends and nothing else: the string is the trimmed one between two
    runs of white space, and the trimmed one neither starts nor ends with
    white space. *)
Theorem sz_trim_spec (s : list Z) :
  exists l r,
    s = l ++ sz_trim s ++ r /\
    forallb is_SP_HT l = true /\ forallb is_SP_HT r = true /\
    match sz_trim s with [] => True | c :: _ => is_SP_HT c = false end /\
    match rev (sz_trim s) with [] => True | c :: _ => is_SP_HT c = false end.
Proof.
  unfold sz_trim, is_SP_HT.
  destruct (skip_delims_split SP_HT s) as (l & Hs & Hl & Hc).
  set (s1 := skip_delims SP_HT s) in *.
  destruct (skip_delims_split SP_HT (rev s1)) as (r & Hs1 & Hr & Hc1).
  set (t := skip_delims SP_HT (rev s1)) in *.
  assert (E : s1 = rev t ++ rev r).
  { rewrite <- rev_app_distr, <- Hs1, rev_involutive. reflexivity. }
  exists l, (rev r). rewrite <- E, rev_involutive, forallb_rev.
  repeat split; auto.
  destruct (rev t) as [|c u] eqn:Et; auto.
  rewrite E in Hc. simpl in Hc. exact Hc.
Qed.

(* ================================================================== *)
(** * Lines and encodings of io.c *)
(* ================================================================== *)

Lemma last_cons_default {A} (x : A) (l : list A) (d d' : A) :
  last (x :: l) d = last (x :: l) d'.
Proof.
  revert x; induction l as [|y l IH]; intros x; [reflexivity|].
  change (last (y :: l) d = last (y :: l) d'). apply IH.
Qed.

Lemma crlf_after_app (prev : Z) (a b : list Z) :
  crlf_after prev (a ++ b) = crlf_after prev a || crlf_after (last a prev) b.
Proof.
  revert prev; induction a as [|c a IH]; intros prev; [reflexivity|].
  cbn [app crlf_after]. rewrite IH, orb_assoc. f_equal. f_equal.
  destruct a as [|z a]; [reflexivity|].
  change (last (c :: z :: a) prev) with (last (z :: a) prev).
  apply last_cons_default.
Qed.

Lemma io_read_line_crlf_loop_reads : forall body fd' buffer_len line ch_prev l,
  line ++ body = l ++ [13] ->
  crlf_after ch_prev body = false ->
  Z.of_nat (List.length l) + 3 <= buffer_len ->
  last body ch_prev = 13 ->
  io_read_line_crlf_loop (body ++ 10 :: fd') buffer_len line ch_prev
  = (Some l, fd').
Proof.
  induction body as [|c body IH]; intros fd' n line prev l Hl Hc Hn Hlast;
    cbn [app io_read_line_crlf_loop].
  - rewrite app_nil_r in Hl. subst line. simpl in Hlast. subst prev.
    rewrite length_app. simpl List.length.
    destruct (Z.geb_spec (Z.of_nat (List.length l + 1)) (n - 1)); [lia|].
    simpl. rewrite removelast_last. reflexivity.
  - simpl in Hc. apply orb_false_iff in Hc. destruct Hc as [Hc1 Hc2].
    assert (Hlen : (List.length line + S (List.length body) = List.length l + 1)%nat).
    { apply (f_equal (@List.length Z)) in Hl. rewrite !length_app in Hl.
      simpl in Hl. exact Hl. }
    destruct (Z.geb_spec (Z.of_nat (List.length line)) (n - 1)); [lia|].
    rewrite Hc1. apply IH; auto.
    + rewrite <- app_assoc. exact Hl.
    + destruct body as [|z body]; [exact Hlast|].
      change (last (z :: body) prev = 13) in Hlast.
      rewrite <- Hlast. apply last_cons_default.
Qed.

Lemma io_read_line_crlf_loop_sound : forall fd buffer_len line ch_prev l fd',
  ch_prev = last line 0 ->
  io_read_line_crlf_loop fd buffer_len line ch_prev = (Some l, fd') ->
  exists body,
    fd = body ++ 10 :: fd' /\ line ++ body = l ++ [13] /\
    crlf_after ch_prev body = false /\
    Z.of_nat (List.length l) + 3 <= buffer_len.
Proof.
  induction fd as [|ch fd IH]; intros n line prev l fd' Hprev H;
    cbn [io_read_line_crlf_loop] in H; [discriminate|].
  destruct (Z.geb_spec (Z.of_nat (List.length line)) (n - 1)); [discriminate|].
  destruct ((prev =? 13) && (ch =? 10)) eqn:E.
  - injection H as <- <-.
    apply andb_true_iff in E. destruct E as [E1 E2].
    apply Z.eqb_eq in E1, E2. subst ch.
    assert (Hne : line <> []) by (intros ->; simpl in Hprev; congruence).
    assert (Hline : line = removelast line ++ [13]).
    { rewrite <- E1, Hprev. apply app_removelast_last, Hne. }
    exists []. rewrite app_nil_r.
    repeat split; auto.
    rewrite Hline, length_app in H0. simpl in H0. lia.
  - apply IH in H; [|rewrite last_last; reflexivity].
    destruct H as (body & Hfd & Hl & Hc & Hn).
    exists (ch :: body). rewrite <- app_assoc in Hl.
    repeat split; auto.
    + simpl. congruence.
    + simpl. rewrite E, Hc. reflexivity.
Qed.

(** X8 (io.c, [io_read_line_crlf]): the call returns a line exactly when the
    descriptor delivers that line, with no CRLF inside, and then CRLF, and
    the buffer has room for the line, its CR and two bytes more; the
    descriptor is then left just after the CRLF.  In every other case (end
    of file before a CRLF, a line too long) it returns -1. *)
Theorem io_read_line_crlf_spec (fd fd' line : list Z) (buffer_len : Z) :
  io_read_line_crlf fd buffer_len = (Some line, fd') <->
  fd = line ++ CRLF ++ fd' /\ crlf_after 0 line = false /\
  Z.of_nat (List.length line) + 3 <= buffer_len.
Proof.
  unfold io_read_line_crlf. split.
  - destruct (Z.ltb_spec buffer_len 1); [discriminate|]. intros Hr.
    apply io_read_line_crlf_loop_sound in Hr; [|reflexivity].
    destruct Hr as (body & Hfd & Hl & Hc & Hn). simpl in Hl. subst body fd.
    rewrite <- app_assoc. repeat split; auto.
    rewrite crlf_after_app in Hc. apply orb_false_iff in Hc. apply Hc.
  - intros (-> & Hc & Hn).
    destruct (Z.ltb_spec buffer_len 1); [lia|].
    change (line ++ CRLF ++ fd') with (line ++ [13] ++ 10 :: fd').
    rewrite app_assoc.
    apply io_read_line_crlf_loop_reads; auto.
    + rewrite crlf_after_app, Hc. simpl.
      destruct (Z.eqb_spec (last line 0) 13); reflexivity.
    + rewrite last_last. reflexivity.
Qed.

(** X9 (io.c, [io_copy_stream]): with a block size above 0 the call copies
    all that the input delivers, in order, to the end of the output, leaves
    the input at its end, and returns the number of bytes copied. *)
Theorem io_copy_stream_copies_all (fd_out fd_in : list Z) (buff_size : Z) :
  0 < buff_size ->
  io_copy_stream fd_out fd_in buff_size
  = (uint64_t (Z.of_nat (List.length fd_in)), fd_out ++ fd_in, []).
Proof.
  intros H. unfold io_copy_stream.
  rewrite io_copy_stream_loop_all by (auto; lia). reflexivity.
Qed.

Lemma io_copy_stream_copies_all_witness :
  0 < 2 /\
  io_copy_stream (sz "ab") (sz "cdefg") 2
  = (uint64_t (Z.of_nat (List.length (sz "cdefg"))), sz "ab" ++ sz "cdefg", []).
Proof.
  split; [lia|]. apply (io_copy_stream_copies_all (sz "ab") (sz "cdefg") 2). lia.
Defined.

Lemma hex_value_hex_digit (d : Z) :
  0 <= d < 16 -> hex_value (hex_digit d) = d.
Proof.
  intros H. unfold hex_value, hex_digit.
  destruct (Z.ltb_spec d 10).
  - destruct (Z.ltb_spec (48 + d) 58); lia.
  - destruct (Z.ltb_spec (87 + d) 58); lia.
Qed.

Lemma printf_02x_byte (b : Z) :
  is_byte b -> printf_02x b = [hex_digit (b / 16); hex_digit (b mod 16)].
Proof.
  intros Hb. unfold is_byte in Hb. unfold printf_02x, uint32_t.
  rewrite Z.mod_small by lia.
  cbn [hex_digits].
  destruct (Z.eqb_spec (b / 16) 0) as [E|E].
  - rewrite E. reflexivity.
  - assert (H16 : 0 < b / 16 < 16).
    { split; [|apply Z.div_lt_upper_bound; lia].
      assert (0 <= b / 16) by (apply Z.div_pos; lia). lia. }
    rewrite (Z.mod_small (b / 16)) by lia.
    rewrite (Z.div_small (b / 16)) by lia. reflexivity.
Qed.

Lemma io_encode_hex_loop_bytes : forall bytes out n,
  Forall is_byte bytes ->
  io_encode_hex_loop out bytes n =
  (fold_left (fun n _ => int32_t (n + 2)) bytes n,
   out ++ flat_map (fun b => [hex_digit (b / 16); hex_digit (b mod 16)]) bytes).
Proof.
  induction bytes as [|b bytes IH]; intros out n Hb; cbn [io_encode_hex_loop].
  - simpl. rewrite app_nil_r. reflexivity.
  - inversion Hb; subst. rewrite printf_02x_byte by assumption.
    rewrite IH by assumption. simpl. rewrite <- app_assoc. reflexivity.
Qed.

Lemma fold_count (k : Z) : forall (bytes : list Z) (n : Z),
  0 <= n -> 0 < k -> n + k * Z.of_nat (List.length bytes) < 2 ^ 31 ->
  fold_left (fun n _ => int32_t (n + k)) bytes n
  = n + k * Z.of_nat (List.length bytes).
Proof.
  induction bytes as [|b bytes IH]; intros n Hn Hk Hlt; simpl; [lia|].
  simpl List.length in Hlt. rewrite Nat2Z.inj_succ, Z.mul_succ_r in Hlt.
  assert (Hp : 0 <= k * Z.of_nat (List.length bytes))
    by (apply Z.mul_nonneg_nonneg; lia).
  assert (E : int32_t (n + k) = n + k).
  { unfold int32_t. rewrite Z.mod_small; lia. }
  rewrite E, IH; simpl List.length; rewrite ?Nat2Z.inj_succ, ?Z.mul_succ_r; lia.
Qed.

Lemma decode_hex_flat_map (bytes : list Z) :
  Forall is_byte bytes ->
  decode_hex (flat_map (fun b => [hex_digit (b / 16); hex_digit (b mod 16)]) bytes)
  = bytes.
Proof.
  induction 1 as [|b bytes Hb _ IH]; cbn [flat_map app decode_hex]; auto.
  unfold is_byte in Hb.
  rewrite !hex_value_hex_digit, IH.
  - f_equal. symmetry. apply Z.div_mod. lia.
  - apply Z.mod_pos_bound. lia.
  - split; [apply Z.div_pos; lia | apply Z.div_lt_upper_bound; lia].
Qed.

(** X10 (io.c, [io_encode_hex]): the bytes are written as two hexadecimal
    digits each, so that the text decodes to the bytes again; the count
    returned is twice the number of bytes. *)
Theorem io_encode_hex_decodes (out bytes : list Z) :
  Forall is_byte bytes ->
  2 * Z.of_nat (List.length bytes) < 2 ^ 31 ->
  exists text,
    io_encode_hex out bytes (Z.of_nat (List.length bytes))
    = (2 * Z.of_nat (List.length bytes), out ++ text) /\
    Z.of_nat (List.length text) = 2 * Z.of_nat (List.length bytes) /\
    decode_hex text = bytes.
Proof.
  intros Hb Hlen. unfold io_encode_hex.
  rewrite Nat2Z.id, firstn_all, io_encode_hex_loop_bytes by assumption.
  rewrite fold_count by lia.
  eexists. split; [reflexivity|]. split.
  - clear. induction bytes; simpl List.length; [reflexivity|]. lia.
  - apply decode_hex_flat_map, Hb.
Qed.

Lemma io_encode_hex_decodes_witness :
  Forall is_byte [0; 10; 255] /\
  exists text,
    io_encode_hex (sz ">") [0; 10; 255] (Z.of_nat (List.length [0; 10; 255]))
    = (2 * Z.of_nat (List.length [0; 10; 255]), sz ">" ++ text) /\
    Z.of_nat (List.length text) = 2 * Z.of_nat (List.length [0; 10; 255]) /\
    decode_hex text = [0; 10; 255].
Proof.
  assert (H : Forall is_byte [0; 10; 255])
    by (repeat constructor; unfold is_byte; lia).
  split; [exact H|].
  apply (io_encode_hex_decodes (sz ">") [0; 10; 255] H). simpl. lia.
Defined.

Lemma nibbles_decode (b : Z) :
  is_byte b ->
  exists b7 b6 b5 b4 b3 b2 b1 b0,
    nth (Z.to_nat (Z.shiftr b 4)) nibbles [] ++ nth (Z.to_nat (Z.land b 0xf)) nibbles []
    = [b7; b6; b5; b4; b3; b2; b1; b0] /\
    fold_left (fun a c => 2 * a + (c - 48)) [b7; b6; b5; b4; b3; b2; b1; b0] 0 = b.
Proof.
  intros Hb. unfold is_byte in Hb.
  rewrite Z.shiftr_div_pow2 by lia.
  change 0xf with (Z.ones 4). rewrite Z.land_ones by lia.
  change (2 ^ 4) with 16.
  assert (Hq : 0 <= b / 16 < 16)
    by (split; [apply Z.div_pos; lia | apply Z.div_lt_upper_bound; lia]).
  assert (Hr : 0 <= b mod 16 < 16) by (apply Z.mod_pos_bound; lia).
  assert (E : b = 16 * (b / 16) + b mod 16) by (apply Z.div_mod; lia).
  set (q := b / 16) in *. set (r := b mod 16) in *.
  assert (Hnib : forall x, 0 <= x < 16 ->
    exists a3 a2 a1 a0, nth (Z.to_nat x) nibbles [] = [a3; a2; a1; a0] /\
      8 * (a3 - 48) + 4 * (a2 - 48) + 2 * (a1 - 48) + (a0 - 48) = x).
  { intros x Hx.
    assert (Hc : x = 0 \/ x = 1 \/ x = 2 \/ x = 3 \/ x = 4 \/ x = 5 \/ x = 6 \/
                 x = 7 \/ x = 8 \/ x = 9 \/ x = 10 \/ x = 11 \/ x = 12 \/
                 x = 13 \/ x = 14 \/ x = 15) by lia.
    repeat (destruct Hc as [->|Hc]; [do 4 eexists; split; reflexivity|]).
    subst x. do 4 eexists; split; reflexivity. }
  destruct (Hnib q Hq) as (a3 & a2 & a1 & a0 & Ea & Va).
  destruct (Hnib r Hr) as (c3 & c2 & c1 & c0 & Ec & Vc).
  exists a3, a2, a1, a0, c3, c2, c1, c0. rewrite Ea, Ec.
  split; [reflexivity|]. cbn [fold_left]. clearbody q r. lia.
Qed.

Lemma io_encode_bin_loop_bytes : forall bytes out n,
  Forall is_byte bytes ->
  exists text,
    io_encode_bin_loop out bytes n =
    (fold_left (fun n _ => int32_t (n + 8)) bytes n, out ++ text) /\
    Z.of_nat (List.length text) = 8 * Z.of_nat (List.length bytes) /\
    decode_bin text = bytes.
Proof.
  induction bytes as [|b bytes IH]; intros out n Hb; cbn [io_encode_bin_loop].
  - exists []. rewrite app_nil_r. auto.
  - inversion Hb; subst.
    destruct (nibbles_decode b) as (b7 & b6 & b5 & b4 & b3 & b2 & b1 & b0 & E & Hv);
      [assumption|].
    rewrite E.
    destruct (IH (out ++ [b7; b6; b5; b4; b3; b2; b1; b0])
                (int32_t (n + Z.of_nat (List.length [b7; b6; b5; b4; b3; b2; b1; b0])))
                ltac:(assumption)) as (text & Ht & Hlen & Hd).
    exists ([b7; b6; b5; b4; b3; b2; b1; b0] ++ text).
    rewrite Ht, <- app_assoc. split; [reflexivity|]. split.
    + rewrite length_app. simpl List.length. lia.
    + cbn [app decode_bin]. rewrite Hv, Hd. reflexivity.
Qed.

(** X11 (io.c, [io_encode_bin]): the bytes are written as eight binary
    digits each, the most significant first, so that the text decodes to
    the bytes again; the count returned is eight times the number of
    bytes. *)
Theorem io_encode_bin_decodes (out bytes : list Z) :
  Forall is_byte bytes ->
  8 * Z.of_nat (List.length bytes) < 2 ^ 31 ->
  exists text,
    io_encode_bin out bytes (Z.of_nat (List.length bytes))
    = (8 * Z.of_nat (List.length bytes), out ++ text) /\
    Z.of_nat (List.length text) = 8 * Z.of_nat (List.length bytes) /\
    decode_bin text = bytes.
Proof.
  intros Hb Hlen. unfold io_encode_bin.
  rewrite Nat2Z.id, firstn_all.
  destruct (io_encode_bin_loop_bytes bytes out 0 Hb) as (text & Ht & Hl & Hd).
  exists text. rewrite Ht, fold_count by lia. auto.
Qed.

Lemma io_encode_bin_decodes_witness :
  Forall is_byte [0; 10; 255] /\
  exists text,
    io_encode_bin (sz ">") [0; 10; 255] (Z.of_nat (List.length [0; 10; 255]))
    = (8 * Z.of_nat (List.length [0; 10; 255]), sz ">" ++ text) /\
    Z.of_nat (List.length text) = 8 * Z.of_nat (List.length [0; 10; 255]) /\
    decode_bin text = [0; 10; 255].
Proof.
  assert (H : Forall is_byte [0; 10; 255])
    by (repeat constructor; unfold is_byte; lia).
  split; [exact H|].
  apply (io_encode_bin_decodes (sz ">") [0; 10; 255] H). simpl. lia.
Defined.

(* ================================================================== *)
(** * Frames on the wire *)
(* ================================================================== *)

Lemma write_dataframe_frame_bytes (f : list Z) (F : Data_Frame)
    (mask_key : option (list Z)) :
  snd (fst (write_dataframe f F mask_key)) = f ++ frame_bytes F mask_key.
Proof.
  unfold frame_bytes. rewrite !write_dataframe_bytes. reflexivity.
Qed.

(** the bytes of a frame are read back as the frame, whether masked or not,
    when the reader does not insist on a mask that is not there *)
Lemma read_frame_bytes (F : Data_Frame) (mask_key : option (list Z))
    (rest : list Z) (require_masked : bool) (scratch : option Data_Frame) :
  0 <= df_opcode F < 16 ->
  df_len F < 2 ^ 63 ->
  (forall k, mask_key = Some k -> List.length k = 4%nat) ->
  (require_masked = true -> mask_key <> None) ->
  read_dataframe (frame_bytes F mask_key ++ rest) require_masked scratch
  = (inr {| df_opcode := df_opcode F; df_fin := df_fin F;
            df_size := df_size (alloc_dataframe (df_opcode F) (df_fin F)
                                  (df_len F) scratch);
            df_payload := df_payload F |}, rest).
Proof.
  intros Hop Hlen Hk Hrm.
  assert (Hnonneg : 0 <= df_len F) by (unfold df_len; lia).
  unfold frame_bytes. rewrite write_dataframe_bytes. cbn [fst snd app].
  set (len7 := if df_len F <=? 125 then uint8_t (df_len F)
               else if df_len F <=? 0xffff then 126 else 127).
  set (ext := if df_len F <=? 125 then []
              else if df_len F <=? 0xffff then htobe 2 (uint16_t (df_len F))
              else htobe 8 (uint64_t (df_len F))).
  set (mask := match mask_key with None => false | Some _ => true end).
  assert (Hlen7 : 0 <= len7 < 128).
  { subst len7. unfold uint8_t.
    destruct (Z.leb_spec (df_len F) 125);
      [rewrite Z.mod_small by lia; lia |].
    destruct (df_len F <=? 0xffff); lia. }
  set (hdr := dfh_bytes _).
  destruct (dfh_roundtrip (df_opcode F) (df_fin F) len7 mask Hop Hlen7)
    as (Ho & Hf & Hl & Hm & _).
  fold hdr in Ho, Hf, Hl, Hm.
  set (key := match mask_key with Some k => firstn 4 k | None => [] end).
  set (payload := match mask_key with
                  | Some k => xor_mask k 0 (df_payload F)
                  | None => df_payload F
                  end).
  rewrite <- !app_assoc.
  rewrite (read_dataframe_wire hdr ext key payload rest
             require_masked scratch (df_len F)).
  - rewrite Ho, Hf, Hm. do 3 f_equal.
    subst mask key payload. destruct mask_key as [k|]; [|reflexivity].
    rewrite firstn_exact by (symmetry; apply Hk; reflexivity).
    apply xor_mask_involutive.
  - reflexivity.
  - rewrite Hm. subst mask. destruct mask_key; [reflexivity|].
    destruct require_masked; [|reflexivity]. exfalso. apply Hrm; reflexivity.
  - rewrite Hl. subst len7 ext. unfold uint8_t, uint16_t, uint64_t.
    destruct (Z.leb_spec (df_len F) 125);
      [right; right; rewrite Z.mod_small by lia; repeat split; lia|].
    destruct (Z.leb_spec (df_len F) 0xffff).
    + right; left. rewrite (Z.mod_small (df_len F)) by lia.
      split; [reflexivity|]. split; [apply htobe_length|].
      rewrite betoh_htobe. apply Z.mod_small.
      change (2 ^ (8 * Z.of_nat 2)) with 65536. lia.
    + left. rewrite (Z.mod_small (df_len F)) by lia.
      split; [reflexivity|]. split; [apply htobe_length|]. split; [|lia].
      rewrite betoh_htobe. apply Z.mod_small.
      change (2 ^ (8 * Z.of_nat 8)) with (2 ^ 64). lia.
  - rewrite Hm. subst mask key. destruct mask_key as [k|]; [|reflexivity].
    rewrite firstn_exact by (symmetry; apply Hk; reflexivity).
    apply Hk; reflexivity.
  - subst payload. destruct mask_key; [rewrite xor_mask_length|]; reflexivity.
Qed.

(** X12 (ws.c, [write_dataframe], [read_dataframe]): a reader that does not
    require masking (a client reading from the server) reads back every
    frame written, unmasked or masked, with the same opcode, fin bit and
    payload, and leaves the bytes after the frame in the stream. *)
Theorem frame_roundtrip_without_required_mask (F : Data_Frame)
    (mask_key : option (list Z)) (f rest : list Z) (scratch : option Data_Frame) :
  0 <= df_opcode F < 16 ->
  df_len F < 2 ^ 63 ->
  (forall k, mask_key = Some k -> List.length k = 4%nat) ->
  exists out F_w F',
    write_dataframe f F mask_key = (true, f ++ out, F_w) /\
    read_dataframe (out ++ rest) false scratch = (inr F', rest) /\
    df_opcode F' = df_opcode F /\ df_fin F' = df_fin F /\
    df_payload F' = df_payload F.
Proof.
  intros Hop Hlen Hk.
  exists (frame_bytes F mask_key). eexists. eexists. split.
  - rewrite <- write_dataframe_frame_bytes, write_dataframe_bytes. reflexivity.
  - rewrite read_frame_bytes by (auto; discriminate).
    split; [reflexivity|]. repeat split.
Qed.

Lemma frame_roundtrip_without_required_mask_witness :
  let F := client_frame OC_TEXT true (sz "hello") in
  0 <= df_opcode F < 16 /\ df_len F < 2 ^ 63 /\
  exists out F_w F',
    write_dataframe [] F None = (true, [] ++ out, F_w) /\
    read_dataframe (out ++ [1; 2]) false None = (inr F', [1; 2]) /\
    df_opcode F' = df_opcode F /\ df_fin F' = df_fin F /\
    df_payload F' = df_payload F.
Proof.
  cbv zeta.
  assert (H1 : 0 <= df_opcode (client_frame OC_TEXT true (sz "hello")) < 16)
    by (change (0 <= 1 < 16); lia).
  assert (H2 : df_len (client_frame OC_TEXT true (sz "hello")) < 2 ^ 63)
    by (change (5 < 2 ^ 63); lia).
  split; [exact H1|]. split; [exact H2|].
  apply (frame_roundtrip_without_required_mask
           (client_frame OC_TEXT true (sz "hello")) None [] [1; 2] None H1 H2).
  discriminate.
Defined.

(** when masking is required, a frame that is accepted had its mask bit
    set *)
Lemma read_dataframe_mask_bit (f f' : list Z)
    (scratch : option Data_Frame) (F : Data_Frame) :
  read_dataframe f true scratch = (inr F, f') ->
  exists b0 b1 tail, f = b0 :: b1 :: tail /\ Z.testbit b1 7 = true.
Proof.
  unfold read_dataframe. unfold rd_bind at 1. unfold rd_fread at 1.
  destruct (Z.ltb_spec (Z.of_nat (List.length f)) 2); [discriminate|].
  destruct f as [|b0 [|b1 tail]]; simpl List.length in *; try lia.
  intros Hr. exists b0, b1, tail. split; [reflexivity|].
  change (firstn (Z.to_nat 2) (b0 :: b1 :: tail)) with [b0; b1] in Hr.
  unfold dfh_of_bytes in Hr at 1. cbn [dfh_mask nth] in Hr.
  destruct (Z.testbit b1 7); [reflexivity|]. discriminate.
Qed.

(** X13 (ws.c, [read_dataframe]): when masking is required, a frame whose
    mask bit (bit 7 of the second header byte) is clear is refused as soon
    as the two header bytes are read, whatever follows; so every frame
    that is accepted from a client had its mask bit set. *)
Theorem read_dataframe_requires_mask (scratch : option Data_Frame) :
  (forall b0 b1 tail,
     Z.testbit b1 7 = false ->
     read_dataframe (b0 :: b1 :: tail) true scratch
     = (inl Unexpected_mask_bit, tail)) /\
  (forall f F f',
     read_dataframe f true scratch = (inr F, f') ->
     exists b0 b1 tail, f = b0 :: b1 :: tail /\ Z.testbit b1 7 = true).
Proof.
  split.
  - intros b0 b1 tail Hb. unfold read_dataframe.
    change (b0 :: b1 :: tail) with ([b0; b1] ++ tail).
    rewrite rd_bind_fread by reflexivity.
    unfold dfh_of_bytes. cbn [dfh_mask nth]. rewrite Hb. reflexivity.
  - intros f F f' H. exact (read_dataframe_mask_bit f f' scratch F H).
Qed.

Lemma read_dataframe_requires_mask_witness :
  Z.testbit 0x01 7 = false /\
  read_dataframe [0x81; 0x01; 0x41] true None = (inl Unexpected_mask_bit, [0x41]) /\
  read_dataframe [0x81; 0x81; 1; 2; 3; 4; 0x40] true None
    = (inr {| df_opcode := 1; df_fin := true; df_size := 25;
              df_payload := [0x41] |}, []) /\
  exists b0 b1 tail,
    [0x81; 0x81; 1; 2; 3; 4; 0x40] = b0 :: b1 :: tail /\ Z.testbit b1 7 = true.
Proof.
  assert (H : read_dataframe [0x81; 0x81; 1; 2; 3; 4; 0x40] true None
    = (inr {| df_opcode := 1; df_fin := true; df_size := 25;
              df_payload := [0x41] |}, [])) by (vm_compute; reflexivity).
  split; [reflexivity|].
  split; [apply (proj1 (read_dataframe_requires_mask None) 0x81 0x01 [0x41]);
          reflexivity|].
  split; [exact H|].
  exact (proj2 (read_dataframe_requires_mask None) _ _ _ H).
Defined.

Lemma testbit_63 (x : Z) :
  2 ^ 63 <= x < 2 ^ 64 -> (Z.land x (Z.shiftl 1 63) =? 0) = false.
Proof.
  intros H. apply Z.eqb_neq. intros E.
  assert (T : Z.testbit (Z.land x (Z.shiftl 1 63)) 63 = true).
  { rewrite Z.land_spec, Z.shiftl_spec by lia.
    replace (Z.testbit x 63) with true; [reflexivity|].
    symmetry. apply Z.testbit_true; [lia|].
    replace (x / 2 ^ 63) with 1; [reflexivity|].
    apply Z.div_unique with (r := x - 2 ^ 63); lia. }
  rewrite E in T. rewrite Z.testbit_0_l in T. discriminate.
Qed.

(** X14 (ws.c, [read_dataframe]): a 64-bit extended length with its most
    significant bit set is refused, whatever follows and whether the frame
    is masked or not: the header and the eight length bytes are consumed
    and no frame is returned.  The one case that does not come to the
    length is the unmasked frame read with masking required, which is
    refused after its two header bytes. *)
Theorem read_dataframe_refuses_len64_msb (b0 b1 len64 : Z) (rest : list Z)
    (require_masked : bool) (scratch : option Data_Frame) :
  Z.land b1 127 = 127 ->
  2 ^ 63 <= len64 < 2 ^ 64 ->
  read_dataframe ([b0; b1] ++ htobe 8 len64 ++ rest) require_masked scratch
  = if negb (Z.testbit b1 7) && require_masked
    then (inl Unexpected_mask_bit, htobe 8 len64 ++ rest)
    else (inl Len64_msb_set, rest).
Proof.
  intros Hl Hlen. unfold read_dataframe.
  rewrite rd_bind_fread by reflexivity.
  unfold dfh_of_bytes. cbn [dfh_mask dfh_len dfh_opcode dfh_fin nth].
  destruct (negb (Z.testbit b1 7) && require_masked); [reflexivity|].
  rewrite Hl. cbn [Z.eqb Pos.eqb].
  rewrite rd_bind_assoc.
  rewrite rd_bind_fread by (rewrite htobe_length; reflexivity).
  assert (E : betoh (htobe 8 len64) = len64).
  { rewrite betoh_htobe. apply Z.mod_small.
    change (2 ^ (8 * Z.of_nat 8)) with (2 ^ 64). lia. }
  rewrite E.
  assert (T := testbit_63 len64 Hlen).
  unfold rd_bind at 1. rewrite T. reflexivity.
Qed.

Lemma read_dataframe_refuses_len64_msb_witness :
  Z.land 0x7F 127 = 127 /\
  2 ^ 63 <= 2 ^ 63 + 5 < 2 ^ 64 /\
  read_dataframe ([0x82; 0x7F] ++ htobe 8 (2 ^ 63 + 5) ++ [1; 2; 3; 4; 9]) false None
  = if negb (Z.testbit 0x7F 7) && false
    then (inl Unexpected_mask_bit, htobe 8 (2 ^ 63 + 5) ++ [1; 2; 3; 4; 9])
    else (inl Len64_msb_set, [1; 2; 3; 4; 9]).
Proof.
  split; [reflexivity|]. split; [lia|].
  apply (read_dataframe_refuses_len64_msb 0x82 0x7F (2 ^ 63 + 5) [1; 2; 3; 4; 9]
           false None);
    [reflexivity | lia].
Defined.

Lemma rd_extends_ret : forall A (a : A), rd_extends (rd_ret a).
Proof. intros A a f x f' more H. unfold rd_ret in *. congruence. Qed.

Lemma rd_extends_fail : forall A e, rd_extends (@rd_fail A e).
Proof. intros A e f x f' more H. discriminate. Qed.

Lemma rd_extends_fread : forall n e, rd_extends (rd_fread n e).
Proof.
  intros n e f x f' more H. unfold rd_fread in *.
  destruct (Z.ltb_spec (Z.of_nat (List.length f)) n); [discriminate|].
  injection H as <- <-.
  rewrite length_app.
  destruct (Z.ltb_spec (Z.of_nat (List.length f + List.length more)) n); [lia|].
  rewrite firstn_app, skipn_app.
  replace (Z.to_nat n - List.length f)%nat with 0%nat by lia.
  simpl. rewrite app_nil_r. reflexivity.
Qed.

Lemma rd_extends_bind : forall A B (m : Rd A) (k : A -> Rd B),
  rd_extends m -> (forall a, rd_extends (k a)) -> rd_extends (rd_bind m k).
Proof.
  intros A B m k Hm Hk f b f' more H. unfold rd_bind in *.
  destruct (m f) as [[e|a] f1] eqn:E; [discriminate|].
  rewrite (Hm _ _ _ more E). apply Hk, H.
Qed.

Lemma rd_extends_if : forall A (c : bool) (m1 m2 : Rd A),
  rd_extends m1 -> rd_extends m2 -> rd_extends (if c then m1 else m2).
Proof. intros A [] m1 m2 H1 H2; assumption. Qed.

Lemma read_dataframe_extends (require_masked : bool) (scratch : option Data_Frame) :
  rd_extends (fun f => read_dataframe f require_masked scratch).
Proof.
  unfold read_dataframe.
  apply rd_extends_bind; [apply rd_extends_fread|]. intros hdr.
  apply rd_extends_if; [apply rd_extends_fail|].
  apply rd_extends_bind.
  { apply rd_extends_if.
    - apply rd_extends_bind; [apply rd_extends_fread|]. intros b.
      apply rd_extends_if; [apply rd_extends_fail|apply rd_extends_ret].
    - apply rd_extends_if; [|apply rd_extends_ret].
      apply rd_extends_bind; [apply rd_extends_fread|]. intros b.
      apply rd_extends_ret. }
  intros len64. apply rd_extends_bind.
  { apply rd_extends_if; [apply rd_extends_fread|apply rd_extends_ret]. }
  intros mask_key. apply rd_extends_if; [|apply rd_extends_ret].
  apply rd_extends_bind; [apply rd_extends_fread|]. intros payload.
  apply rd_extends_ret.
Qed.

(** X15 (ws.c, [read_dataframe]): a frame cut short is not a frame: from a
    proper prefix of the bytes of a frame, [read_dataframe] returns NULL. *)
Theorem read_dataframe_truncated (F : Data_Frame) (mask_key : option (list Z))
    (p q : list Z) (require_masked : bool) (scratch : option Data_Frame) :
  0 <= df_opcode F < 16 ->
  df_len F < 2 ^ 63 ->
  (forall k, mask_key = Some k -> List.length k = 4%nat) ->
  frame_bytes F mask_key = p ++ q -> q <> [] ->
  exists e f', read_dataframe p require_masked scratch = (inl e, f').
Proof.
  intros Hop Hlen Hk Hpq Hq.
  destruct (read_dataframe p require_masked scratch) as [[e|F'] f'] eqn:E.
  - exists e, f'. reflexivity.
  - exfalso.
    assert (Hrm : require_masked = true -> mask_key <> None).
    { intros ->. apply read_dataframe_mask_bit in E.
      destruct E as (b0 & b1 & tail & -> & Hb).
      intros ->. unfold frame_bytes in Hpq.
      rewrite write_dataframe_bytes in Hpq. cbn [fst snd app] in Hpq.
      set (len7 := if df_len F <=? 125 then uint8_t (df_len F)
                   else if df_len F <=? 0xffff then 126 else 127) in *.
      assert (Hlen7 : 0 <= len7 < 128).
      { subst len7. unfold uint8_t.
        destruct (Z.leb_spec (df_len F) 125);
          [assert (0 <= df_len F) by (unfold df_len; lia);
           rewrite Z.mod_small by lia; lia |].
        destruct (df_len F <=? 0xffff); lia. }
      destruct (dfh_roundtrip (df_opcode F) (df_fin F) len7 false Hop Hlen7)
        as (_ & _ & _ & Hm & _).
      unfold dfh_of_bytes in Hm. cbn [dfh_mask] in Hm.
      unfold dfh_bytes in Hm, Hpq. cbn [nth] in Hm.
      apply (f_equal (fun l => nth 1 l 0)) in Hpq. cbn [app nth] in Hpq.
      rewrite <- Hpq in Hb. rewrite Hb in Hm. discriminate. }
    apply (read_dataframe_extends require_masked scratch p F' f' q) in E.
    rewrite <- Hpq, <- (app_nil_r (frame_bytes F mask_key)) in E.
    rewrite read_frame_bytes in E by assumption.
    injection E as _ E. symmetry in E. apply app_eq_nil in E. apply Hq, E.
Qed.

Lemma read_dataframe_truncated_witness :
  let F := client_frame OC_TEXT true (sz "hello") in
  0 <= df_opcode F < 16 /\ df_len F < 2 ^ 63 /\
  frame_bytes F (Some sample_mask_key)
    = [0x81; 0x85; 2; 1; 1; 2; 0x6a; 0x64] ++ [0x6d; 0x6e; 0x6d] /\
  exists e f',
    read_dataframe [0x81; 0x85; 2; 1; 1; 2; 0x6a; 0x64] true None = (inl e, f').
Proof.
  cbv zeta.
  assert (H1 : 0 <= df_opcode (client_frame OC_TEXT true (sz "hello")) < 16)
    by (change (0 <= 1 < 16); lia).
  assert (H2 : df_len (client_frame OC_TEXT true (sz "hello")) < 2 ^ 63)
    by (change (5 < 2 ^ 63); lia).
  assert (H3 : frame_bytes (client_frame OC_TEXT true (sz "hello")) (Some sample_mask_key)
    = [0x81; 0x85; 2; 1; 1; 2; 0x6a; 0x64] ++ [0x6d; 0x6e; 0x6d])
    by (vm_compute; reflexivity).
  split; [exact H1|]. split; [exact H2|]. split; [exact H3|].
  apply (read_dataframe_truncated (client_frame OC_TEXT true (sz "hello"))
           (Some sample_mask_key) [0x81; 0x85; 2; 1; 1; 2; 0x6a; 0x64]
           [0x6d; 0x6e; 0x6d] true None H1 H2);
    [|exact H3|discriminate].
  intros k Hk. injection Hk as <-. reflexivity.
Defined.

(* ================================================================== *)
(** * Sessions: fragments, control frames, closing *)
(* ================================================================== *)

(** more fuel does not change what the loop of [_ws_read] returns *)
Lemma _ws_read_loop_mono : forall fuel fuel' ws opcode_prev r,
  (fuel <= fuel')%nat ->
  _ws_read_loop fuel ws opcode_prev = Some r ->
  _ws_read_loop fuel' ws opcode_prev = Some r.
Proof.
  induction fuel as [|fuel IH]; intros fuel' ws prev r Hle H; [discriminate|].
  destruct fuel' as [|fuel']; [lia|].
  cbn [_ws_read_loop] in *.
  destruct (read_dataframe (f_in ws) (is_masked_client ws) (df ws)) as [[e|d] f'];
    [exact H|].
  repeat match type of H with
         | context [if ?c then _ else _] => destruct c
         | context [let '(_, _) := ?x in _] => destruct x
         end;
    try exact H; try (apply IH; [lia | exact H]).
Qed.

(** [_ws_read] returns what its loop returns with any fuel that suffices *)
Lemma _ws_read_of_loop : forall fuel ws r,
  _ws_read_loop fuel ws (-1) = Some r -> _ws_read ws = Some r.
Proof.
  intros fuel ws r H. unfold _ws_read.
  destruct (Nat.le_ge_cases fuel (S (List.length (f_in ws)))) as [Hle|Hge].
  - apply (_ws_read_loop_mono fuel); assumption.
  - destruct (_ws_read_loop_returns (S (List.length (f_in ws))) ws (-1)) as [r' Hr'];
      [lia|].
    rewrite Hr'. rewrite (_ws_read_loop_mono _ fuel _ _ _ Hge Hr') in H. exact H.
Qed.

Lemma frame_bytes_ext (a b : Data_Frame) (mask_key : option (list Z)) :
  df_opcode a = df_opcode b -> df_fin a = df_fin b ->
  df_payload a = df_payload b ->
  frame_bytes a mask_key = frame_bytes b mask_key.
Proof.
  intros Ho Hf Hp. unfold frame_bytes. rewrite !write_dataframe_bytes.
  unfold df_len. rewrite Ho, Hf, Hp. reflexivity.
Qed.

Lemma frame_bytes_length (d : Data_Frame) (mask_key : option (list Z)) :
  (2 <= List.length (frame_bytes d mask_key))%nat.
Proof.
  unfold frame_bytes. rewrite write_dataframe_bytes. cbn [fst snd app].
  unfold dfh_bytes. cbn [app List.length]. lia.
Qed.

(** a TEXT or BIN frame, or a continuation of one, read in the loop: the
    payload is appended to the message, which starts afresh unless the
    frame is a continuation; the loop ends with a final frame *)
Lemma _ws_read_loop_data : forall fuel ws opcode_prev d f' opcode,
  read_dataframe (f_in ws) (is_masked_client ws) (df ws) = (inr d, f') ->
  opcode = (if df_opcode d =? OC_CONT then opcode_prev else df_opcode d) ->
  opcode = OC_TEXT \/ opcode = OC_BIN ->
  exists ws',
    _ws_read_loop (S fuel) ws opcode_prev
    = (if df_fin d then Some (opcode, ws') else _ws_read_loop fuel ws' opcode) /\
    f_in ws' = f' /\ f_out ws' = f_out ws /\
    f_in_open ws' = f_in_open ws /\ f_out_open ws' = f_out_open ws /\
    is_masked_client ws' = is_masked_client ws /\
    buff ws' = Some (firstn (Z.to_nat (if df_opcode d =? OC_CONT
                                       then buff_len ws else 0))
                            (buff_bytes ws) ++ df_payload d) /\
    buff_len ws' = (if df_opcode d =? OC_CONT then buff_len ws else 0) + df_len d.
Proof.
  intros fuel ws prev d f' opcode Hread Hop Hdata.
  cbn [_ws_read_loop]. rewrite Hread.
  assert (Hp : firstn (Z.to_nat (df_len d)) (df_payload d) = df_payload d).
  { unfold df_len. rewrite Nat2Z.id. apply firstn_all. }
  destruct (df_opcode d =? OC_CONT); rewrite <- Hop;
    (destruct Hdata as [-> | ->];
     unfold OC_TEXT, OC_BIN, OC_PING, OC_PONG, OC_CLOSE;
     cbn [Z.eqb Pos.eqb orb];
     unfold mem_append; rewrite Hp;
     destruct (df_fin d);
     (eexists; split; [reflexivity|]; repeat split)).
Qed.

Lemma _ws_read_loop_conts : forall more key rest opcode ws acc fuel,
  opcode = OC_TEXT \/ opcode = OC_BIN ->
  (is_masked_client ws = true -> key <> None) ->
  (forall k, key = Some k -> List.length k = 4%nat) ->
  Forall (fun p => Z.of_nat (List.length p) < 2 ^ 63) more ->
  more <> [] ->
  f_in ws = wire key (cont_frames more) ++ rest ->
  buff_len ws = Z.of_nat (List.length acc) ->
  firstn (List.length acc) (buff_bytes ws) = acc ->
  (List.length more <= fuel)%nat ->
  exists ws',
    _ws_read_loop fuel ws opcode = Some (opcode, ws') /\
    message ws' = acc ++ List.concat more /\
    f_in ws' = rest /\ f_out ws' = f_out ws /\
    f_in_open ws' = f_in_open ws /\ f_out_open ws' = f_out_open ws /\
    is_masked_client ws' = is_masked_client ws.
Proof.
  induction more as [|p ps IH];
    intros key rest opcode ws acc fuel Hop Hm Hk Hlen Hne Hin Hbl Hb Hfuel;
    [congruence|].
  destruct fuel as [|fuel]; [simpl in Hfuel; lia|].
  inversion Hlen as [|? ? Hp Hps]; subst.
  set (fin := match ps with [] => true | _ => false end) in *.
  assert (Hread : read_dataframe (f_in ws) (is_masked_client ws) (df ws)
    = (inr {| df_opcode := OC_CONT; df_fin := fin;
              df_size := df_size (alloc_dataframe OC_CONT fin
                                    (Z.of_nat (List.length p)) (df ws));
              df_payload := p |},
       wire key (cont_frames ps) ++ rest)).
  { rewrite Hin. cbn [cont_frames wire flat_map]. fold fin.
    rewrite <- app_assoc.
    apply (read_frame_bytes (client_frame OC_CONT fin p)); auto.
    change (0 <= 0 < 16). lia. }
  destruct (_ws_read_loop_data fuel ws opcode _ _ opcode Hread eq_refl Hop)
    as (ws1 & Hloop & Hin1 & Hout1 & Hio1 & Hoo1 & Hmc1 & Hb1 & Hl1).
  cbn [df_opcode df_fin df_payload] in *.
  change (OC_CONT =? OC_CONT) with true in *. cbv iota in Hb1, Hl1.
  rewrite Hbl, Nat2Z.id, Hb in Hb1.
  unfold df_len in Hl1. cbn [df_payload] in Hl1. rewrite Hbl in Hl1.
  assert (Hmsg1 : firstn (List.length (acc ++ p)) (buff_bytes ws1) = acc ++ p).
  { unfold buff_bytes. rewrite Hb1. apply firstn_all. }
  assert (Hbl1 : buff_len ws1 = Z.of_nat (List.length (acc ++ p))).
  { rewrite Hl1, length_app. lia. }
  destruct ps as [|p2 ps].
  - subst fin. exists ws1. rewrite Hloop.
    split; [reflexivity|]. cbn [List.concat]. rewrite app_nil_r.
    split.
    { unfold message. rewrite Hbl1, Nat2Z.id. exact Hmsg1. }
    cbn [cont_frames wire flat_map app] in Hin1.
    repeat split; assumption.
  - subst fin. rewrite Hloop.
    destruct (IH key rest opcode ws1 (acc ++ p) fuel) as (ws' & H1 & H2 & H3 & H4 & H5 & H6 & H7);
      [ exact Hop | rewrite Hmc1; exact Hm | exact Hk | exact Hps | discriminate
      | exact Hin1 | exact Hbl1 | exact Hmsg1 | simpl in Hfuel |- *; lia | ].
    exists ws'. rewrite H1. split; [reflexivity|].
    change (List.concat (p :: p2 :: ps)) with (p ++ List.concat (p2 :: ps)).
    rewrite app_assoc.
    repeat split; congruence.
Qed.

(** a message sent as a TEXT or BIN frame followed by any number of
    continuation frames, the last one final, read by [_ws_read] *)
Lemma _ws_read_fragments (ws : Websocket_S) (opcode : Z)
    (first : list Z) (more : list (list Z)) (key : option (list Z))
    (rest : list Z) :
  opcode = OC_TEXT \/ opcode = OC_BIN ->
  (is_masked_client ws = true -> key <> None) ->
  (forall k, key = Some k -> List.length k = 4%nat) ->
  Forall (fun p => Z.of_nat (List.length p) < 2 ^ 63) (first :: more) ->
  f_in ws = wire key (fragments opcode first more) ++ rest ->
  exists ws',
    _ws_read ws = Some (opcode, ws') /\
    message ws' = first ++ List.concat more /\
    f_in ws' = rest /\ f_out ws' = f_out ws /\
    f_in_open ws' = f_in_open ws /\ f_out_open ws' = f_out_open ws /\
    is_masked_client ws' = is_masked_client ws.
Proof.
  intros Hop Hm Hk Hlen Hin.
  inversion Hlen as [|? ? Hp Hps]; subst.
  set (fin := match more with [] => true | _ => false end) in *.
  assert (Hread : read_dataframe (f_in ws) (is_masked_client ws) (df ws)
    = (inr {| df_opcode := opcode; df_fin := fin;
              df_size := df_size (alloc_dataframe opcode fin
                                    (Z.of_nat (List.length first)) (df ws));
              df_payload := first |},
       wire key (cont_frames more) ++ rest)).
  { rewrite Hin. unfold fragments. cbn [wire flat_map]. fold fin.
    rewrite <- app_assoc.
    apply (read_frame_bytes (client_frame opcode fin first)); auto.
    change (0 <= opcode < 16). destruct Hop as [-> | ->]; unfold OC_TEXT, OC_BIN; lia. }
  assert (Hnc : (opcode =? OC_CONT) = false)
    by (destruct Hop as [-> | ->]; reflexivity).
  destruct (_ws_read_loop_data (List.length more) ws (-1) _ _ opcode Hread)
    as (ws1 & Hloop & Hin1 & Hout1 & Hio1 & Hoo1 & Hmc1 & Hb1 & Hl1);
    [cbn [df_opcode]; rewrite Hnc; reflexivity | exact Hop |].
  cbn [df_opcode df_fin df_payload] in *. rewrite Hnc in Hb1, Hl1.
  change (Z.to_nat 0) with 0%nat in Hb1. cbn [firstn app] in Hb1.
  unfold df_len in Hl1. cbn [df_payload] in Hl1.
  assert (Hmsg1 : firstn (List.length first) (buff_bytes ws1) = first).
  { unfold buff_bytes. rewrite Hb1. apply firstn_all. }
  destruct more as [|p ps].
  - subst fin. exists ws1. split.
    { apply (_ws_read_of_loop (S (List.length (@nil (list Z))))).
      rewrite Hloop. reflexivity. }
    cbn [List.concat]. rewrite app_nil_r. split.
    { unfold message. rewrite Hl1. change (0 + ?x) with x.
      rewrite Nat2Z.id. exact Hmsg1. }
    cbn [cont_frames wire flat_map app] in Hin1.
    repeat split; assumption.
  - subst fin.
    destruct (_ws_read_loop_conts (p :: ps) key rest opcode ws1 first
                (List.length (p :: ps)))
      as (ws' & H1 & H2 & H3 & H4 & H5 & H6 & H7);
      [ exact Hop | rewrite Hmc1; exact Hm | exact Hk | exact Hps | discriminate
      | exact Hin1 | rewrite Hl1; reflexivity | exact Hmsg1 | apply Nat.le_refl | ].
    exists ws'. split.
    { apply (_ws_read_of_loop (S (List.length (p :: ps)))).
      rewrite Hloop. exact H1. }
    repeat split; congruence.
Qed.

(** X17 (ws.c, [_ws_read]): a PING frame is answered at once by a PONG
    frame, unmasked, with the payload of the PING; the PING is counted, and
    the call goes on as a [_ws_read] on the bytes after the PING. *)
Theorem ping_is_answered_by_pong (ws : Websocket_S) (payload : list Z)
    (key : option (list Z)) (rest : list Z) :
  (is_masked_client ws = true -> key <> None) ->
  (forall k, key = Some k -> List.length k = 4%nat) ->
  Z.of_nat (List.length payload) < 2 ^ 63 ->
  f_in ws = frame_bytes (client_frame OC_PING true payload) key ++ rest ->
  exists ws1,
    _ws_read ws = _ws_read ws1 /\
    f_in ws1 = rest /\
    f_out ws1 = f_out ws ++ frame_bytes (client_frame OC_PONG true payload) None /\
    ping_recv_count ws1 = uint16_t (ping_recv_count ws + 1).
Proof.
  intros Hm Hk Hlen Hin.
  assert (Hread : read_dataframe (f_in ws) (is_masked_client ws) (df ws)
    = (inr {| df_opcode := OC_PING; df_fin := true;
              df_size := df_size (alloc_dataframe OC_PING true
                                    (Z.of_nat (List.length payload)) (df ws));
              df_payload := payload |}, rest)).
  { rewrite Hin.
    apply (read_frame_bytes (client_frame OC_PING true payload)); auto.
    change (0 <= 9 < 16). lia. }
  destruct (_ws_read_loop_ping (List.length (f_in ws)) ws (-1) _ _ Hread
              eq_refl eq_refl)
    as (ws1 & Hloop & Hin1 & _ & _ & _ & Hcount & Hout).
  exists ws1. split; [|split; [exact Hin1|split; [|exact Hcount]]].
  - unfold _ws_read at 1. rewrite Hloop.
    destruct (_ws_read_total ws1) as [r Hr]. rewrite Hr.
    unfold _ws_read in Hr.
    apply (_ws_read_loop_mono (S (List.length (f_in ws1)))); [|exact Hr].
    apply read_dataframe_consumes in Hread. rewrite Hin1. lia.
  - rewrite Hout, write_dataframe_frame_bytes. f_equal.
    apply frame_bytes_ext; reflexivity.
Qed.

Lemma ping_is_answered_by_pong_witness :
  let ws := fresh_session
              (frame_bytes (client_frame OC_PING true (sz "hi"))
                           (Some sample_mask_key) ++ [0x88]) in
  exists ws1,
    _ws_read ws = _ws_read ws1 /\
    f_in ws1 = [0x88] /\
    f_out ws1 = f_out ws ++ frame_bytes (client_frame OC_PONG true (sz "hi")) None /\
    ping_recv_count ws1 = uint16_t (ping_recv_count ws + 1).
Proof.
  cbv zeta.
  apply (ping_is_answered_by_pong _ (sz "hi") (Some sample_mask_key) [0x88]).
  - discriminate.
  - intros k Hk. injection Hk as <-. reflexivity.
  - change (2 < 2 ^ 63). lia.
  - reflexivity.
Defined.

(** a CLOSE frame ends [_ws_read]: the status is the first two bytes of the
    payload as a big-endian number, 0 when the payload is shorter *)
Lemma _ws_read_close (ws : Websocket_S) (payload : list Z)
    (key : option (list Z)) (rest : list Z) :
  (is_masked_client ws = true -> key <> None) ->
  (forall k, key = Some k -> List.length k = 4%nat) ->
  Z.of_nat (List.length payload) < 2 ^ 63 ->
  f_in ws = frame_bytes (client_frame OC_CLOSE true payload) key ++ rest ->
  exists ws',
    _ws_read ws = Some (OC_CLOSE, ws') /\
    f_in ws' = rest /\ f_out ws' = f_out ws /\
    f_in_open ws' = f_in_open ws /\ f_out_open ws' = f_out_open ws /\
    ws_status ws' = (if Z.of_nat (List.length payload) >=? 2
                     then betoh (firstn 2 payload) else 0).
Proof.
  intros Hm Hk Hlen Hin.
  assert (Hread : read_dataframe (f_in ws) (is_masked_client ws) (df ws)
    = (inr {| df_opcode := OC_CLOSE; df_fin := true;
              df_size := df_size (alloc_dataframe OC_CLOSE true
                                    (Z.of_nat (List.length payload)) (df ws));
              df_payload := payload |}, rest)).
  { rewrite Hin.
    apply (read_frame_bytes (client_frame OC_CLOSE true payload)); auto.
    change (0 <= 8 < 16). lia. }
  eexists. split.
  - apply (_ws_read_of_loop 1). cbn [_ws_read_loop]. rewrite Hread.
    cbn [df_opcode df_fin]. unfold OC_CLOSE, OC_CONT, OC_PING, OC_PONG.
    cbn [Z.eqb Pos.eqb]. reflexivity.
  - cbn. unfold df_len. cbn [df_payload].
    destruct (Z.of_nat (List.length payload) >=? 2); repeat split.
Qed.

(** X18 (ws.c, [ws_close], [_ws_send_close], [ws_is_open]): closing an open
    session sends one CLOSE frame, unmasked, whose payload is the status
    code as a big-endian 16-bit number; closing a closed session sends
    nothing; after [ws_close] the session is not open, and a second
    [ws_close] changes nothing. *)
Theorem ws_close_sends_one_close_frame (ws : Websocket_S) (code code' : Z) :
  f_out (ws_close ws code)
  = (if f_out_open ws
     then f_out ws ++ [0x88; 0x02] ++ htobe 2 (uint16_t code)
     else f_out ws) /\
  ws_is_open (ws_close ws code) = false /\
  ws_close (ws_close ws code) code' = ws_close ws code.
Proof.
  unfold ws_close, ws_is_open.
  destruct (f_out_open ws) eqn:E; cbn [negb].
  - unfold _ws_send_close. rewrite write_dataframe_bytes.
    cbn [set_open set_f_out f_out f_out_open f_in_open negb andb].
    split; [reflexivity|split; reflexivity].
  - repeat (cbn [negb]; rewrite ?E). rewrite andb_false_r. repeat split.
Qed.

Lemma _ws_handshake_result (f_out : list Z) (headers : Http_Headers) :
  _ws_handshake f_out headers
  = if ws_is_upgradable headers then
      match ht_get headers H_SEC_WEBSOCKET_KEY with
      | Some K => (true, snd (_ws_handshake f_out headers))
      | None => (false, f_out)
      end
    else (false, f_out).
Proof.
  unfold _ws_handshake, ws_is_upgradable.
  destruct (ht_get headers H_UPGRADE) as [v|]; [|reflexivity].
  unfold sz_equal_ignore_case. rewrite (sz_equal_ignore_case_loop_sym WS_UPGRADE v).
  destruct (sz_equal_ignore_case_loop v WS_UPGRADE); [|reflexivity].
  cbn [negb].
  destruct (ht_get headers H_SEC_WEBSOCKET_KEY) as [K|]; reflexivity.
Qed.

Lemma _ws_create_result (f_in f_out : list Z) (masked_client : bool) :
  _ws_create f_in f_out masked_client
  = (Some {| f_in := f_in; f_in_open := true;
             f_out := f_out ++ [0x89; 0x00]; f_out_open := true;
             is_masked_client := masked_client;
             df := Some (alloc_dataframe OC_PING true 0 None);
             buff := None; buff_len := 0; status_code := 0;
             ping_recv_count := 0; ping_sent_count := 0;
             pong_recv_count := 0 |}, f_out ++ [0x89; 0x00]).
Proof.
  unfold _ws_create. rewrite write_dataframe_bytes. reflexivity.
Qed.

(** X19 (ws.c, [ws_upgrade], [_ws_handshake], [ws_is_upgradable]): the
    upgrade is refused (NULL) exactly when the request has no [upgrade]
    header with the value [websocket], in any case, or has no
    [sec-websocket-key] header; a refused upgrade writes nothing. *)
Theorem ws_upgrade_refused (f_in f_out : list Z) (headers : Http_Headers)
    (uri : list Z) (masked_client : bool) :
  (fst (ws_upgrade f_in f_out headers uri masked_client) = None <->
   ws_is_upgradable headers = false \/
   ht_get headers H_SEC_WEBSOCKET_KEY = None) /\
  (fst (ws_upgrade f_in f_out headers uri masked_client) = None ->
   snd (ws_upgrade f_in f_out headers uri masked_client) = f_out).
Proof.
  unfold ws_upgrade. rewrite _ws_handshake_result.
  destruct (ws_is_upgradable headers).
  - destruct (ht_get headers H_SEC_WEBSOCKET_KEY) as [K|].
    + cbn [negb]. rewrite _ws_create_result. cbn [fst snd].
      split; [split|]; [discriminate | intros [H|H]; discriminate | discriminate].
    + cbn [negb fst snd]. split; [split|]; auto.
  - cbn [negb fst snd]. split; [split|]; auto.
Qed.

(** X16 (ws.c, [ws_wait], [_ws_read], [ws_get_msg]): a message that
    arrives as a TEXT or BIN frame followed by any number of continuation
    frames, the last one final, is reported by [ws_wait] as a text or binary
    message by the opcode of the first frame, and the message handed out
    is the concatenation of the payloads in order, whatever the session
    held before; nothing is written, and the bytes after the last frame
    stay in the stream. *)
Theorem fragments_are_reassembled (ws : Websocket_S) (opcode : Z)
    (first : list Z) (more : list (list Z)) (key : option (list Z))
    (rest : list Z) :
  opcode = OC_TEXT \/ opcode = OC_BIN ->
  (is_masked_client ws = true -> key <> None) ->
  (forall k, key = Some k -> List.length k = 4%nat) ->
  Forall (fun p => Z.of_nat (List.length p) < 2 ^ 63) (first :: more) ->
  f_in ws = wire key (fragments opcode first more) ++ rest ->
  exists ws',
    ws_wait ws = Some (if opcode =? OC_TEXT then WS_MSG_TXT else WS_MSG_BIN, ws') /\
    message ws' = first ++ List.concat more /\
    f_in ws' = rest /\ f_out ws' = f_out ws.
Proof.
  intros Hop Hm Hk Hlen Hin.
  destruct (_ws_read_fragments ws opcode first more key rest Hop Hm Hk Hlen Hin)
    as (ws' & Hr & Hmsg & Hin' & Hout' & _).
  exists ws'. unfold ws_wait. rewrite Hr.
  split; [|auto].
  destruct Hop as [-> | ->]; reflexivity.
Qed.

Lemma fragments_are_reassembled_witness :
  let ws := fresh_session
              (wire (Some sample_mask_key)
                    (fragments OC_TEXT (sz "Hel") [sz "lo, "; sz "world"]) ++ [0x88]) in
  exists ws',
    ws_wait ws = Some (if OC_TEXT =? OC_TEXT then WS_MSG_TXT else WS_MSG_BIN, ws') /\
    message ws' = sz "Hel" ++ List.concat [sz "lo, "; sz "world"] /\
    f_in ws' = [0x88] /\ f_out ws' = f_out ws.
Proof.
  cbv zeta.
  apply (fragments_are_reassembled _ OC_TEXT (sz "Hel") [sz "lo, "; sz "world"]
           (Some sample_mask_key) [0x88]).
  - left; reflexivity.
  - discriminate.
  - intros k Hk. injection Hk as <-. reflexivity.
  - repeat constructor.
  - reflexivity.
Defined.

(** one pass of the session driver: a message is sent back as it is, a
    close ends the session with 0 *)
Lemma dispatch_websocket_loop_echo (fuel : nat) (ws : Websocket_S)
    (type : WS_Msg_Type) (ws1 : Websocket_S) :
  ws_wait ws = Some (type, ws1) ->
  type = WS_MSG_TXT \/ type = WS_MSG_BIN ->
  dispatch_websocket_loop (S fuel) ws
  = dispatch_websocket_loop fuel
      (snd (ws_send_msg ws1 type (buff_bytes ws1) (buff_len ws1))).
Proof.
  intros H [-> | ->]; cbn [dispatch_websocket_loop]; rewrite H;
    unfold ws_get_msg, buff_bytes;
    destruct (ws_send_msg ws1 _ _ (buff_len ws1)); reflexivity.
Qed.

Lemma dispatch_websocket_loop_close (fuel : nat) (ws ws1 : Websocket_S) :
  ws_wait ws = Some (WS_CLOSE, ws1) ->
  dispatch_websocket_loop (S fuel) ws = Some (0, ws1).
Proof. intros H. cbn [dispatch_websocket_loop]. rewrite H. reflexivity. Qed.

(** X20 (http.c, [dispatch_websocket]; ws.c, [ws_upgrade], [ws_wait],
    [ws_send_msg], [ws_free]): the echo service.  For an upgradable request
    whose client then sends one message (in one frame or in fragments,
    masked) and a CLOSE frame, the server writes the handshake response,
    its PING, the message back as one final unmasked frame of the same
    type, and a CLOSE frame with status 1001; it returns 0 and leaves the
    bytes after the CLOSE frame unread. *)
Theorem websocket_echo_session (fd_out : list Z) (headers : Http_Headers)
    (method : HTTP_Method) (uri K : list Z) (opcode : Z)
    (first : list Z) (more : list (list Z)) (key close_payload rest : list Z) :
  ws_is_upgradable headers = true ->
  ht_get headers H_SEC_WEBSOCKET_KEY = Some K ->
  opcode = OC_TEXT \/ opcode = OC_BIN ->
  List.length key = 4%nat ->
  Forall (fun p => Z.of_nat (List.length p) < 2 ^ 63) (first :: more) ->
  Z.of_nat (List.length close_payload) < 2 ^ 63 ->
  dispatch_websocket
    (wire (Some key) (fragments opcode first more)
     ++ frame_bytes (client_frame OC_CLOSE true close_payload) (Some key) ++ rest)
    fd_out headers method uri
  = Some (0, rest,
          snd (_ws_handshake fd_out headers) ++ [0x89; 0x00]
          ++ frame_bytes (client_frame opcode true (first ++ List.concat more)) None
          ++ [0x88; 0x02; 0x03; 0xE9]).
Proof.
  intros Hup HK Hop Hkey Hlen Hclose.
  set (input := wire (Some key) (fragments opcode first more) ++ _).
  unfold dispatch_websocket, ws_upgrade.
  rewrite _ws_handshake_result, Hup, HK. cbn [negb].
  set (out_h := snd (_ws_handshake fd_out headers)).
  rewrite _ws_create_result.
  set (ws0 := {| f_in := input; f_in_open := true |}).
  assert (Hk4 : forall k, Some key = Some k -> List.length k = 4%nat)
    by (intros k Hk; injection Hk as <-; exact Hkey).
  assert (Hmk : forall b : bool, b = true -> Some key <> None) by discriminate.
  destruct (_ws_read_fragments ws0 opcode first more (Some key)
              (frame_bytes (client_frame OC_CLOSE true close_payload) (Some key) ++ rest)
              Hop (Hmk _) Hk4 Hlen eq_refl)
    as (ws1 & Hr1 & Hmsg1 & Hin1 & Hout1 & Hio1 & Hoo1 & Hmc1).
  assert (Hfuel : exists n, List.length input = S n).
  { subst input. unfold fragments. cbn [wire flat_map].
    assert (H2 := frame_bytes_length
      (client_frame opcode (match more with [] => true | _ => false end) first)
      (Some key)).
    rewrite !length_app.
    destruct (List.length (frame_bytes _ _)) as [|n]; [lia|].
    eexists. cbn [Nat.add]. reflexivity. }
  destruct Hfuel as [n Hn]. rewrite Hn.
  set (type := if opcode =? OC_TEXT then WS_MSG_TXT else WS_MSG_BIN).
  assert (Hw1 : ws_wait ws0 = Some (type, ws1)).
  { unfold ws_wait. rewrite Hr1. subst type.
    destruct Hop as [-> | ->]; reflexivity. }
  assert (Htype : type = WS_MSG_TXT \/ type = WS_MSG_BIN)
    by (subst type; destruct (opcode =? OC_TEXT); auto).
  rewrite (dispatch_websocket_loop_echo (S n) ws0 type ws1 Hw1 Htype).
  set (ws2 := snd (ws_send_msg ws1 type (buff_bytes ws1) (buff_len ws1))).
  assert (Hout2 : f_out ws2 = f_out ws0
            ++ frame_bytes (client_frame opcode true (first ++ List.concat more)) None).
  { subst ws2. unfold ws_send_msg, _ws_send_msg.
    rewrite <- Hout1.
    match goal with
    | |- context [write_dataframe ?f ?d None] =>
        assert (Hw := write_dataframe_frame_bytes f d None);
        destruct (write_dataframe f d None) as [[ok f2] d2]
    end.
    cbn [fst snd] in Hw. cbn [snd set_f_out f_out]. rewrite Hw. f_equal.
    apply frame_bytes_ext; [|reflexivity|exact Hmsg1].
    subst type. destruct Hop as [-> | ->]; reflexivity. }
  assert (Hfields2 : f_in ws2 = f_in ws1 /\ f_in_open ws2 = f_in_open ws1 /\
                     f_out_open ws2 = f_out_open ws1 /\
                     is_masked_client ws2 = is_masked_client ws1).
  { subst ws2. unfold ws_send_msg, _ws_send_msg.
    match goal with
    | |- context [write_dataframe ?f ?d None] =>
        destruct (write_dataframe f d None) as [[ok f2] d2]
    end.
    repeat split. }
  destruct Hfields2 as (Hin2 & Hio2 & Hoo2 & Hmc2).
  destruct (_ws_read_close ws2 close_payload (Some key) rest)
    as (ws3 & Hr3 & Hin3 & Hout3 & Hio3 & Hoo3 & _);
    [intros; discriminate | exact Hk4 | exact Hclose | rewrite Hin2; exact Hin1 |].
  rewrite (dispatch_websocket_loop_close n ws2 ws3)
    by (unfold ws_wait; rewrite Hr3; reflexivity).
  assert (Hopen3 : f_out_open ws3 = true).
  { rewrite Hoo3, Hoo2, Hoo1. reflexivity. }
  assert (Hfree : f_in (ws_free ws3) = f_in ws3 /\
                  f_out (ws_free ws3) = f_out ws3 ++ [0x88; 0x02; 0x03; 0xE9]).
  { unfold ws_free, ws_close. rewrite Hopen3. cbn [negb].
    unfold _ws_send_close. rewrite write_dataframe_bytes.
    destruct (buff _); split; reflexivity. }
  destruct Hfree as [Hf1 Hf2].
  rewrite Hf1, Hf2, Hin3, Hout3, Hout2.
  subst ws0. cbn [f_out]. rewrite <- !app_assoc. reflexivity.
Qed.

Lemma websocket_echo_session_witness :
  dispatch_websocket
    (wire (Some sample_mask_key) (fragments OC_TEXT (sz "Hel") [sz "lo"])
     ++ frame_bytes (client_frame OC_CLOSE true (htobe 2 1000)) (Some sample_mask_key)
     ++ [])
    [] sample_upgrade_headers M_GET (sz "/chat")
  = Some (0, [],
          snd (_ws_handshake [] sample_upgrade_headers) ++ [0x89; 0x00]
          ++ frame_bytes (client_frame OC_TEXT true (sz "Hel" ++ List.concat [sz "lo"])) None
          ++ [0x88; 0x02; 0x03; 0xE9]).
Proof.
  apply (websocket_echo_session [] sample_upgrade_headers M_GET (sz "/chat")
           sample_ws_key OC_TEXT (sz "Hel") [sz "lo"] sample_mask_key
           (htobe 2 1000) []).
  - vm_compute; reflexivity.
  - vm_compute; reflexivity.
  - left; reflexivity.
  - reflexivity.
  - repeat constructor.
  - change (2 < 2 ^ 63). lia.
Defined.

(* ================================================================== *)
(** * Requests: headers, GET, POST and PUT, status lines *)
(* ================================================================== *)

Lemma proj_mid {A B C : Type} (x : A * B * C) :
  (let '(_, b, _) := x in b) = snd (fst x).
Proof. destruct x as [[a b] c]. reflexivity. Qed.

Lemma dispatch_http_get (fs : Filesystem) (PATH_MAX : Z) (st : Http_S)
    (fd_in fd_out : list Z) (headers : Http_Headers) (uri : list Z) :
  dispatch_http fs PATH_MAX st fd_in fd_out headers M_GET uri
  = match
      match realpath_uri fs PATH_MAX st (get_uri uri) with
      | inl _ => None
      | inr path =>
          match fs_stat fs path with
          | None => None
          | Some uri_stat =>
              if negb (st_is_reg uri_stat) then None
              else match fs_open fs path with
                   | None => None
                   | Some content => Some (uri_stat, content)
                   end
          end
      end
    with
    | None =>
        (HTTP_NOT_FOUND, fd_in,
         fd_out ++ continue_100 headers
         ++ sz "HTTP/1.1 404 Not Found" ++ CRLF ++ CRLF)
    | Some (uri_stat, content) =>
        (HTTP_OK, fd_in,
         snd (fst (io_copy_stream
                     (fd_out ++ continue_100 headers
                      ++ sz "HTTP/1.1 200 OK" ++ CRLF
                      ++ (if int32_t (st_size uri_stat) >? 0
                          then sz "Content-Length: "
                               ++ printf_d (int32_t (st_size uri_stat)) ++ CRLF
                          else [])
                      ++ CRLF)
                     content (uint64_t (st_blksize uri_stat)))))
    end.
Proof.
  unfold dispatch_http, continue_100, get_uri.
  assert (Hz : (0 >? 0) = false) by reflexivity.
  destruct (ht_get headers H_EXPECT) as [valT|];
    [destruct (sz_equal_ignore_case (Some valT) (Some HV_EXPECT_100_CONTINUE))|];
    (destruct (realpath_uri fs PATH_MAX st _) as [e|path];
     [cbv beta iota zeta; rewrite Hz, <- ?app_assoc; reflexivity|];
     destruct (fs_stat fs path) as [uri_stat|];
     [|cbv beta iota zeta; rewrite Hz, <- ?app_assoc; reflexivity];
     destruct (st_is_reg uri_stat); cbn [negb];
     [|cbv beta iota zeta; rewrite Hz, <- ?app_assoc; reflexivity];
     destruct (fs_open fs path) as [content|];
     [|cbv beta iota zeta; rewrite Hz, <- ?app_assoc; reflexivity];
     cbv beta iota zeta; rewrite proj_mid;
     destruct (int32_t (st_size uri_stat) >? 0);
     rewrite <- ?app_assoc; reflexivity).
Qed.



(** X22 (http.c, [dispatch_http], [realpath_uri]): a GET is answered 200 or
    404 and reads nothing from the request input.  It is answered 200 only
    for a regular file whose canonical path has the root as a byte-prefix;
    in every other case the whole response is the 404 status line and the
    empty line. *)
Theorem get_is_200_or_404 (fs : Filesystem) (PATH_MAX : Z) (st : Http_S)
    (fd_in fd_out : list Z) (headers : Http_Headers) (uri : list Z) :
  (exists path uri_stat out,
     dispatch_http fs PATH_MAX st fd_in fd_out headers M_GET uri
       = (HTTP_OK, fd_in, out) /\
     realpath_uri fs PATH_MAX st (get_uri uri) = inr path /\
     byte_prefix (_static_files_dir st) path /\
     fs_stat fs path = Some uri_stat /\ st_is_reg uri_stat = true /\
     fs_open fs path <> None) \/
  dispatch_http fs PATH_MAX st fd_in fd_out headers M_GET uri
    = (HTTP_NOT_FOUND, fd_in,
       fd_out ++ continue_100 headers
       ++ sz "HTTP/1.1 404 Not Found" ++ CRLF ++ CRLF).
Proof.
  rewrite dispatch_http_get.
  destruct (realpath_uri fs PATH_MAX st (get_uri uri)) as [e|path] eqn:Hpath;
    [right; reflexivity|].
  destruct (fs_stat fs path) as [uri_stat|] eqn:Hstat; [|right; reflexivity].
  destruct (st_is_reg uri_stat) eqn:Hreg; cbn [negb]; [|right; reflexivity].
  destruct (fs_open fs path) as [content|] eqn:Hopen; [|right; reflexivity].
  left. exists path, uri_stat. eexists. split; [reflexivity|].
  repeat split; auto; [|congruence].
  unfold realpath_uri in Hpath.
  destruct (uint64_t _ >=? PATH_MAX); [discriminate|].
  destruct (fs_realpath fs _) as [e|q]; [discriminate|].
  destruct (sz_starts_with (Some q) (Some (_static_files_dir st))) eqn:Hsw;
    cbn [negb] in Hpath; [|discriminate].
  injection Hpath as <-. apply sz_starts_with_prefix, Hsw.
Qed.

Lemma atoi_range (v : list Z) : - 2 ^ 31 <= atoi v < 2 ^ 31.
Proof.
  unfold atoi, int32_t.
  assert (H := Z.mod_pos_bound (strtol v + 2 ^ 31) (2 ^ 32) ltac:(lia)). lia.
Qed.

(** X23 (http.c, [dispatch_http]): a POST or PUT with a [content-length]
    that [atoi] reads as n > 0 consumes exactly n bytes of body when at
    least n bytes arrive, and answers 201; when the input ends before n
    bytes it consumes what there is and answers 400.  In both cases the
    response is the status line without reason phrase and the empty
    line. *)
Theorem post_put_reads_the_body (fs : Filesystem) (PATH_MAX : Z) (st : Http_S)
    (fd_in fd_out : list Z) (headers : Http_Headers) (method : HTTP_Method)
    (uri v : list Z) :
  method = M_POST \/ method = M_PUT ->
  ht_get headers H_CONTENT_LENGTH = Some v ->
  0 < atoi v ->
  dispatch_http fs PATH_MAX st fd_in fd_out headers method uri
  = if atoi v <=? Z.of_nat (List.length fd_in)
    then (HTTP_CREATED, skipn (Z.to_nat (atoi v)) fd_in,
          fd_out ++ continue_100 headers ++ sz "HTTP/1.1 201 " ++ CRLF ++ CRLF)
    else (HTTP_BAD_REQUEST, [],
          fd_out ++ continue_100 headers ++ sz "HTTP/1.1 400 " ++ CRLF ++ CRLF).
Proof.
  intros Hm Hcl Hpos.
  assert (Hr := atoi_range v).
  unfold dispatch_http, continue_100. rewrite Hcl.
  assert (Hgt : (atoi v >? 0) = true) by (apply Z.gtb_lt; lia).
  assert (Hbody := read_body_loop_result fd_in (atoi v) ltac:(lia)).
  assert (Hz : (0 >? 0) = false) by reflexivity.
  destruct Hm as [-> | ->]; rewrite Hgt, Hbody;
    (destruct (atoi v <=? Z.of_nat (List.length fd_in));
     cbv beta iota zeta;
     [change (HTTP_OK =? HTTP_OK) with true
     |change (HTTP_BAD_REQUEST =? HTTP_OK) with false];
     cbv iota; rewrite Hz;
     (destruct (ht_get headers H_EXPECT) as [valT|];
      [destruct (sz_equal_ignore_case (Some valT) (Some HV_EXPECT_100_CONTINUE))|]);
     rewrite <- ?app_assoc; reflexivity).
Qed.

Lemma post_put_reads_the_body_witness :
  dispatch_http sample_fs sample_PATH_MAX sample_http (sz "hello, world") []
    sample_headers M_PUT (sz "/x")
  = if atoi (sz "5") <=? Z.of_nat (List.length (sz "hello, world"))
    then (HTTP_CREATED, skipn (Z.to_nat (atoi (sz "5"))) (sz "hello, world"),
          [] ++ continue_100 sample_headers ++ sz "HTTP/1.1 201 " ++ CRLF ++ CRLF)
    else (HTTP_BAD_REQUEST, [],
          [] ++ continue_100 sample_headers ++ sz "HTTP/1.1 400 " ++ CRLF ++ CRLF).
Proof.
  apply (post_put_reads_the_body sample_fs sample_PATH_MAX sample_http
           (sz "hello, world") [] sample_headers M_PUT (sz "/x") (sz "5")).
  - right; reflexivity.
  - vm_compute; reflexivity.
  - vm_compute; reflexivity.
Defined.

Lemma io_copy_stream_loop_appends : forall fuel fd_out fd_in buff_size total,
  exists more,
    snd (fst (io_copy_stream_loop fuel fd_out fd_in buff_size total))
    = fd_out ++ more.
Proof.
  induction fuel as [|fuel IH]; intros fd_out fd_in bs total;
    cbn [io_copy_stream_loop].
  - exists []. rewrite app_nil_r. reflexivity.
  - destruct (read fd_in bs) as [buff fd_in'].
    destruct (0 <? Z.of_nat (List.length buff)).
    + destruct (IH (fd_out ++ buff) fd_in' bs (total + Z.of_nat (List.length buff)))
        as [more Hmore].
      exists (buff ++ more). rewrite Hmore, app_assoc. reflexivity.
    + exists []. rewrite app_nil_r. reflexivity.
Qed.

Lemma read_body_loop_code : forall fuel fd_in req_content_len cb_total,
  fst (fst (read_body_loop fuel fd_in req_content_len cb_total HTTP_OK)) = HTTP_OK \/
  fst (fst (read_body_loop fuel fd_in req_content_len cb_total HTTP_OK))
  = HTTP_BAD_REQUEST.
Proof.
  induction fuel as [|fuel IH]; intros fd_in n t; cbn [read_body_loop];
    [left; reflexivity|].
  destruct (t <? n); [|left; reflexivity].
  destruct (read fd_in (n - t)) as [got fd_in'].
  destruct (Z.of_nat (List.length got) =? 0); [right; reflexivity|apply IH].
Qed.

(** X24 (http.c, [dispatch_http]): whatever the request, the code that
    [dispatch_http] returns is the one in the status line it writes, after
    what the output held (and the 100 Continue, if expected), and it is one
    of 200, 201, 400, 404 and 405; the bytes written before are kept. *)
Theorem status_line_carries_the_return_code (fs : Filesystem) (PATH_MAX : Z)
    (st : Http_S) (fd_in fd_out : list Z) (headers : Http_Headers)
    (method : HTTP_Method) (uri : list Z) :
  exists code fd_in' reason tail,
    dispatch_http fs PATH_MAX st fd_in fd_out headers method uri
    = (code, fd_in',
       fd_out ++ continue_100 headers
       ++ sz "HTTP/1.1 " ++ printf_d code ++ sz " " ++ reason ++ CRLF ++ tail) /\
    In code [HTTP_OK; HTTP_CREATED; HTTP_BAD_REQUEST; HTTP_NOT_FOUND;
             HTTP_METHOD_NOT_ALLOWED].
Proof.
  assert (Hget : method = M_GET -> exists code fd_in' reason tail,
    dispatch_http fs PATH_MAX st fd_in fd_out headers method uri
    = (code, fd_in',
       fd_out ++ continue_100 headers
       ++ sz "HTTP/1.1 " ++ printf_d code ++ sz " " ++ reason ++ CRLF ++ tail) /\
    In code [HTTP_OK; HTTP_CREATED; HTTP_BAD_REQUEST; HTTP_NOT_FOUND;
             HTTP_METHOD_NOT_ALLOWED]).
  { intros ->. rewrite dispatch_http_get.
    destruct (match realpath_uri fs PATH_MAX st (get_uri uri) with
              | inl _ => None | inr path => _ end) as [[uri_stat content]|].
    - unfold io_copy_stream.
      match goal with
      | |- context [io_copy_stream_loop ?n ?o ?i ?b ?t] =>
          destruct (io_copy_stream_loop_appends n o i b t) as [more Hmore];
          rewrite Hmore
      end.
      exists HTTP_OK, fd_in, HTTP_OK_REASON. eexists. split.
      + rewrite <- !app_assoc. reflexivity.
      + simpl; auto.
    - exists HTTP_NOT_FOUND, fd_in, HTTP_NOT_FOUND_REASON, CRLF. split.
      + reflexivity.
      + simpl; auto. }
  assert (Hz : (0 >? 0) = false) by reflexivity.
  assert (Hpre :
    match ht_get headers H_EXPECT with
    | Some valT =>
        if sz_equal_ignore_case (Some valT) (Some HV_EXPECT_100_CONTINUE)
        then fd_out ++ sz "HTTP/1.1 100 Continue" ++ CRLF ++ CRLF
        else fd_out
    | None => fd_out
    end = fd_out ++ continue_100 headers).
  { unfold continue_100. destruct (ht_get headers H_EXPECT) as [valT|];
      [destruct (sz_equal_ignore_case _ _)|]; rewrite ?app_nil_r; reflexivity. }
  assert (Hbody : method = M_POST \/ method = M_PUT ->
    exists code fd_in' reason tail,
    dispatch_http fs PATH_MAX st fd_in fd_out headers method uri
    = (code, fd_in',
       fd_out ++ continue_100 headers
       ++ sz "HTTP/1.1 " ++ printf_d code ++ sz " " ++ reason ++ CRLF ++ tail) /\
    In code [HTTP_OK; HTTP_CREATED; HTTP_BAD_REQUEST; HTTP_NOT_FOUND;
             HTTP_METHOD_NOT_ALLOWED]).
  { intros Hm. unfold dispatch_http. rewrite Hpre.
    set (req_content_len := match ht_get headers H_CONTENT_LENGTH with
                            | Some valT => atoi valT | None => 0 end).
    set (body := if req_content_len >? 0
                 then read_body_loop (S (List.length fd_in)) fd_in req_content_len 0 HTTP_OK
                 else (HTTP_OK, 0, fd_in)).
    assert (Hc : fst (fst body) = HTTP_OK \/ fst (fst body) = HTTP_BAD_REQUEST).
    { subst body. destruct (req_content_len >? 0); [|left; reflexivity].
      apply read_body_loop_code. }
    destruct body as [[c n] f]. cbn [fst] in Hc.
    destruct Hm as [-> | ->]; destruct Hc as [-> | ->];
      cbv beta iota zeta;
      [change (HTTP_OK =? HTTP_OK) with true
      |change (HTTP_BAD_REQUEST =? HTTP_OK) with false
      |change (HTTP_OK =? HTTP_OK) with true
      |change (HTTP_BAD_REQUEST =? HTTP_OK) with false];
      cbv iota; rewrite Hz;
      eexists _, f, [], CRLF;
      (split; [rewrite <- !app_assoc; reflexivity | simpl; auto]). }
  destruct method; try (apply Hget; reflexivity); try (apply Hbody; auto; fail).
  all: unfold dispatch_http; rewrite Hpre; cbv beta iota zeta; rewrite Hz;
    exists HTTP_METHOD_NOT_ALLOWED, fd_in, [], CRLF;
    (split; [rewrite <- !app_assoc; reflexivity | simpl; auto 6]).
Qed.

Lemma strchr_eqb (set : list Z) (c d : Z) :
  (c =? d) = true -> strchr set c = strchr set d.
Proof. intros H. apply Z.eqb_eq in H. congruence. Qed.

Lemma c_str_no_nul (set s : list Z) :
  strchr set 0 = true ->
  forallb (fun c => negb (strchr set c)) s = true -> c_str s = s.
Proof.
  intros H0. induction s as [|c s IH]; simpl; auto.
  intros H. apply andb_true_iff in H. destruct H as [Hc Hs].
  destruct (c =? 0) eqn:E.
  - rewrite (strchr_eqb set c 0 E), H0 in Hc. discriminate.
  - rewrite IH; auto.
Qed.

Lemma take_token_none (delims s : list Z) :
  forallb (fun c => negb (strchr delims c)) s = true ->
  take_token delims s = (s, []).
Proof.
  induction s as [|c s IH]; simpl; auto.
  intros H. apply andb_true_iff in H. destruct H as [Hc Hs].
  destruct (strchr delims c); [discriminate|]. rewrite IH; auto.
Qed.

Lemma take_token_at (delims n v : list Z) (d : Z) :
  forallb (fun c => negb (strchr delims c)) n = true ->
  strchr delims d = true ->
  take_token delims (n ++ d :: v) = (n, v).
Proof.
  intros Hn Hd. induction n as [|c n IH]; simpl.
  - rewrite Hd. reflexivity.
  - simpl in Hn. apply andb_true_iff in Hn. destruct Hn as [Hc Hn].
    destruct (strchr delims c); [discriminate|]. rewrite IH; auto.
Qed.

Lemma strtok_first (delims s : list Z) (c : Z) :
  strchr delims c = false ->
  strtok (c :: s) delims = Some (take_token delims (c :: s)).
Proof. intros H. unfold strtok. cbn [skip_delims]. rewrite H. reflexivity. Qed.

Lemma not_in_weaken (big small l : list Z) :
  (forall c, strchr small c = true -> strchr big c = true) ->
  forallb (fun c => negb (strchr big c)) l = true ->
  forallb (fun c => negb (strchr small c)) l = true.
Proof.
  intros H. induction l as [|c l IH]; simpl; auto. intros Hl.
  apply andb_true_iff in Hl. destruct Hl as [Hc Hl]. rewrite IH by assumption.
  destruct (strchr small c) eqn:E; [|reflexivity].
  rewrite (H c E) in Hc. discriminate.
Qed.

Lemma crlf_after_no_lf (set s : list Z) (prev : Z) :
  strchr set 10 = true ->
  forallb (fun c => negb (strchr set c)) s = true -> crlf_after prev s = false.
Proof.
  intros H10. revert prev; induction s as [|c s IH]; intros prev H; simpl; auto.
  simpl in H. apply andb_true_iff in H. destruct H as [Hc Hs].
  rewrite IH by assumption. destruct (c =? 10) eqn:E.
  - rewrite (strchr_eqb set c 10 E), H10 in Hc. discriminate.
  - rewrite andb_false_r. reflexivity.
Qed.

Lemma io_read_line_crlf_line (line rest : list Z) (buffer_len : Z) :
  crlf_after 0 line = false ->
  Z.of_nat (List.length line) + 3 <= buffer_len ->
  io_read_line_crlf (line ++ CRLF ++ rest) buffer_len = (Some line, rest).
Proof.
  intros Hc Hn. unfold io_read_line_crlf.
  destruct (Z.ltb_spec buffer_len 1); [lia|].
  change (line ++ CRLF ++ rest) with (line ++ [13] ++ 10 :: rest).
  rewrite app_assoc.
  apply io_read_line_crlf_loop_reads; auto.
  - rewrite crlf_after_app, Hc. simpl.
    destruct (Z.eqb_spec (last line 0) 13); reflexivity.
  - rewrite last_last. reflexivity.
Qed.

Lemma strchr_sub_58 (c : Z) :
  strchr [0; 10; 13] c = true -> strchr [0; 58; 10; 13] c = true.
Proof.
  unfold strchr. cbn [existsb].
  destruct (c =? 0), (c =? 58), (c =? 10), (c =? 13); auto.
Qed.

Lemma strchr_sub_colon (c : Z) :
  strchr [58] c = true -> strchr [0; 58; 10; 13] c = true.
Proof.
  unfold strchr. cbn [existsb].
  destruct (c =? 0), (c =? 58), (c =? 10), (c =? 13); auto.
Qed.

Lemma strchr_sub_crlf (c : Z) :
  strchr [10; 13] c = true -> strchr [0; 10; 13] c = true.
Proof.
  unfold strchr. cbn [existsb].
  destruct (c =? 0), (c =? 10), (c =? 13); auto.
Qed.

(** one header line as [parse_headers] takes it apart *)
Lemma header_ok_line (nv : list Z * list Z) (rest : list Z) :
  header_ok nv = true ->
  let line := fst nv ++ sz ":" ++ snd nv in
  io_read_line_crlf (line ++ CRLF ++ rest) MAX_HTTP_HEADER = (Some line, rest) /\
  (Z.of_nat (List.length line) >? 0) = true /\
  strtok (c_str line) (sz ":") = Some (fst nv, snd nv) /\
  strtok (snd nv) [10; 13] = Some (snd nv, []).
Proof.
  destruct nv as [n v]. unfold header_ok. cbn [fst snd]. intros H.
  repeat (apply andb_true_iff in H; destruct H as [H ?]).
  rename H into Hn0, H3 into Hn, H2 into Hv0, H1 into Hv, H0 into Hlen.
  apply Z.leb_le in Hlen.
  change (sz ":") with [58]. cbn [app].
  assert (Hline : forallb (fun c => negb (strchr [0; 10; 13] c)) (n ++ 58 :: v) = true).
  { rewrite forallb_app. cbn [forallb]. rewrite Hv.
    rewrite (not_in_weaken _ _ n strchr_sub_58 Hn). reflexivity. }
  split; [|split; [|split]].
  - apply io_read_line_crlf_line.
    + apply (crlf_after_no_lf [0; 10; 13]); [reflexivity|exact Hline].
    + rewrite length_app. cbn [List.length]. lia.
  - rewrite length_app. cbn [List.length]. apply Z.gtb_lt. lia.
  - rewrite (c_str_no_nul [0; 10; 13]) by (try reflexivity; exact Hline).
    destruct n as [|c n]; [discriminate|].
    cbn [app]. rewrite strtok_first.
    + change (c :: n ++ 58 :: v) with ((c :: n) ++ 58 :: v).
      rewrite take_token_at; [reflexivity| |reflexivity].
      apply (not_in_weaken _ _ _ strchr_sub_colon Hn).
    + cbn [forallb] in Hn. apply andb_true_iff in Hn. destruct Hn as [Hc _].
      destruct (strchr [58] c) eqn:E; [|reflexivity].
      rewrite (strchr_sub_colon c E) in Hc. discriminate.
  - destruct v as [|c v]; [discriminate|].
    rewrite strtok_first.
    + rewrite take_token_none; [reflexivity|].
      apply (not_in_weaken _ _ _ strchr_sub_crlf Hv).
    + cbn [forallb] in Hv. apply andb_true_iff in Hv. destruct Hv as [Hc _].
      destruct (strchr [10; 13] c) eqn:E; [|reflexivity].
      rewrite (strchr_sub_crlf c E) in Hc. discriminate.
Qed.

Lemma parse_headers_loop_block : forall nvs fuel headers body,
  forallb header_ok nvs = true ->
  (List.length (header_lines nvs ++ CRLF ++ body) < fuel)%nat ->
  parse_headers_loop fuel (header_lines nvs ++ CRLF ++ body) headers
  = Some (Some (ht_put_all headers (header_pairs nvs)), body).
Proof.
  induction nvs as [|nv nvs IH]; intros fuel headers body Hok Hfuel;
    (destruct fuel as [|fuel]; [lia|]); cbn [parse_headers_loop].
  - change (header_lines [] ++ CRLF ++ body) with ([] ++ CRLF ++ body).
    rewrite io_read_line_crlf_line; [reflexivity | reflexivity |].
    unfold MAX_HTTP_HEADER. simpl. lia.
  - cbn [forallb] in Hok. apply andb_true_iff in Hok. destruct Hok as [Hnv Hok].
    destruct (header_ok_line nv (header_lines nvs ++ CRLF ++ body) Hnv)
      as (Hread & Hlen & Hname & Hval).
    assert (Hsplit : header_lines (nv :: nvs) ++ CRLF ++ body
      = (fst nv ++ sz ":" ++ snd nv) ++ CRLF ++ header_lines nvs ++ CRLF ++ body).
    { unfold header_lines. cbn [map List.concat]. rewrite <- !app_assoc. reflexivity. }
    rewrite Hsplit in Hfuel |- *. rewrite Hread, Hlen, Hname, Hval.
    rewrite IH; [reflexivity | exact Hok |].
    rewrite !length_app in Hfuel. rewrite !length_app. simpl in Hfuel |- *. lia.
Qed.

(** X25 (http.c, [parse_headers]; ht.c, [ht_put], [ht_get]): a block of
    header lines [name:value], ended by an empty line, is read up to and
    including the empty line, leaving the body in the input.  The table
    returned answers a lookup with the value, trimmed of white space, of
    the last line whose name in lower case is the name asked for, and with
    NULL when there is no such line. *)
Theorem parse_headers_reads_the_block (nvs : list (list Z * list Z))
    (body name : list Z) :
  forallb header_ok nvs = true ->
  exists headers,
    parse_headers (header_lines nvs ++ CRLF ++ body) = Some (Some headers, body) /\
    ht_get headers name = alist_find name (rev (header_pairs nvs)).
Proof.
  intros Hok. exists (ht_put_all (ht_create 0 None) (header_pairs nvs)). split.
  - unfold parse_headers. apply parse_headers_loop_block; [exact Hok|lia].
  - rewrite ht_get_ht_put_all by (apply ht_create_wf; lia).
    rewrite ht_get_ht_create. destruct (alist_find name _); reflexivity.
Qed.

Lemma parse_headers_reads_the_block_witness :
  exists headers,
    parse_headers (header_lines [(sz "Content-Length", sz " 5 ");
                                 (sz "Host", sz " a:80");
                                 (sz "content-length", sz "7")]
                   ++ CRLF ++ sz "hello") = Some (Some headers, sz "hello") /\
    ht_get headers (sz "content-length")
    = alist_find (sz "content-length")
        (rev (header_pairs [(sz "Content-Length", sz " 5 ");
                            (sz "Host", sz " a:80");
                            (sz "content-length", sz "7")])).
Proof.
  apply (parse_headers_reads_the_block
           [(sz "Content-Length", sz " 5 "); (sz "Host", sz " a:80");
            (sz "content-length", sz "7")] (sz "hello") (sz "content-length")).
  vm_compute; reflexivity.
Defined.

(* ================================================================== *)
(** * The root of the static files *)
(* ================================================================== *)

(** X26 (http.c, [http_init], [realpath_uri]): after a successful
    [http_init] the length recorded for the root is the length of the root
    stored, which is not empty, is at most [PATH_MAX] bytes long and names
    a directory; and from then on [realpath_uri] refuses with ENAMETOOLONG,
    without asking the file system, every URI that with the root would
    fill [PATH_MAX] bytes or more. *)
Theorem http_init_records_the_root (fs : Filesystem) (PATH_MAX : Z)
    (st0 st : Http_S) (icky_files_dir : list Z) :
  0 < PATH_MAX < 2 ^ 31 ->
  http_init fs PATH_MAX st0 icky_files_dir = (0, 0, st) ->
  _static_files_dir_len st = strlen (_static_files_dir st) /\
  0 < strlen (_static_files_dir st) <= PATH_MAX /\
  io_is_dir fs (_static_files_dir st) = true /\
  (forall uri, strlen uri < 2 ^ 31 ->
     PATH_MAX <= strlen (_static_files_dir st) + strlen uri ->
     realpath_uri fs PATH_MAX st uri = inl ENAMETOOLONG).
Proof.
  intros HP Hinit.
  assert (Hdir := http_init_root_is_dir _ _ _ _ _ Hinit).
  unfold http_init in Hinit.
  destruct (fs_realpath fs icky_files_dir) as [e|dir]; [discriminate|].
  destruct (strcmp_eq (sz "/") dir); [discriminate|].
  set (dir' := firstn (Z.to_nat PATH_MAX) dir) in *.
  assert (Hlen' : 0 <= strlen dir' <= PATH_MAX).
  { unfold strlen. subst dir'. rewrite length_firstn. lia. }
  assert (El : int32_t (strlen dir') = strlen dir').
  { unfold int32_t. rewrite Z.mod_small; lia. }
  rewrite El in Hinit.
  set (cut := nth (Z.to_nat (strlen dir' - 1)) dir' 0 =? 47) in *.
  assert (Hst : exists root l,
            (if cut then (removelast dir', strlen dir' - 1) else (dir', strlen dir'))
            = (root, l) /\ (l <> 0 -> l = strlen root) /\ -1 <= l <= PATH_MAX).
  { destruct cut eqn:Ecut'.
    - exists (removelast dir'), (strlen dir' - 1). split; [reflexivity|].
      split; [|lia]. intros Hne.
      assert (Hne' : (0 < List.length dir')%nat).
      { subst cut. destruct dir' as [|c d]; [discriminate|]. simpl. lia. }
      unfold strlen in *.
      rewrite removelast_firstn_len, length_firstn. lia.
    - exists dir', (strlen dir'). split; [reflexivity|]. split; [auto|lia]. }
  destruct Hst as (root & l & Ecut & Hl & Hrange). rewrite Ecut in Hinit.
  cbv beta iota zeta in Hinit.
  cbn [_static_files_dir_len _static_files_dir] in Hinit.
  destruct (Z.eqb_spec (uint64_t l) 0) as [E0|E0]; [discriminate|].
  destruct (negb (io_is_dir fs root)); [discriminate|].
  injection Hinit as <-. cbn [_static_files_dir_len _static_files_dir] in *.
  assert (Hl0 : l <> 0) by (intros ->; apply E0; reflexivity).
  assert (Hlpos : 0 < l).
  { destruct (Z.eq_dec l (-1)) as [->|]; [|lia].
    specialize (Hl ltac:(lia)). unfold strlen in Hl. lia. }
  assert (Eu : uint64_t l = l) by (unfold uint64_t; apply Z.mod_small; lia).
  rewrite Eu. specialize (Hl Hl0). rewrite <- Hl.
  split; [reflexivity|]. split; [lia|]. split; [exact Hdir|].
  intros uri Huri Hlong. unfold realpath_uri.
  cbn [_static_files_dir_len _static_files_dir].
  assert (Eur : int32_t (strlen uri) = strlen uri).
  { unfold int32_t. rewrite Z.mod_small; unfold strlen in *; lia. }
  rewrite Eur.
  assert (Ex : uint64_t (l + strlen uri) = l + strlen uri).
  { unfold uint64_t. apply Z.mod_small. unfold strlen in *. lia. }
  rewrite Ex.
  destruct (Z.geb_spec (l + strlen uri) PATH_MAX); [reflexivity|lia].
Qed.

Lemma http_init_records_the_root_witness :
  _static_files_dir_len sample_http = strlen (_static_files_dir sample_http) /\
  0 < strlen (_static_files_dir sample_http) <= sample_PATH_MAX /\
  io_is_dir sample_fs (_static_files_dir sample_http) = true /\
  (forall uri, strlen uri < 2 ^ 31 ->
     sample_PATH_MAX <= strlen (_static_files_dir sample_http) + strlen uri ->
     realpath_uri sample_fs sample_PATH_MAX sample_http uri = inl ENAMETOOLONG).
Proof.
  apply (http_init_records_the_root sample_fs sample_PATH_MAX http_start
           sample_http (sz "./web")).
  - unfold sample_PATH_MAX. lia.
  - vm_compute; reflexivity.
Defined.

(* ================================================================== *)
(** * Addresses and random strings *)
(* ================================================================== *)

Lemma strtok_token (delims p rest : list Z) (d : Z) :
  negb (bytes_eqb p []) = true ->
  forallb (fun c => negb (strchr delims c)) p = true ->
  strchr delims d = true ->
  strtok (p ++ d :: rest) delims = Some (p, rest).
Proof.
  intros Hne Hp Hd. destruct p as [|c p]; [discriminate|].
  cbn [app]. rewrite strtok_first.
  - change (c :: p ++ d :: rest) with ((c :: p) ++ d :: rest).
    rewrite take_token_at; auto.
  - cbn [forallb] in Hp. apply andb_true_iff in Hp. destruct Hp as [Hc _].
    destruct (strchr delims c); [discriminate|reflexivity].
Qed.

Lemma strtok_last_token (delims p : list Z) :
  negb (bytes_eqb p []) = true ->
  forallb (fun c => negb (strchr delims c)) p = true ->
  strtok p delims = Some (p, []).
Proof.
  intros Hne Hp. destruct p as [|c p]; [discriminate|].
  rewrite strtok_first.
  - rewrite take_token_none; auto.
  - cbn [forallb] in Hp. apply andb_true_iff in Hp. destruct Hp as [Hc _].
    destruct (strchr delims c); [discriminate|reflexivity].
Qed.

Lemma octet_value (x : Z) : Z.land (uint32_t x) 0xFF = x mod 256.
Proof.
  change 0xFF with 255. rewrite land_255. unfold uint32_t.
  change (2 ^ 8) with 256.
  apply Z.mod_mod_divide. exists (2 ^ 24). reflexivity.
Qed.

Lemma ipv4_octet_value (p : list Z) (shift : Z) :
  0 <= shift <= 24 ->
  ipv4_octet p shift = Z.shiftl (atoi p mod 256) shift.
Proof.
  intros Hs. unfold ipv4_octet. rewrite octet_value.
  unfold uint32_t. apply Z.mod_small.
  assert (H := Z.mod_pos_bound (atoi p) 256 ltac:(lia)).
  rewrite Z.shiftl_mul_pow2 by lia.
  assert (Hp : 0 < 2 ^ shift <= 2 ^ 24).
  { split; [apply Z.pow_pos_nonneg; lia | apply Z.pow_le_mono_r; lia]. }
  split; [apply Z.mul_nonneg_nonneg; lia|].
  apply Z.le_lt_trans with (255 * 2 ^ 24); [|reflexivity].
  apply Z.mul_le_mono_nonneg; lia.
Qed.

(** X27 (net.c, [net_atoipv4]): a text of four tokens separated by single
    dots, each token not empty, at most 15 bytes in all, is parsed to the
    address whose bytes, from the least significant, are the values that
    [atoi] gives the four tokens, each reduced modulo 256. *)
Theorem net_atoipv4_packs_the_octets (a b c d : list Z) :
  dotless a = true -> dotless b = true -> dotless c = true -> dotless d = true ->
  strlen (a ++ sz "." ++ b ++ sz "." ++ c ++ sz "." ++ d) <= 15 ->
  net_atoipv4 (a ++ sz "." ++ b ++ sz "." ++ c ++ sz "." ++ d)
  = atoi a mod 256 + 2 ^ 8 * (atoi b mod 256) + 2 ^ 16 * (atoi c mod 256)
    + 2 ^ 24 * (atoi d mod 256).
Proof.
  unfold dotless. intros Ha Hb Hc Hd Hlen.
  apply andb_true_iff in Ha, Hb, Hc, Hd.
  destruct Ha as [Ha0 Ha], Hb as [Hb0 Hb], Hc as [Hc0 Hc], Hd as [Hd0 Hd].
  unfold net_atoipv4.
  destruct (Z.gtb_spec (strlen (a ++ sz "." ++ b ++ sz "." ++ c ++ sz "." ++ d)) 15);
    [lia|].
  change (sz ".") with [46] in *. cbn [app].
  rewrite (strtok_token [46] a _ 46 Ha0 Ha eq_refl).
  rewrite (strtok_token [46] b _ 46 Hb0 Hb eq_refl).
  rewrite (strtok_token [46] c _ 46 Hc0 Hc eq_refl).
  rewrite (strtok_last_token [46] d Hd0 Hd).
  rewrite octet_value, !ipv4_octet_value by lia.
  assert (Ba := Z.mod_pos_bound (atoi a) 256 ltac:(lia)).
  assert (Bb := Z.mod_pos_bound (atoi b) 256 ltac:(lia)).
  assert (Bc := Z.mod_pos_bound (atoi c) 256 ltac:(lia)).
  assert (Bd := Z.mod_pos_bound (atoi d) 256 ltac:(lia)).
  rewrite (lor_shiftl_add (atoi a mod 256)) by lia.
  rewrite (lor_shiftl_add (atoi a mod 256 + atoi b mod 256 * 2 ^ 8)) by lia.
  rewrite lor_shiftl_add by lia.
  lia.
Qed.

Lemma net_atoipv4_packs_the_octets_witness :
  net_atoipv4 (sz "192" ++ sz "." ++ sz "168" ++ sz "." ++ sz "0" ++ sz "." ++ sz "1")
  = atoi (sz "192") mod 256 + 2 ^ 8 * (atoi (sz "168") mod 256)
    + 2 ^ 16 * (atoi (sz "0") mod 256) + 2 ^ 24 * (atoi (sz "1") mod 256).
Proof.
  apply (net_atoipv4_packs_the_octets (sz "192") (sz "168") (sz "0") (sz "1"));
    try reflexivity.
  vm_compute; discriminate.
Defined.





(* ================================================================== *)
(** * A request, from the first line to the dispatch *)
(* ================================================================== *)

Lemma strchr_sub_space (c : Z) :
  strchr [32] c = true -> strchr [0; 32; 10] c = true.
Proof.
  unfold strchr. cbn [existsb]. destruct (c =? 0), (c =? 32), (c =? 10); auto.
Qed.

Lemma strchr_sub_nul_lf (c : Z) :
  strchr [0; 10] c = true -> strchr [0; 32; 10] c = true.
Proof.
  unfold strchr. cbn [existsb]. destruct (c =? 0), (c =? 32), (c =? 10); auto.
Qed.

(** X29 (http.c, [http_client_connect], [parse_headers], [http_method]): a
    request made of a request line with three tokens separated by single
    spaces (a method that [http_method] knows, a URI, a version that scans
    as [HTTP/<int>.<int>]), a block of header lines and an empty line is
    read up to the empty line and handed, with the method, the URI, the
    table of the headers and the body still unread, to [dispatch_websocket]
    when the headers ask for the websocket upgrade and to [dispatch_http]
    otherwise. *)
Theorem request_is_dispatched (fs : Filesystem) (PATH_MAX : Z) (st : Http_S)
    (sz_method uri version : list Z) (nvs : list (list Z * list Z))
    (body fd_client_out : list Z) :
  token_ok sz_method = true -> token_ok uri = true -> token_ok version = true ->
  Z.of_nat (List.length (request_line sz_method uri version)) + 3 <= MAX_HTTP_REQ + 1 ->
  sscanf_http_version version <> None ->
  http_method sz_method <> M_UNKNOWN ->
  forallb header_ok nvs = true ->
  http_client_connect fs PATH_MAX st
    (request_line sz_method uri version ++ CRLF ++ header_lines nvs ++ CRLF ++ body)
    fd_client_out
  = (let headers := ht_put_all (ht_create 0 None) (header_pairs nvs) in
     if ws_is_upgradable headers
     then dispatch_websocket body fd_client_out headers (http_method sz_method) uri
     else Some (dispatch_http fs PATH_MAX st body fd_client_out headers
                  (http_method sz_method) uri)).
Proof.
  unfold token_ok. intros Hm Hu Hv Hlen Hscan Hknown Hok.
  apply andb_true_iff in Hm, Hu, Hv.
  destruct Hm as [Hm0 Hm], Hu as [Hu0 Hu], Hv as [Hv0 Hv].
  unfold request_line in *. change (sz " ") with [32] in *. cbn [app] in *.
  set (line := sz_method ++ 32 :: uri ++ 32 :: version) in *.
  assert (Hline : forallb (fun c => negb (strchr [0; 10] c)) line = true).
  { subst line. rewrite forallb_app. cbn [forallb]. rewrite forallb_app.
    cbn [forallb].
    rewrite (not_in_weaken _ _ _ strchr_sub_nul_lf Hm),
            (not_in_weaken _ _ _ strchr_sub_nul_lf Hu),
            (not_in_weaken _ _ _ strchr_sub_nul_lf Hv). reflexivity. }
  unfold http_client_connect.
  rewrite io_read_line_crlf_line;
    [| apply (crlf_after_no_lf [0; 10]); [reflexivity|exact Hline] | exact Hlen].
  rewrite (c_str_no_nul [0; 10]) by (try reflexivity; exact Hline).
  subst line.
  change (sz " ") with [32].
  rewrite (strtok_token [32] sz_method _ 32 Hm0
             (not_in_weaken _ _ _ strchr_sub_space Hm) eq_refl).
  cbv beta iota.
  rewrite (strtok_token [32] uri _ 32 Hu0
             (not_in_weaken _ _ _ strchr_sub_space Hu) eq_refl).
  cbv beta iota.
  rewrite (strtok_last_token [32] version Hv0
             (not_in_weaken _ _ _ strchr_sub_space Hv)).
  destruct (sscanf_http_version version) as [[v_maj v_min]|]; [|congruence].
  unfold parse_headers.
  rewrite parse_headers_loop_block by (auto; lia).
  cbv zeta.
  destruct (http_method sz_method); [congruence| | | | | | | |]; reflexivity.
Qed.

Lemma request_is_dispatched_witness :
  http_client_connect sample_fs sample_PATH_MAX sample_http
    (request_line (sz "PUT") (sz "/x") (sz "HTTP/1.1") ++ CRLF
     ++ header_lines [(sz "Content-Length", sz " 5")] ++ CRLF ++ sz "hello") []
  = (let headers := ht_put_all (ht_create 0 None)
                      (header_pairs [(sz "Content-Length", sz " 5")]) in
     if ws_is_upgradable headers
     then dispatch_websocket (sz "hello") [] headers (http_method (sz "PUT")) (sz "/x")
     else Some (dispatch_http sample_fs sample_PATH_MAX sample_http (sz "hello") []
                  headers (http_method (sz "PUT")) (sz "/x"))).
Proof.
  apply (request_is_dispatched sample_fs sample_PATH_MAX sample_http
           (sz "PUT") (sz "/x") (sz "HTTP/1.1")
           [(sz "Content-Length", sz " 5")] (sz "hello") []);
    try reflexivity.
  - vm_compute; discriminate.
  - vm_compute; discriminate.
  - vm_compute; discriminate.
Defined.

(* ================================================================== *)
(** * Every request gets one answer *)
(* ================================================================== *)





